(** * ue5-mcp_server.py: the Unreal Engine remote-control tools

    A shallow embedding of [src/ue5-mcp_server.py].  The Python coroutines
    become functions in a state-and-exception monad.  The state holds what
    the code can observe or change outside itself:

    - the replies of the remote-control endpoint, in the order the engine
      gives them (one per [requests.put]);
    - the payloads sent so far;
    - the records written to the logger;
    - the random generator.

    JSON values keep Python's dynamic typing: the operations the code applies
    to a decoded body ([.get], truthiness, [in], iteration, [len], [*]) are
    defined on every JSON value and raise where Python raises. *)

From Stdlib Require Import String List ZArith QArith Qreduction Bool Lia.
Import ListNotations.
Local Open Scope string_scope.
Local Open Scope list_scope.

(** ** Numbers

    Python floats (and the ints of a JSON body) are kept abstract: the code
    only compares them, tests them for zero and, in
    [spawn_snowman_family], adds, subtracts and multiplies them.  Literals of
    the source are given by their decimal value. *)

Class PyNumber : Type := {
  num : Type;
  num_eqb : num -> num -> bool;
  num_lit : Q -> num;
  num_add : num -> num -> num;
  num_sub : num -> num -> num;
  num_mul : num -> num -> num
}.

(** Exact rationals, for running the model on concrete inputs. *)
Definition QNumber : PyNumber := {|
  num := Q;
  num_eqb := Qeq_bool;
  num_lit := fun q => Qred q;
  num_add := fun a b => Qred (a + b);
  num_sub := fun a b => Qred (a - b);
  num_mul := fun a b => Qred (a * b)
|}.

(** ** Exceptions *)

(** [except requests.exceptions.RequestException] against [except Exception]:
    only the class matters to the handlers, and [str(e)] to the results. *)
Inductive exn_kind : Type :=
| RequestException   (* Timeout, ConnectionError, HTTPError, JSONDecodeError *)
| OtherException.    (* AttributeError, TypeError, ... *)

Record exn : Type := Exn { kind : exn_kind; message : string }.

Inductive result (A : Type) : Type :=
| Ret (a : A)
| Raise (e : exn).
Arguments Ret {A} a.
Arguments Raise {A} e.

Definition rbind {A B} (r : result A) (k : A -> result B) : result B :=
  match r with
  | Ret a => k a
  | Raise e => Raise e
  end.

Local Set Warnings "-register-all".

Section Model.
Context {PN : PyNumber}.

(** ** JSON values as Python sees them after [response.json()] *)

Inductive json : Type :=
| JNull
| JBool (b : bool)
| JNum (n : num)
| JStr (s : string)
| JArr (l : list json)
| JObj (kv : list (string * json)).

Definition PyInt (z : Z) : json := JNum (num_lit (inject_Z z)).

Fixpoint lookup (k : string) (kv : list (string * json)) : option json :=
  match kv with
  | [] => None
  | (k', v) :: tl => if String.eqb k k' then Some v else lookup k tl
  end.

(** [bool(v)] *)
Definition py_truthy (v : json) : bool :=
  match v with
  | JNull => false
  | JBool b => b
  | JNum n => negb (num_eqb n (num_lit 0))
  | JStr s => negb (String.eqb s "")
  | JArr l => match l with [] => false | _ => true end
  | JObj kv => match kv with [] => false | _ => true end
  end.

(** [a == b] on decoded JSON: [True == 1], lists compare element by element,
    dicts by key set and values. *)
Fixpoint py_eqb (a b : json) {struct a} : bool :=
  match a, b with
  | JNull, JNull => true
  | JBool x, JBool y => Bool.eqb x y
  | JBool x, JNum n => num_eqb (num_lit (if x then 1 else 0)) n
  | JNum n, JBool y => num_eqb n (num_lit (if y then 1 else 0))
  | JNum n, JNum m => num_eqb n m
  | JStr s, JStr t => String.eqb s t
  | JArr l, JArr m =>
      (fix go (l : list json) (m : list json) {struct l} : bool :=
         match l, m with
         | [], [] => true
         | x :: l', y :: m' => py_eqb x y && go l' m'
         | _, _ => false
         end) l m
  | JObj kv, JObj kv' =>
      Nat.eqb (length kv) (length kv') &&
      (fix go (kv : list (string * json)) : bool :=
         match kv with
         | [] => true
         | (k, v) :: tl =>
             match lookup k kv' with
             | Some v' => py_eqb v v' && go tl
             | None => false
             end
         end) kv
  | _, _ => false
  end.

Definition AttributeError (what : string) : exn :=
  Exn OtherException ("AttributeError: " ++ what).
Definition TypeError (what : string) : exn :=
  Exn OtherException ("TypeError: " ++ what).

(** [d.get(k, default)]: only a dict has [.get]. *)
Definition py_get (d : json) (k : string) (default : json) : result json :=
  match d with
  | JObj kv => Ret (match lookup k kv with Some v => v | None => default end)
  | _ => Raise (AttributeError "object has no attribute 'get'")
  end.

Fixpoint chars (s : string) : list json :=
  match s with
  | EmptyString => []
  | String c tl => JStr (String c EmptyString) :: chars tl
  end.

(** [for actor in v]: a list gives its elements, a string its characters, a
    dict its keys. *)
Definition py_iter (v : json) : result (list json) :=
  match v with
  | JArr l => Ret l
  | JStr s => Ret (chars s)
  | JObj kv => Ret (map (fun p => JStr (fst p)) kv)
  | _ => Raise (TypeError "object is not iterable")
  end.

Definition is_substring (t s : string) : bool :=
  match String.index 0 t s with Some _ => true | None => false end.

(** [item in container] *)
Definition py_contains (container item : json) : result bool :=
  match container with
  | JArr l => Ret (existsb (py_eqb item) l)
  | JStr s =>
      match item with
      | JStr t => Ret (is_substring t s)
      | _ => Raise (TypeError "'in <string>' requires string as left operand")
      end
  | JObj kv =>
      match item with
      | JStr t => Ret (existsb (fun p => String.eqb t (fst p)) kv)
      | JArr _ | JObj _ => Raise (TypeError "unhashable type")
      | _ => Ret false
      end
  | _ => Raise (TypeError "argument is not iterable")
  end.

(** [type(v).__name__]; the model has one kind of number and names it
    [float]. *)
Definition py_type_name (v : json) : string :=
  match v with
  | JNull => "NoneType"
  | JBool _ => "bool"
  | JNum _ => "float"
  | JStr _ => "str"
  | JArr _ => "list"
  | JObj _ => "dict"
  end.

(** [len(v)] *)
Definition py_len (v : json) : result nat :=
  match v with
  | JArr l => Ret (length l)
  | JStr s => Ret (String.length s)
  | JObj kv => Ret (length kv)
  | _ => Raise (Exn OtherException
                    ("object of type '" ++ py_type_name v ++ "' has no len()"))
  end.

Fixpoint repeat_string (n : nat) (s : string) : string :=
  match n with
  | O => ""
  | S n' => s ++ repeat_string n' s
  end.

(** [k * v] for an int constant [k > 0] of the module. *)
Definition py_int_mul (k : Z) (v : json) : result json :=
  match v with
  | JNum n => Ret (JNum (num_mul (num_lit (inject_Z k)) n))
  | JBool b => Ret (PyInt (if b then k else 0))
  | JStr s => Ret (JStr (repeat_string (Z.to_nat k) s))
  | JArr l => Ret (JArr (concat (repeat l (Z.to_nat k))))
  | JNull | JObj _ => Raise (TypeError "unsupported operand type(s) for *")
  end.

(** [[actor for actor in after_actors if actor not in before_actors]], over
    the items of [after_actors]. *)
Fixpoint not_in_before (items : list json) (before_actors : json)
  : result (list json) :=
  match items with
  | [] => Ret []
  | actor :: tl =>
      rbind (py_contains before_actors actor) (fun seen =>
      rbind (not_in_before tl before_actors) (fun rest =>
      Ret (if seen then rest else actor :: rest)))
  end.

Definition new_actors_of (after_actors before_actors : json)
  : result (list json) :=
  rbind (py_iter after_actors) (fun items => not_in_before items before_actors).

(** [new_actors[-1]] of a non-empty list. *)
Definition py_last (l : list json) : json := last l JNull.

(** ** The world outside the process *)

(** What [requests.put(UE_URL, json=payload, timeout=5)] gives back: either
    it raises (timeout, connection refused: a [RequestException]), or a
    response with a status ([ok] is what [raise_for_status] tests) and a
    body ([None] when the body is not JSON). *)
Record response : Type := Response { ok : bool; body : option json }.

Inductive reply : Type :=
| PutRaises (msg : string)
| Replies (r : response).

Inductive level : Type := INFO | WARNING | ERROR.

(** A logger call: level, the text of the f-string and the values it
    interpolates. *)
Record log_record : Type :=
  Log { log_level : level; log_text : string; log_args : list json }.

Record state : Type := State {
  replies : list reply;          (* the engine's replies still to come *)
  sent : list json;              (* payloads of the calls made, oldest first *)
  logged : list log_record;      (* logger output, oldest first *)
  random_source : nat -> num;    (* successive values of random.random() *)
  random_used : nat              (* how many of them were drawn *)
}.

(** ** The monad of the coroutines *)

Definition M (A : Type) : Type := state -> result A * state.

Definition ret {A} (a : A) : M A := fun st => (Ret a, st).
Definition raise {A} (e : exn) : M A := fun st => (Raise e, st).
Definition bind {A B} (c : M A) (k : A -> M B) : M B :=
  fun st =>
    match c st with
    | (Ret a, st') => k a st'
    | (Raise e, st') => (Raise e, st')
    end.
Definition lift {A} (r : result A) : M A := fun st => (r, st).

Notation "x <- c ;; k" := (bind c (fun x => k))
  (at level 61, c at next level, right associativity).
Notation "c ;; k" := (bind c (fun _ => k))
  (at level 61, right associativity).

(** [try: body  except ... as e: handler e]; a handler that does not catch
    the class re-raises. *)
Definition try_except {A} (body : M A) (handler : exn -> M A) : M A :=
  fun st =>
    match body st with
    | (Ret a, st') => (Ret a, st')
    | (Raise e, st') => handler e st'
    end.

Definition logger (l : level) (text : string) (args : list json) : M unit :=
  fun st =>
    (Ret tt, State (replies st) (sent st) (logged st ++ [Log l text args])
                   (random_source st) (random_used st)).

(** [await asyncio.sleep(0.5)]: no effect on the modelled state. *)
Definition asyncio_sleep : M unit := ret tt.

(** [requests.put]: the payload goes out and the next reply comes back; when
    no reply is left the engine is unreachable. *)
Definition requests_put (payload : json) : M response :=
  fun st =>
    let out tl := State tl (sent st ++ [payload]) (logged st)
                        (random_source st) (random_used st) in
    match replies st with
    | [] => (Raise (Exn RequestException "ConnectionError"), out [])
    | PutRaises msg :: tl => (Raise (Exn RequestException msg), out tl)
    | Replies r :: tl => (Ret r, out tl)
    end.

Definition raise_for_status (r : response) : M unit :=
  if ok r then ret tt else raise (Exn RequestException "HTTPError").

(** [response.json()]; requests raises its own [JSONDecodeError], a
    [RequestException]. *)
Definition response_json (r : response) : M json :=
  match body r with
  | Some j => ret j
  | None => raise (Exn RequestException "JSONDecodeError")
  end.

(** [random.uniform(a, b)] is [a + (b - a) * random()]. *)
Definition random_uniform (a b : num) : M num :=
  fun st =>
    (Ret (num_add a (num_mul (num_sub b a) (random_source st (random_used st)))),
     State (replies st) (sent st) (logged st)
           (random_source st) (S (random_used st))).

(** ** Module constants *)

Definition SNOWMAN_WIDTH : Z := 350.
Definition SNOWMAN_LENGTH : Z := 350.

Definition vec3 : Type := (num * num * num)%type.

Definition vec_arg (v : vec3) : json :=
  let '(a, b, c) := v in JArr [JNum a; JNum b; JNum c].

Definition xyz (v : vec3) : json :=
  let '(a, b, c) := v in JObj [("X", JNum a); ("Y", JNum b); ("Z", JNum c)].

Definition rotator (v : vec3) : json :=
  let '(p, y, r) := v in
  JObj [("Pitch", JNum p); ("Yaw", JNum y); ("Roll", JNum r)].

(** [if name:] for an [Optional[str]]. *)
Definition name_given (name : option string) : bool :=
  match name with
  | Some s => negb (String.eqb s "")
  | None => false
  end.

Definition name_json (name : option string) : json :=
  match name with Some s => JStr s | None => JNull end.

(** [scale != (1, 1, 1)] *)
Definition scale_differs (scale : vec3) : bool :=
  let '(a, b, c) := scale in
  negb (num_eqb a (num_lit 1) && num_eqb b (num_lit 1) && num_eqb c (num_lit 1)).

(** ** Helper coroutines *)

Definition get_actors_payload : json :=
  JObj [("objectPath", JStr "/Script/UnrealEd.Default__EditorActorSubsystem");
        ("functionName", JStr "GetAllLevelActors")].

Definition get_all_level_actors : M json :=
  try_except
    (response <- requests_put get_actors_payload ;;
     raise_for_status response ;;
     result <- response_json response ;;
     lift (py_get result "ReturnValue" (JArr [])))
    (fun e =>
       match kind e with
       | RequestException =>
           logger ERROR "Error getting level actors: {e}" [JStr (message e)] ;;
           ret (JArr [])
       | OtherException => raise e
       end).

Definition set_scale_payload (actor_path : json) (scale : json) : json :=
  JObj [("objectPath", actor_path);
        ("functionName", JStr "SetActorScale3D");
        ("parameters", JObj [("NewScale3D", scale)])].

Definition set_name_payload (actor_path : json) (name : json) : json :=
  JObj [("objectPath", actor_path);
        ("functionName", JStr "SetActorLabel");
        ("parameters", JObj [("NewActorLabel", name)])].

Definition set_location_payload (actor_path : json) (location : json) : json :=
  JObj [("objectPath", actor_path);
        ("functionName", JStr "SetActorLocation");
        ("parameters", JObj [("NewLocation", location)])].

Definition set_rotation_payload (actor_path : json) (rotation : json) : json :=
  JObj [("objectPath", actor_path);
        ("functionName", JStr "SetActorRotation");
        ("parameters", JObj [("NewRotation", rotation)])].

Definition spawn_payload (blueprint_path : string) (location rotation : vec3)
  : json :=
  JObj [("objectPath",
         JStr "/Script/EditorScriptingUtilities.Default__EditorLevelLibrary");
        ("functionName", JStr "SpawnActorFromClass");
        ("parameters",
         JObj [("ActorClass", JStr blueprint_path);
               ("Location", xyz location);
               ("Rotation", rotator rotation)]);
        ("generateTransaction", JBool true)].

(** One remote call with its status check:
    [response = requests.put(...); response.raise_for_status()]. *)
Definition put_checked (payload : json) : M response :=
  response <- requests_put payload ;;
  raise_for_status response ;;
  ret response.

(** The two handlers of the helpers,
    [except RequestException as e: ... return None] and
    [except Exception as e: ... return None].  The "Response details" record
    is never written: [e.response] is [None] for what [requests.put] and
    [json()] raise, and a response with an error status is falsy. *)
Definition return_none_logging (text : string) (e : exn) : M (option json) :=
  match kind e with
  | RequestException => logger ERROR text [JStr (message e)] ;; ret None
  | OtherException =>
      logger ERROR "Unexpected error: {e}" [JStr (message e)] ;; ret None
  end.

Definition spawn_blueprint_actor
    (blueprint_path : string) (location rotation scale : vec3)
    (name : option string) : M (option json) :=
  try_except
    (logger INFO "Spawning {blueprint_path} at location {location}cm"
            [JStr blueprint_path; vec_arg location] ;;
     response <- put_checked (spawn_payload blueprint_path location rotation) ;;
     result <- response_json response ;;
     actor_path <- lift (py_get result "ReturnValue" JNull) ;;
     if negb (py_truthy actor_path) then
       logger ERROR "No actor path returned from spawn request" [] ;;
       ret None
     else
       (if scale_differs scale then
          put_checked (set_scale_payload actor_path (xyz scale)) ;; ret tt
        else ret tt) ;;
       (if name_given name then
          put_checked (set_name_payload actor_path (name_json name)) ;; ret tt
        else ret tt) ;;
       logger INFO "Successfully spawned actor: {actor_path}" [actor_path] ;;
       ret (Some actor_path))
    (return_none_logging "Error spawning blueprint actor: {e}").

(** *** duplicate_snowman *)

Definition quat_identity_typed : json :=
  JObj [("__type", JStr "Quat"); ("X", JNum (num_lit 0)); ("Y", JNum (num_lit 0));
        ("Z", JNum (num_lit 0)); ("W", JNum (num_lit 1))].

Definition vector_typed (v : vec3) : json :=
  let '(a, b, c) := v in
  JObj [("__type", JStr "Vector"); ("X", JNum a); ("Y", JNum b); ("Z", JNum c)].

(** The structured-typed form. *)
Definition transform (location scale : vec3) : json :=
  JObj [("__type", JStr "Transform");
        ("Rotation", quat_identity_typed);
        ("Scale3D", vector_typed scale);
        ("Translation", vector_typed location)].

(** The flat-field form. *)
Definition transform_alt1 (location scale : vec3) : json :=
  JObj [("Translation", xyz location);
        ("Rotation", JObj [("X", JNum (num_lit 0)); ("Y", JNum (num_lit 0));
                           ("Z", JNum (num_lit 0)); ("W", JNum (num_lit 1))]);
        ("Scale3D", xyz scale)].

(** The positional-array form. *)
Definition transform_alt2 (location scale : vec3) : json :=
  JObj [("Translation", vec_arg location);
        ("Rotation", JArr [JNum (num_lit 0); JNum (num_lit 0);
                           JNum (num_lit 0); JNum (num_lit 1)]);
        ("Scale3D", vec_arg scale)].

(** [duplicate_payload], with [parameters.NewTransform] as it stands when
    the call is made. *)
Definition duplicate_payload (snowman_actor_path : json) (new_transform : json)
  : json :=
  JObj [("objectPath", snowman_actor_path);
        ("functionName", JStr "Duplicate");
        ("parameters", JObj [("NewTransform", new_transform)]);
        ("generateTransaction", JBool true)].

Definition nonempty {A} (l : list A) : bool :=
  match l with [] => false | _ => true end.

(** Where the first half of [duplicate_snowman] leaves the function: at its
    [return None] (all formats failed) or at the second half with
    [new_actor_path] set. *)
Inductive resolution : Type :=
| ReturnNone
| Resolved (new_actor_path : json).

(** Lines 238-294: the snapshot, the call and the search for the new
    actor. *)
Definition resolve_new_actor
    (snowman_actor_path : json) (location scale : vec3) : M resolution :=
  logger INFO "Duplicating snowman from {snowman_actor_path} to location {location}cm"
         [snowman_actor_path; vec_arg location] ;;
  before_actors <- get_all_level_actors ;;
  response <- put_checked
                (duplicate_payload snowman_actor_path (transform location scale)) ;;
  result <- response_json response ;;
  asyncio_sleep ;;
  new_actor_path <- lift (py_get result "ReturnValue" JNull) ;;
  if negb (py_truthy new_actor_path) then
    after_actors <- get_all_level_actors ;;
    new_actors <- lift (new_actors_of after_actors before_actors) ;;
    if nonempty new_actors then
      logger INFO "Found new actor: {new_actor_path}" [py_last new_actors] ;;
      ret (Resolved (py_last new_actors))
    else
      logger INFO "No return value and no new actor found. Trying alternate transform format..." [] ;;
      put_checked
        (duplicate_payload snowman_actor_path (transform_alt1 location scale)) ;;
      asyncio_sleep ;;
      after_actors <- get_all_level_actors ;;
      new_actors <- lift (new_actors_of after_actors before_actors) ;;
      if nonempty new_actors then
        logger INFO "Found new actor with alt format 1: {new_actor_path}"
               [py_last new_actors] ;;
        ret (Resolved (py_last new_actors))
      else
        put_checked
          (duplicate_payload snowman_actor_path (transform_alt2 location scale)) ;;
        asyncio_sleep ;;
        after_actors <- get_all_level_actors ;;
        new_actors <- lift (new_actors_of after_actors before_actors) ;;
        if nonempty new_actors then
          logger INFO "Found new actor with alt format 2: {new_actor_path}"
                 [py_last new_actors] ;;
          ret (Resolved (py_last new_actors))
        else
          logger ERROR "Failed to duplicate actor with all transform formats." [] ;;
          ret ReturnNone
  else ret (Resolved new_actor_path).

(** Lines 296-346: [if new_actor_path: ... return new_actor_path] and the
    final [return None]. *)
Definition set_properties
    (new_actor_path : json) (location rotation scale : vec3)
    (name : option string) : M (option json) :=
  if py_truthy new_actor_path then
    put_checked (set_location_payload new_actor_path (xyz location)) ;;
    put_checked (set_rotation_payload new_actor_path (rotator rotation)) ;;
    put_checked (set_scale_payload new_actor_path (xyz scale)) ;;
    (if name_given name then
       put_checked (set_name_payload new_actor_path (name_json name)) ;; ret tt
     else ret tt) ;;
    logger INFO "Successfully duplicated snowman: {new_actor_path}" [new_actor_path] ;;
    ret (Some new_actor_path)
  else ret None.

Definition duplicate_snowman
    (snowman_actor_path : json) (location rotation scale : vec3)
    (name : option string) : M (option json) :=
  try_except
    (r <- resolve_new_actor snowman_actor_path location scale ;;
     match r with
     | ReturnNone => ret None
     | Resolved new_actor_path =>
         set_properties new_actor_path location rotation scale name
     end)
    (return_none_logging "Error duplicating snowman: {e}").

(** ** The tools *)

(** What a tool hands to the agent: [json.dumps(...)] of a value, or a bare
    string. *)
Inductive tool_result : Type :=
| JsonDump (value : json)
| Text (s : string).

(** [logger.error(f"Error in <tool>: {str(e)}")] and
    [logger.error(traceback.format_exc())]. *)
Definition log_tool_error (text : string) (e : exn) : M unit :=
  logger ERROR text [JStr (message e)] ;;
  logger ERROR "{traceback.format_exc()}" [JStr (message e)].

Definition get_all_scene_actors : M tool_result :=
  try_except
    (actors <- get_all_level_actors ;;
     count <- lift (py_len actors) ;;
     ret (JsonDump (JObj [("actors", actors);
                          ("count", PyInt (Z.of_nat count))])))
    (fun e =>
       log_tool_error "Error in get_all_scene_actors: {str(e)}" e ;;
       ret (Text ("Error getting scene actors: " ++ message e))).

Definition lower_xyz (v : vec3) : json :=
  let '(a, b, c) := v in JObj [("x", JNum a); ("y", JNum b); ("z", JNum c)].

Definition lower_rotation (v : vec3) : json :=
  let '(p, y, r) := v in
  JObj [("pitch", JNum p); ("yaw", JNum y); ("roll", JNum r)].

(** [if actor_path:] on what a helper returned. *)
Definition returned (actor_path : option json) : bool :=
  match actor_path with
  | Some p => py_truthy p
  | None => false
  end.

Definition path_json (actor_path : option json) : json :=
  match actor_path with Some p => p | None => JNull end.

Definition failure (error : string) : tool_result :=
  JsonDump (JObj [("success", JBool false); ("error", JStr error)]).

Definition spawn_actor
    (blueprint_path : string) (x y z pitch yaw roll scale_x scale_y scale_z : num)
    (name : option string) : M tool_result :=
  try_except
    (let location := (x, y, z) in
     let rotation := (pitch, yaw, roll) in
     let scale := (scale_x, scale_y, scale_z) in
     actor_path <- spawn_blueprint_actor blueprint_path location rotation scale name ;;
     if returned actor_path then
       ret (JsonDump (JObj [("success", JBool true);
                            ("actor_path", path_json actor_path);
                            ("location_cm", lower_xyz location);
                            ("rotation", lower_rotation rotation);
                            ("scale", lower_xyz scale);
                            ("name", JStr (if name_given name
                                           then match name with Some s => s | None => "" end
                                           else "Unnamed"))]))
     else ret (failure "Failed to spawn actor"))
    (fun e =>
       log_tool_error "Error in spawn_actor: {str(e)}" e ;;
       ret (failure (message e))).

(** *** spawn_snowman_family *)

(** [l[i]] *)
Definition item {A} (l : list A) (i : nat) : result A :=
  match nth_error l i with
  | Some a => Ret a
  | None => Raise (Exn OtherException "IndexError: list index out of range")
  end.

Definition int_lit (z : Z) : num := num_lit (inject_Z z).

(** [positions], from [spacing_x = SNOWMAN_WIDTH * 1.5] on. *)
Definition family_positions (base_x base_y base_z offset_factor : num)
  : list vec3 :=
  let spacing_x := num_mul (int_lit SNOWMAN_WIDTH) (num_lit (3 # 2)) in
  let spacing_y := num_mul (int_lit SNOWMAN_LENGTH) (num_lit (3 # 2)) in
  [ (base_x, base_y, base_z);
    (num_sub base_x (num_mul spacing_x offset_factor),
     num_add base_y (num_mul (num_mul spacing_y (num_lit (3 # 5))) offset_factor),
     base_z);
    (num_add base_x (num_mul (num_mul spacing_x (num_lit (6 # 5))) offset_factor),
     num_sub base_y (num_mul (num_mul spacing_y (num_lit (2 # 5))) offset_factor),
     base_z) ].

Definition family_scales : list vec3 :=
  [ (num_lit (6 # 5), num_lit (6 # 5), num_lit (6 # 5));
    (num_lit (9 # 10), num_lit (9 # 10), num_lit (9 # 10));
    (num_lit (7 # 5), num_lit (7 # 5), num_lit (7 # 5)) ].

Definition family_rotations : list vec3 :=
  [ (int_lit 0, int_lit 0, int_lit 0);
    (int_lit 0, int_lit 135, int_lit 0);
    (int_lit 0, int_lit (-45), int_lit 0) ].

Definition family_names : list string :=
  [ "Snowman_Center"; "Snowman_Left"; "Snowman_Right" ].

(** One element of [spawned_actors]. *)
Definition snowman_entry
    (actor_path : json) (position rotation scale : vec3) (name : string) : json :=
  JObj [("actor_path", actor_path);
        ("location_cm", lower_xyz position);
        ("size_cm",
         JObj [("width", JNum (num_mul (int_lit SNOWMAN_WIDTH) (fst (fst scale))));
               ("length", JNum (num_mul (int_lit SNOWMAN_LENGTH) (snd (fst scale))))]);
        ("rotation", lower_rotation rotation);
        ("scale", lower_xyz scale);
        ("name", JStr name)].

Definition family_failure (error : string) : tool_result :=
  JsonDump (JObj [("success", JBool false); ("error", JStr error);
                  ("snowmen", JArr [])]).

(** [for i in range(1, 3): ...], over the indices still to do. *)
Fixpoint duplicate_each
    (indices : list nat) (first_snowman : json)
    (positions rotations scales : list vec3) (names : list string)
    (spawned_actors : list json) : M (list json) :=
  match indices with
  | [] => ret spawned_actors
  | i :: tl =>
      position <- lift (item positions i) ;;
      rotation <- lift (item rotations i) ;;
      scale <- lift (item scales i) ;;
      name <- lift (item names i) ;;
      duplicated_snowman <-
        duplicate_snowman first_snowman position rotation scale (Some name) ;;
      spawned_actors' <-
        (if returned duplicated_snowman then
           ret (spawned_actors ++
                [snowman_entry (path_json duplicated_snowman)
                               position rotation scale name])
         else
           logger WARNING "Failed to duplicate snowman {i+1}"
                  [PyInt (Z.of_nat (i + 1))] ;;
           ret spawned_actors) ;;
      asyncio_sleep ;;
      duplicate_each tl first_snowman positions rotations scales names
                     spawned_actors'
  end.

Definition spawn_snowman_family
    (base_x base_y base_z spread : num) (random_placement : bool)
  : M tool_result :=
  try_except
    (let snowman_bp_path := "/Game/Snowman_BP.Snowman_BP_C" in
     offset_factor <-
       (if random_placement then
          u <- random_uniform (num_lit (4 # 5)) (num_lit (6 # 5)) ;;
          ret (num_mul spread u)
        else ret spread) ;;
     let positions := family_positions base_x base_y base_z offset_factor in
     let scales := family_scales in
     let rotations := family_rotations in
     let names := family_names in
     position0 <- lift (item positions 0) ;;
     rotation0 <- lift (item rotations 0) ;;
     scale0 <- lift (item scales 0) ;;
     name0 <- lift (item names 0) ;;
     first_snowman <-
       spawn_blueprint_actor snowman_bp_path position0 rotation0 scale0 (Some name0) ;;
     if negb (returned first_snowman) then
       ret (family_failure "Failed to spawn first snowman, cannot continue")
     else
       let spawned_actors :=
         [snowman_entry (path_json first_snowman) position0 rotation0 scale0 name0] in
       asyncio_sleep ;;
       spawned_actors <-
         duplicate_each [1; 2]%nat (path_json first_snowman)
                        positions rotations scales names spawned_actors ;;
       ret (JsonDump
              (JObj [("success", JBool true);
                     ("standard_snowman_dimensions_cm",
                      JObj [("width", PyInt SNOWMAN_WIDTH);
                            ("length", PyInt SNOWMAN_LENGTH)]);
                     ("snowmen_count", PyInt (Z.of_nat (length spawned_actors)));
                     ("snowmen", JArr spawned_actors)])))
    (fun e =>
       log_tool_error "Error in spawn_snowman_family: {str(e)}" e ;;
       ret (family_failure (message e))).

(** *** modify_actor *)

(** The two locals the four blocks of [modify_actor] update: [modified] and
    the [results] dict, in insertion order. *)
Definition locals : Type := (bool * list (string * json))%type.

(** [any(param is not None for param in [...])] *)
Definition any_given (params : list (option num)) : bool :=
  existsb (fun param => match param with Some _ => true | None => false end)
          params.

(** [param if param is not None else current.get(key, default)] *)
Definition overlay (param : option num) (current : json) (key : string)
    (default : json) : result json :=
  match param with
  | Some v => Ret (JNum v)
  | None => py_get current key default
  end.

Definition getter_payload (actor_path : string) (function_name : string) : json :=
  JObj [("objectPath", JStr actor_path); ("functionName", JStr function_name)].

Definition group_error (text key : string) (vars : locals) (e : exn) : M locals :=
  logger ERROR text [JStr (message e)] ;;
  ret (fst vars, snd vars ++ [(key, JStr (message e))]).

Definition modify_location (actor_path : string) (x y z : option num)
    (vars : locals) : M locals :=
  if any_given [x; y; z] then
    try_except
      (response <- put_checked (getter_payload actor_path "GetActorLocation") ;;
       body <- response_json response ;;
       current_loc <- lift (py_get body "ReturnValue"
                              (JObj [("X", PyInt 0); ("Y", PyInt 0); ("Z", PyInt 0)])) ;;
       new_x <- lift (overlay x current_loc "X" (PyInt 0)) ;;
       new_y <- lift (overlay y current_loc "Y" (PyInt 0)) ;;
       new_z <- lift (overlay z current_loc "Z" (PyInt 0)) ;;
       put_checked (set_location_payload (JStr actor_path)
                      (JObj [("X", new_x); ("Y", new_y); ("Z", new_z)])) ;;
       ret (true,
            snd vars ++
            [("location_cm", JObj [("x", new_x); ("y", new_y); ("z", new_z)])]))
      (group_error "Error setting actor location: {e}" "location_error" vars)
  else ret vars.

Definition modify_rotation (actor_path : string) (pitch yaw roll : option num)
    (vars : locals) : M locals :=
  if any_given [pitch; yaw; roll] then
    try_except
      (response <- put_checked (getter_payload actor_path "GetActorRotation") ;;
       body <- response_json response ;;
       current_rot <- lift (py_get body "ReturnValue"
                              (JObj [("Pitch", PyInt 0); ("Yaw", PyInt 0);
                                     ("Roll", PyInt 0)])) ;;
       new_pitch <- lift (overlay pitch current_rot "Pitch" (PyInt 0)) ;;
       new_yaw <- lift (overlay yaw current_rot "Yaw" (PyInt 0)) ;;
       new_roll <- lift (overlay roll current_rot "Roll" (PyInt 0)) ;;
       put_checked (set_rotation_payload (JStr actor_path)
                      (JObj [("Pitch", new_pitch); ("Yaw", new_yaw);
                             ("Roll", new_roll)])) ;;
       ret (true,
            snd vars ++
            [("rotation", JObj [("pitch", new_pitch); ("yaw", new_yaw);
                                ("roll", new_roll)])]))
      (group_error "Error setting actor rotation: {e}" "rotation_error" vars)
  else ret vars.

(** [results["scale"]], with the dimensions when the path names a snowman. *)
Definition scale_report (actor_path : string) (new_scale_x new_scale_y new_scale_z : json)
  : result json :=
  if is_substring "Snowman_BP" actor_path then
    rbind (py_int_mul SNOWMAN_WIDTH new_scale_x) (fun width =>
    rbind (py_int_mul SNOWMAN_LENGTH new_scale_y) (fun length =>
    Ret (JObj [("x", new_scale_x); ("y", new_scale_y); ("z", new_scale_z);
               ("actual_dimensions_cm",
                JObj [("width", width); ("length", length)])])))
  else
    Ret (JObj [("x", new_scale_x); ("y", new_scale_y); ("z", new_scale_z)]).

(** In this block [modified = True] comes before the last statement that can
    raise, so the handler is given the value [modified] has when it runs:
    the inner [try_except] covers the statements after the assignment. *)
Definition modify_scale (actor_path : string) (scale_x scale_y scale_z : option num)
    (vars : locals) : M locals :=
  if any_given [scale_x; scale_y; scale_z] then
    try_except
      (response <- put_checked (getter_payload actor_path "GetActorScale3D") ;;
       body <- response_json response ;;
       current_scale <- lift (py_get body "ReturnValue"
                                (JObj [("X", PyInt 1); ("Y", PyInt 1); ("Z", PyInt 1)])) ;;
       new_scale_x <- lift (overlay scale_x current_scale "X" (PyInt 1)) ;;
       new_scale_y <- lift (overlay scale_y current_scale "Y" (PyInt 1)) ;;
       new_scale_z <- lift (overlay scale_z current_scale "Z" (PyInt 1)) ;;
       put_checked (set_scale_payload (JStr actor_path)
                      (JObj [("X", new_scale_x); ("Y", new_scale_y);
                             ("Z", new_scale_z)])) ;;
       try_except
         (report <- lift (scale_report actor_path new_scale_x new_scale_y new_scale_z) ;;
          ret (true, snd vars ++ [("scale", report)]))
         (group_error "Error setting actor scale: {e}" "scale_error" (true, snd vars)))
      (group_error "Error setting actor scale: {e}" "scale_error" vars)
  else ret vars.

Definition modify_name (actor_path : string) (name : option string)
    (vars : locals) : M locals :=
  match name with
  | Some n =>
      try_except
        (put_checked (set_name_payload (JStr actor_path) (JStr n)) ;;
         ret (true, snd vars ++ [("name", JStr n)]))
        (group_error "Error setting actor name: {e}" "name_error" vars)
  | None => ret vars
  end.

Definition modify_actor
    (actor_path : string)
    (x y z pitch yaw roll scale_x scale_y scale_z : option num)
    (name : option string) : M tool_result :=
  try_except
    (vars <- modify_location actor_path x y z (false, []) ;;
     vars <- modify_rotation actor_path pitch yaw roll vars ;;
     vars <- modify_scale actor_path scale_x scale_y scale_z vars ;;
     vars <- modify_name actor_path name vars ;;
     if fst vars then
       ret (JsonDump (JObj [("success", JBool true);
                            ("actor_path", JStr actor_path);
                            ("modified", JObj (snd vars))]))
     else
       ret (JsonDump (JObj [("success", JBool false);
                            ("actor_path", JStr actor_path);
                            ("error", JStr "No modifications were specified");
                            ("results", JObj (snd vars))])))
    (fun e =>
       log_tool_error "Error in modify_actor: {str(e)}" e ;;
       ret (failure (message e))).

(** ** Reading the trace *)

(** [payload["functionName"]] of a call that was made. *)
Definition function_name (payload : json) : string :=
  match payload with
  | JObj kv => match lookup "functionName" kv with
               | Some (JStr f) => f
               | _ => ""
               end
  | _ => ""
  end.

Definition calls_of (f : string) (payloads : list json) : list json :=
  filter (fun p => String.eqb (function_name p) f) payloads.

(** A state in which the engine will give [rs] and nothing has happened
    yet. *)
Definition fresh (rs : list reply) : state :=
  State rs [] [] (fun _ => num_lit 0) 0.

(** A good reply with body [b]; one with a body that has no [ReturnValue]. *)
Definition good (b : json) : reply := Replies (Response true (Some b)).
Definition returning (v : json) : reply := good (JObj [("ReturnValue", v)]).
Definition empty_reply : reply := good (JObj []).
Definition http_error : reply := Replies (Response false None).

(** What [get_all_level_actors] makes of the engine's reply: the
    [ReturnValue] of a good body, the empty list when the body has none or
    the request failed, and the error of [.get] on a body that is not an
    object. *)
Definition snapshot (r : reply) : result json :=
  match r with
  | PutRaises _ => Ret (JArr [])
  | Replies resp =>
      if ok resp then
        match body resp with
        | Some result => py_get result "ReturnValue" (JArr [])
        | None => Ret (JArr [])
        end
      else Ret (JArr [])
  end.

(** The state once a call has been made and answered. *)
Definition called (st : state) (payload : json) (tl : list reply)
    (records : list log_record) : state :=
  State tl (sent st ++ [payload]) (logged st ++ records)
        (random_source st) (random_used st).

(** The actors of [after] that [before] does not hold, in the order of
    [after]. *)
Definition new_in_order (after before : list json) : list json :=
  filter (fun actor => negb (existsb (py_eqb actor) before)) after.

(** A call fails when [requests.put] or [raise_for_status] raises. *)
Definition failed (r : reply) : bool :=
  match r with
  | PutRaises _ => true
  | Replies resp => negb (ok resp)
  end.

(** The next [n] calls all succeed. *)
Fixpoint all_succeed (n : nat) (rs : list reply) : bool :=
  match n with
  | O => true
  | S n' =>
      match rs with
      | [] => false
      | r :: tl => negb (failed r) && all_succeed n' tl
      end
  end.

(** The calls [set_properties] makes: location, rotation, scale, and the
    label when a name is given. *)
Definition corrections (name : option string) : nat :=
  if name_given name then 4 else 3.

(** The state once records have been logged. *)
Definition noted (st : state) (records : list log_record) : state :=
  State (replies st) (sent st) (logged st ++ records)
        (random_source st) (random_used st).

Definition property_calls
    (new_actor_path : json) (location rotation scale : vec3)
    (name : option string) : list json :=
  [set_location_payload new_actor_path (xyz location);
   set_rotation_payload new_actor_path (rotator rotation);
   set_scale_payload new_actor_path (xyz scale)] ++
  (if name_given name
   then [set_name_payload new_actor_path (name_json name)]
   else []).

(** Of a sequence of checked calls, those that go out: all up to and
    including the first that fails. *)
Fixpoint issued (payloads : list json) (rs : list reply) : list json :=
  match payloads with
  | [] => []
  | p :: ps =>
      match rs with
      | [] => [p]
      | r :: tl => if failed r then [p] else p :: issued ps tl
      end
  end.

(** The calls [spawn_blueprint_actor] makes after the spawn itself: the
    scale when it is not [(1, 1, 1)], the label when a name is given. *)
Definition followup_calls (actor_path : json) (scale : vec3)
    (name : option string) : list json :=
  (if scale_differs scale then [set_scale_payload actor_path (xyz scale)] else [])
  ++ (if name_given name
      then [set_name_payload actor_path (name_json name)] else []).

(** What [modify_actor] writes for one component: the value given, else the
    one the engine reported, else the default of [.get]. *)
Definition filled (param : option num) (key : string)
    (current : list (string * json)) (default : Z) : json :=
  match param with
  | Some v => JNum v
  | None => match lookup key current with
            | Some c => c
            | None => PyInt default
            end
  end.

(** [new] is the value given for the component or, when none is given, the
    value the engine reported for it. *)
Definition kept (param : option num) (key : string)
    (current : list (string * json)) (new : json) : Prop :=
  match param with
  | Some v => new = JNum v
  | None => lookup key current = Some new
  end.

(** A tool's answer is structured when it is a JSON object with a boolean
    [success] and, when that is false, an [error] string. *)
Definition structured (r : tool_result) : bool :=
  match r with
  | JsonDump (JObj kv) =>
      match lookup "success" kv with
      | Some (JBool true) => true
      | Some (JBool false) =>
          match lookup "error" kv with
          | Some (JStr _) => true
          | _ => false
          end
      | _ => false
      end
  | _ => false
  end.

(** The two answers of [get_all_scene_actors]: the listing with its count,
    or a bare error text. *)
Definition listing_answer (r : tool_result) : Prop :=
  (exists actors count,
      r = JsonDump (JObj [("actors", actors); ("count", PyInt (Z.of_nat count))]))
  \/ (exists msg, r = Text msg).

(** The first record each helper logs: one per attempt to create an
    actor. *)
Definition spawn_attempt : string :=
  "Spawning {blueprint_path} at location {location}cm".
Definition duplicate_attempt : string :=
  "Duplicating snowman from {snowman_actor_path} to location {location}cm".

Definition is_attempt (text : string) : bool :=
  String.eqb text spawn_attempt || String.eqb text duplicate_attempt.

(** The attempts a log shows, oldest first. *)
Definition attempts (records : list log_record) : list string :=
  filter is_attempt (map log_text records).

(** A computation that starts no attempt. *)
Definition quiet {A} (c : M A) : Prop :=
  forall st, attempts (logged (snd (c st))) = attempts (logged st).

(** The same state with another random generator. *)
Definition with_random (st : state) (source : nat -> num) (used : nat) : state :=
  State (replies st) (sent st) (logged st) source used.

(** A computation that does not consult the random generator: with another
    generator it returns the same and leaves the same state, generator
    apart. *)
Definition random_free {A} (c : M A) : Prop :=
  forall st source used,
    c (with_random st source used)
    = (fst (c st), with_random (snd (c st)) source used).

(** *** server_lifespan *)

(** [try: body  finally: cleanup]: the cleanup runs whether the body returns
    or raises, and the body's outcome is kept unless the cleanup raises. *)
Definition try_finally {A} (body : M A) (cleanup : M unit) : M A :=
  fun st =>
    match body st with
    | (r, st') =>
        match cleanup st' with
        | (Ret _, st'') => (r, st'')
        | (Raise e, st'') => (Raise e, st'')
        end
    end.

(** The context manager around the server: what precedes [yield {}], the
    server itself ([serving], given the yielded context), and the [finally]
    block. *)
Definition server_lifespan {A} (serving : json -> M A) : M A :=
  try_finally
    (logger INFO "Unreal Engine MCP server starting up..." [] ;;
     logger INFO "Default unit system: CENTIMETERS (1 Unreal Unit = 1 cm)" [] ;;
     logger INFO "Snowman standard dimensions: {SNOWMAN_WIDTH}cm x {SNOWMAN_LENGTH}cm"
            [PyInt SNOWMAN_WIDTH; PyInt SNOWMAN_LENGTH] ;;
     try_except
       (put_checked get_actors_payload ;;
        logger INFO "Connected to Unreal Engine Remote Control API" [])
       (fun e =>
          logger WARNING "Could not connect to Unreal Engine Remote Control API: {e}"
                 [JStr (message e)] ;;
          logger WARNING "Make sure Unreal Engine is running with Remote Control API enabled" []) ;;
     serving (JObj []))
    (logger INFO "Unreal Engine MCP server shut down" []).

(** ** Counting the calls of a run *)

(** The payload calls the engine function [f]. *)
Definition is_call (f : string) (payload : json) : bool :=
  String.eqb (function_name payload) f.

Definition any_call (payload : json) : bool := true.

(** [payload["objectPath"]] is not the string [path]. *)
Definition addressed_elsewhere (path : string) (payload : json) : bool :=
  match payload with
  | JObj kv =>
      match lookup "objectPath" kv with
      | Some (JStr s) => negb (String.eqb s path)
      | _ => true
      end
  | _ => true
  end.

(** Whatever the engine replies, the run only adds payloads to those sent,
    and at most [n] of the added ones satisfy [p]. *)
Definition sends_at_most (p : json -> bool) (n : nat) {A} (c : M A) : Prop :=
  forall st, exists extra,
    sent (snd (c st)) = sent st ++ extra /\ (length (filter p extra) <= n)%nat.

(** How many of the four groups of [modify_actor] a request asks for. *)
Definition requested_groups
    (x y z pitch yaw roll scale_x scale_y scale_z : option num)
    (name : option string) : nat :=
  (if any_given [x; y; z] then 1 else 0)
  + (if any_given [pitch; yaw; roll] then 1 else 0)
  + (if any_given [scale_x; scale_y; scale_z] then 1 else 0)
  + (match name with Some _ => 1 | None => 0 end).

(** A block of [modify_actor] took [vars] to [vars']: [modified] was not
    reset, and [n] entries were added to [results], each under one of the
    two keys. *)
Definition reported (key error_key : string) (n : nat) (vars vars' : locals)
  : Prop :=
  implb (fst vars) (fst vars') = true /\
  exists more,
    snd vars' = snd vars ++ more /\ length more = n /\
    Forall (fun entry => fst entry = key \/ fst entry = error_key) more.

(** The component a request gives, or else the current one. *)
Definition choose (param : option num) (current : num) : num :=
  match param with
  | Some v => v
  | None => current
  end.

(** The replies a group of [modify_actor] consumes when the request names
    one of its components: the answer to the read, then the answer to the
    set call.  A group that is not requested consumes none. *)
Definition group_replies (requested : bool) (read set : reply) : list reply :=
  if requested then [read; set] else [].

(** The calls of a group: the read, then the set call, or none. *)
Definition group_calls (requested : bool) (read set : json) : list json :=
  if requested then [read; set] else [].

(** The label call of a request that gives a name. *)
Definition label_calls (actor_path : string) (name : option string) : list json :=
  match name with
  | Some n => [set_name_payload (JStr actor_path) (JStr n)]
  | None => []
  end.

(** What the body [kv] of a read reports as the current value: the
    components of its [ReturnValue] object, or none when it has no
    [ReturnValue]. *)
Definition reports (kv current : list (string * json)) : Prop :=
  lookup "ReturnValue" kv = Some (JObj current)
  \/ (lookup "ReturnValue" kv = None /\ current = []).

(** The reference a helper gave, if it gave one. *)
Definition reference (r : result (option json)) : option json :=
  match r with
  | Ret (Some q) => Some q
  | _ => None
  end.

(** The entry a duplication adds to [spawned_actors]: one when it gave a
    reference, none otherwise. *)
Definition entries_of (duplicated : option json)
    (position rotation scale : vec3) (name : string) : list json :=
  match duplicated with
  | Some q => [snowman_entry q position rotation scale name]
  | None => []
  end.

(** The state in which the next duplication starts: a failed one has logged
    its warning. *)
Definition after_duplication (i : nat) (duplicated : option json) (st : state)
  : state :=
  match duplicated with
  | Some _ => st
  | None => noted st [Log WARNING "Failed to duplicate snowman {i+1}"
                          [PyInt (Z.of_nat (i + 1))]]
  end.

(** The success answer of [spawn_snowman_family] for a list of snowmen. *)
Definition family_success (snowmen : list json) : tool_result :=
  JsonDump
    (JObj [("success", JBool true);
           ("standard_snowman_dimensions_cm",
            JObj [("width", PyInt SNOWMAN_WIDTH);
                  ("length", PyInt SNOWMAN_LENGTH)]);
           ("snowmen_count", PyInt (Z.of_nat (length snowmen)));
           ("snowmen", JArr snowmen)]).

(** The entries a block of [modify_actor] adds to [results]: one for a
    requested group, under the group's key or under its error key, and none
    for a group that is not requested. *)
Definition group_entry (key error_key : string) (requested : bool)
    (entries : list (string * json)) : Prop :=
  if requested
  then exists v, entries = [(key, v)] \/ entries = [(error_key, v)]
  else entries = [].

(** The keys under which [modify_actor] reports a change it made. *)
Definition is_value_key (k : string) : bool :=
  existsb (String.eqb k) ["location_cm"; "rotation"; "scale"; "name"].

(** Some entry reports a change. *)
Definition reports_change (entries : list (string * json)) : bool :=
  existsb (fun entry => is_value_key (fst entry)) entries.

(** The two answers [modify_actor] ends with, by the value of [modified]. *)
Definition modify_answer (actor_path : string) (modified : bool)
    (results : list (string * json)) : tool_result :=
  if modified then
    JsonDump (JObj [("success", JBool true);
                    ("actor_path", JStr actor_path);
                    ("modified", JObj results)])
  else
    JsonDump (JObj [("success", JBool false);
                    ("actor_path", JStr actor_path);
                    ("error", JStr "No modifications were specified");
                    ("results", JObj results)]).

End Model.

(** ** Concrete inputs

    The runs below are made with exact rationals for numbers. *)

Definition value : Type := @json QNumber.
Definition run_state : Type := @state QNumber.

Definition number (q : Q) : value := JNum (PN := QNumber) q.

Definition actor_A : value := JStr "A".
Definition actor_B : value := JStr "B".
Definition actor_C : value := JStr "C".

Definition place : @vec3 QNumber := (100, 200, 0)%Q.
Definition facing : @vec3 QNumber := (0, 90, 0)%Q.
Definition double_size : @vec3 QNumber := (2, 2, 2)%Q.
Definition unit_size : @vec3 QNumber := (1, 1, 1)%Q.

(** A reply with a good status and an empty JSON object: what the engine
    gives for a call that returns nothing. *)
Definition done : @reply QNumber := empty_reply.
Definition timeout : @reply QNumber := PutRaises "ReadTimeout".
Definition listing (actors : list value) : @reply QNumber :=
  returning (JArr actors).

(** The scenario of the snapshot diff: the listing is [A], Duplicate returns
    nothing, the listing is [A; B], and the four calls that follow
    succeed. *)
Definition engine_appends_B : run_state :=
  fresh [listing [actor_A]; done; listing [actor_A; actor_B];
         done; done; done; done].

(** Two actors appear, listed before the one that was there: the listing
    is [A], Duplicate returns nothing, the listing is [B; C; A], and the four
    calls that follow succeed. *)
Definition engine_inserts_B_and_C : run_state :=
  fresh [listing [actor_A]; done; listing [actor_B; actor_C; actor_A];
         done; done; done; done].

(** The engine does nothing for any of the three formats. *)
Definition engine_rejects_all : run_state :=
  fresh [listing [actor_A]; done; listing [actor_A];
         done; listing [actor_A]; done; listing [actor_A]].

(** The second format's Duplicate call returns the new actor, but the
    listings after it time out. *)
Definition engine_returns_B_on_retry : run_state :=
  fresh [listing [actor_A]; done; listing [actor_A];
         returning actor_B; timeout;
         done; timeout].

(** Duplicate returns [B]; setting its location is refused. *)
Definition engine_refuses_location : run_state :=
  fresh [listing [actor_A]; returning actor_B; http_error].

(** The spawn returns [A]; setting the scale is refused. *)
Definition engine_refuses_scale : run_state :=
  fresh [returning actor_A; http_error].

(** The spawn returns [A]; the scale is set; setting the label times out. *)
Definition engine_drops_label : run_state :=
  fresh [returning actor_A; done; timeout].

(** A request to move the actor to [x = 10], nothing else given. *)
Definition move_x_to_10 : run_state -> result tool_result * run_state :=
  modify_actor (PN := QNumber) "ref" (Some 10%Q) None None None None None None None None None.

(** The engine reports the location [(0, 0, 0)] and accepts the new one. *)
Definition engine_at_origin : run_state :=
  fresh [returning (xyz ((0, 0, 0)%Q : @vec3 QNumber)); done].

(** The engine answers the read with a body that has no [ReturnValue]. *)
Definition engine_reports_nothing : run_state :=
  fresh [done; done].

(** The engine cannot be reached. *)
Definition engine_down : run_state := fresh [].

(** The spawn and its two follow-up calls succeed; then the engine is
    gone. *)
Definition engine_spawns_then_leaves : run_state :=
  fresh [returning actor_A; done; done].

(** A listing that was taken in another order and repeats an actor. *)
Definition listing_AB : list value := [actor_A; actor_B].
Definition listing_BAA : list value := [actor_B; actor_A; actor_A].

(** The listing before the call times out; Duplicate returns nothing; the
    listing after it holds the two actors that were there all along. *)
Definition engine_misses_first_listing : run_state :=
  fresh [timeout; done; listing [actor_B; actor_A]].

(** The spawn call is answered without a [ReturnValue]. *)
Definition engine_spawns_nothing : run_state := fresh [done; done; done].

(** The engine refuses the read. *)
Definition engine_refuses_read : run_state := fresh [http_error; done].

(** Duplicate returns [B] and the four calls that follow succeed. *)
Definition engine_returns_B : run_state :=
  fresh [listing [actor_A]; returning actor_B; done; done; done; done].

(** The engine reports the rotation [(0, 90, 0)] and accepts the new one. *)
Definition engine_facing_east : run_state :=
  fresh [returning (rotator ((0, 90, 0)%Q : @vec3 QNumber)); done].

(** Reads are answered without a [ReturnValue], set calls are accepted. *)
Definition engine_reports_no_values : run_state :=
  fresh [done; done; done; done; done; done].

(** * Properties *)

Section Runs.
Context {PN : PyNumber}.

(** ** Stepping through a run *)

Lemma bind_ret {A B} (c : M A) (k : A -> M B) st a st' :
  c st = (Ret a, st') -> bind c k st = k a st'.
Proof. intros H. unfold bind. rewrite H. reflexivity. Qed.

Lemma bind_raise {A B} (c : M A) (k : A -> M B) st e st' :
  c st = (Raise e, st') -> bind c k st = (Raise e, st').
Proof. intros H. unfold bind. rewrite H. reflexivity. Qed.

Lemma get_all_level_actors_run st r tl :
  replies st = r :: tl ->
  exists records,
    get_all_level_actors st = (snapshot r, called st get_actors_payload tl records).
Proof.
  intros H. destruct st as [rs snt lg src used]. simpl in H. subst rs.
  unfold get_all_level_actors, try_except, put_checked, bind, requests_put,
    raise_for_status, response_json, called, snapshot. simpl.
  destruct r as [msg | [okb [b|]]]; simpl.
  - eexists. unfold logger, ret. simpl. reflexivity.
  - destruct okb; simpl.
    + unfold lift. destruct (py_get b "ReturnValue" (JArr [])) as [v|e] eqn:E.
      * exists []. rewrite app_nil_r. reflexivity.
      * exists []. rewrite app_nil_r.
        destruct b; simpl in E; try discriminate; inversion E; reflexivity.
    + eexists. unfold logger, ret. simpl. reflexivity.
  - destruct okb; simpl; eexists; unfold logger, ret; simpl; reflexivity.
Qed.

Lemma put_checked_ok st payload resp tl :
  replies st = Replies resp :: tl -> ok resp = true ->
  put_checked payload st = (Ret resp, called st payload tl []).
Proof.
  intros H Hok. destruct st as [rs snt lg src used]. simpl in H. subst rs.
  unfold put_checked, bind, requests_put, raise_for_status, called. simpl.
  rewrite Hok. simpl. rewrite app_nil_r. reflexivity.
Qed.

Lemma put_checked_passes st payload r tl :
  replies st = r :: tl -> failed r = false ->
  exists resp, put_checked payload st = (Ret resp, called st payload tl []).
Proof.
  intros H Hf. destruct r as [msg | resp]; simpl in Hf; [discriminate|].
  exists resp. apply put_checked_ok; [exact H|].
  destruct (ok resp); [reflexivity | discriminate].
Qed.

Lemma put_checked_failed st payload r tl :
  replies st = r :: tl -> failed r = true ->
  exists e, kind e = RequestException /\
            put_checked payload st = (Raise e, called st payload tl []).
Proof.
  intros H Hf. destruct st as [rs snt lg src used]. simpl in H. subst rs.
  unfold put_checked, bind, requests_put, raise_for_status, called. simpl.
  destruct r as [msg | resp]; simpl in *.
  - eexists. split; [|rewrite app_nil_r; reflexivity]. reflexivity.
  - destruct (ok resp); [discriminate|]. simpl.
    eexists. split; [|rewrite app_nil_r; reflexivity]. reflexivity.
Qed.

Lemma put_checked_unreachable st payload :
  replies st = [] ->
  exists e, kind e = RequestException /\
            put_checked payload st = (Raise e, called st payload [] []).
Proof.
  intros H. destruct st as [rs snt lg src used]. simpl in H. subst rs.
  unfold put_checked, bind, requests_put, called. simpl.
  eexists. split; [|rewrite app_nil_r; reflexivity]. reflexivity.
Qed.

Lemma not_in_before_lists items before :
  not_in_before items (JArr before) = Ret (new_in_order items before).
Proof.
  induction items as [|a tl IH]; simpl; [reflexivity|].
  rewrite IH. simpl. destruct (existsb (py_eqb a) before); reflexivity.
Qed.

Lemma new_actors_of_lists after before :
  new_actors_of (JArr after) (JArr before) = Ret (new_in_order after before).
Proof. unfold new_actors_of. simpl. apply not_in_before_lists. Qed.

Lemma try_except_bind_ret {A B} (c : M A) (k : A -> M B) h st a st' :
  c st = (Ret a, st') ->
  try_except (bind c k) h st = try_except (k a) h st'.
Proof. intros H. unfold try_except. rewrite (bind_ret _ _ _ _ _ H). reflexivity. Qed.

Lemma bind_ret_inv {A B} (c : M A) (k : A -> M B) st b st' :
  bind c k st = (Ret b, st') ->
  exists a st1, c st = (Ret a, st1) /\ k a st1 = (Ret b, st').
Proof.
  unfold bind. destruct (c st) as [[a|e] st1]; intros H.
  - exists a, st1. split; [reflexivity | exact H].
  - discriminate.
Qed.

(** A [try] whose handlers all return never raises; what it returns is what
    the body or a handler returns. *)
Lemma try_except_returns {A} (P : A -> Prop) (body : M A) (h : exn -> M A) st :
  (forall a st', body st = (Ret a, st') -> P a) ->
  (forall e st', exists a st'', h e st' = (Ret a, st'') /\ P a) ->
  exists a, fst (try_except body h st) = Ret a /\ P a.
Proof.
  intros Hb Hh. unfold try_except.
  destruct (body st) as [[a|e] st'] eqn:E.
  - exists a. split; [reflexivity | exact (Hb a st' eq_refl)].
  - destruct (Hh e st') as (a & st'' & Ha & HP). exists a.
    rewrite Ha. split; [reflexivity | exact HP].
Qed.

Lemma ret_inv {A} (a b : A) st st' : ret a st = (Ret b, st') -> a = b.
Proof. unfold ret. intros H. inversion H. reflexivity. Qed.

Lemma logger_run l text args st :
  logger l text args st = (Ret tt, noted st [Log l text args]).
Proof. reflexivity. Qed.

Lemma lift_run {A} (r : result A) st : lift r st = (r, st).
Proof. reflexivity. Qed.

Lemma ret_run {A} (a : A) st : ret a st = (Ret a, st).
Proof. reflexivity. Qed.

Lemma response_json_run b st :
  response_json (Response true (Some b)) st = (Ret b, st).
Proof. reflexivity. Qed.

End Runs.

(** One step of a run: the first computation of a [bind] is replaced by its
    outcome, given as an equation. *)
Ltac step E := rewrite (bind_ret _ _ _ _ _ E); cbv beta.
Ltac step_log := rewrite (bind_ret _ _ _ _ _ (logger_run _ _ _ _)); cbv beta.
Ltac step_pure E :=
  rewrite (bind_ret _ _ _ _ _ (eq_trans (lift_run _ _) (f_equal (fun r => (r, _)) E)));
  cbv beta.
Ltac step_sleep :=
  unfold asyncio_sleep; rewrite (bind_ret _ _ _ _ _ (ret_run tt _)); cbv beta.

Ltac step_json := rewrite (bind_ret _ _ _ _ _ (response_json_run _ _)); cbv beta.

(** A listing, given the replies the state holds and what the listing makes
    of the first. *)
Ltac step_listing H Hs :=
  match goal with
  | |- context [bind get_all_level_actors _ ?s] =>
      let records := fresh "records" in
      let E := fresh "E" in
      destruct (get_all_level_actors_run s _ _ H) as [records E];
      rewrite Hs in E; rewrite (bind_ret _ _ _ _ _ E);
      clear E; cbv beta
  end.

(** A checked call that is answered with a good status. *)
Ltac step_put_ok :=
  match goal with
  | |- context [bind (put_checked ?p) _ ?s] =>
      rewrite (bind_ret _ _ _ _ _ (put_checked_ok s p _ _ eq_refl eq_refl));
      cbv beta
  end.

(** The same steps directly under a [try_except]. *)
Ltac try_step_log :=
  rewrite (try_except_bind_ret _ _ _ _ _ _ (logger_run _ _ _ _)); cbv beta.
Ltac try_step_json :=
  rewrite (try_except_bind_ret _ _ _ _ _ _ (response_json_run _ _)); cbv beta.
Ltac try_step_pure E :=
  rewrite (try_except_bind_ret _ _ _ _ _ _
             (eq_trans (lift_run _ _) (f_equal (fun r => (r, _)) E)));
  cbv beta.
Ltac try_step_put_ok H :=
  match goal with
  | |- context [try_except (bind (put_checked ?p) _) _ ?s] =>
      rewrite (try_except_bind_ret _ _ _ _ _ _ (put_checked_ok s p _ _ H eq_refl));
      cbv beta
  end.

(** Going backwards through a body that returned. *)
Ltac invert_binds :=
  repeat match goal with
         | H : bind _ _ _ = (Ret _, _) |- _ =>
             let a := fresh "a" in
             let st := fresh "st" in
             let E := fresh "E" in
             apply bind_ret_inv in H; destruct H as (a & st & E & H);
             cbv beta zeta in H
         end.

(** The test a returned body ends with. *)
Ltac split_test H :=
  match type of H with
  | (if negb ?c then _ else _) _ = _ => destruct c; cbv [negb] in H
  | (if ?c then _ else _) _ = _ => destruct c
  end.

(** A checked call whose reply is known not to fail. *)
Ltac step_put_passes H Hf :=
  match goal with
  | |- context [bind (put_checked ?p) _ ?s] =>
      let resp := fresh "resp" in
      let E := fresh "E" in
      destruct (put_checked_passes s p _ _ H Hf) as [resp E];
      rewrite (bind_ret _ _ _ _ _ E); clear E; cbv beta
  end.

(** Case analysis on the replies a run consumes. *)
Ltac split_replies :=
  repeat match goal with
         | |- context [match ?rs with [] => _ | _ :: _ => _ end] =>
             destruct rs as [|[?|[[] ?]] ?]; simpl
         end.

(** ** duplicate_snowman *)

Section Duplicate.
Context {PN : PyNumber}.

Lemma resolve_by_snapshot_diff src location scale st
      r_before result r_after rest returned_value before after :
  replies st = r_before :: good result :: r_after :: rest ->
  snapshot r_before = Ret (JArr before) ->
  py_get result "ReturnValue" JNull = Ret returned_value ->
  py_truthy returned_value = false ->
  snapshot r_after = Ret (JArr after) ->
  new_in_order after before <> [] ->
  exists st',
    resolve_new_actor src location scale st
      = (Ret (Resolved (py_last (new_in_order after before))), st') /\
    replies st' = rest /\
    sent st' = sent st ++ [get_actors_payload;
                           duplicate_payload src (transform location scale);
                           get_actors_payload].
Proof.
  intros Hr Hb Hv Hf Ha Hn. unfold resolve_new_actor.
  step_log. step_listing Hr Hb. step_put_ok. step_json.
  step_sleep. step_pure Hv. rewrite Hf. cbv [negb].
  step_listing (eq_refl (r_after :: rest)) Ha.
  step_pure (new_actors_of_lists after before).
  destruct (new_in_order after before) as [|a l] eqn:En; [congruence|].
  cbv [nonempty]. step_log. rewrite ret_run.
  eexists. split; [reflexivity|]. split; [reflexivity|].
  simpl. rewrite <- !app_assoc. reflexivity.
Qed.

(** A reference in the first call's return value is taken as it is: no
    listing is compared and no other format is tried. *)
Lemma resolve_by_returned_reference src location scale st
      r_before result rest before returned_value :
  replies st = r_before :: good result :: rest ->
  snapshot r_before = Ret before ->
  py_get result "ReturnValue" JNull = Ret returned_value ->
  py_truthy returned_value = true ->
  exists st',
    resolve_new_actor src location scale st = (Ret (Resolved returned_value), st') /\
    replies st' = rest /\
    sent st' = sent st ++ [get_actors_payload;
                           duplicate_payload src (transform location scale)].
Proof.
  intros Hr Hb Hv Ht. unfold resolve_new_actor.
  step_log. step_listing Hr Hb. step_put_ok. step_json.
  step_sleep. step_pure Hv. rewrite Ht. cbv [negb]. rewrite ret_run.
  eexists. split; [reflexivity|]. split; [reflexivity|].
  simpl. rewrite <- !app_assoc. reflexivity.
Qed.

(** The second format is tried when the first resolved nothing; a new actor
    in the listing after it is taken and the third format is not tried. *)
Lemma resolve_on_first_retry src location scale st
      r_before result r_after1 r_dup2 r_after2 rest
      returned_value before after1 after2 :
  replies st = r_before :: good result :: r_after1 :: r_dup2 :: r_after2 :: rest ->
  snapshot r_before = Ret (JArr before) ->
  py_get result "ReturnValue" JNull = Ret returned_value ->
  py_truthy returned_value = false ->
  snapshot r_after1 = Ret after1 -> new_actors_of after1 (JArr before) = Ret [] ->
  failed r_dup2 = false ->
  snapshot r_after2 = Ret (JArr after2) ->
  new_in_order after2 before <> [] ->
  exists st',
    resolve_new_actor src location scale st
      = (Ret (Resolved (py_last (new_in_order after2 before))), st') /\
    replies st' = rest /\
    sent st' = sent st ++ [get_actors_payload;
                           duplicate_payload src (transform location scale);
                           get_actors_payload;
                           duplicate_payload src (transform_alt1 location scale);
                           get_actors_payload].
Proof.
  intros Hr Hb Hv Hf Ha1 Hn1 Hd2 Ha2 Hn2. unfold resolve_new_actor.
  step_log. step_listing Hr Hb. step_put_ok. step_json.
  step_sleep. step_pure Hv. rewrite Hf. cbv [negb].
  step_listing (eq_refl (r_after1 :: r_dup2 :: r_after2 :: rest)) Ha1.
  step_pure Hn1. cbv [nonempty]. step_log.
  step_put_passes (eq_refl (r_dup2 :: r_after2 :: rest)) Hd2.
  step_sleep.
  step_listing (eq_refl (r_after2 :: rest)) Ha2.
  step_pure (new_actors_of_lists after2 before).
  destruct (new_in_order after2 before) as [|a l] eqn:En; [congruence|].
  cbv [nonempty]. step_log. rewrite ret_run.
  eexists. split; [reflexivity|]. split; [reflexivity|].
  simpl. rewrite <- !app_assoc. reflexivity.
Qed.

(** The second half of [duplicate_snowman] under the function's handlers:
    the reference comes back only if every call succeeds, and the first
    failure ends the calls. *)
Lemma set_properties_run p location rotation scale name text st :
  py_truthy p = true ->
  let out := try_except (set_properties p location rotation scale name)
                        (return_none_logging text) st in
  fst out = Ret (if all_succeed (corrections name) (replies st)
                 then Some p else None) /\
  sent (snd out) =
    sent st ++ issued (property_calls p location rotation scale name) (replies st).
Proof.
  intros Hp. destruct st as [rs snt lg src used].
  unfold try_except, set_properties, corrections, property_calls,
    put_checked, bind, requests_put, raise_for_status, return_none_logging,
    logger, ret, raise.
  rewrite Hp. simpl.
  destruct (name_given name); simpl; split_replies;
    split; try reflexivity; rewrite <- ?app_assoc; reflexivity.
Qed.

Lemma duplicate_after_resolution src location rotation scale name st p st1 :
  resolve_new_actor src location scale st = (Ret (Resolved p), st1) ->
  duplicate_snowman src location rotation scale name st =
  try_except (set_properties p location rotation scale name)
             (return_none_logging "Error duplicating snowman: {e}") st1.
Proof.
  intros H. unfold duplicate_snowman.
  rewrite (try_except_bind_ret _ _ _ _ _ _ H). reflexivity.
Qed.

Lemma listed_before_iff (before : list string) a :
  existsb (py_eqb (JStr a)) (map JStr before) = true <-> In a before.
Proof.
  rewrite existsb_exists. split.
  - intros (x & Hx & Hf). apply in_map_iff in Hx.
    destruct Hx as (b & <- & Hb). simpl in Hf. apply String.eqb_eq in Hf.
    subst b. exact Hb.
  - intros Hin. exists (JStr a). split; [apply in_map; exact Hin|].
    simpl. apply String.eqb_refl.
Qed.

Lemma new_in_order_all_listed (later before : list string) :
  (forall actor, In actor later -> In actor before) ->
  new_in_order (map JStr later) (map JStr before) = [].
Proof.
  intros H. unfold new_in_order.
  induction later as [|a l IH]; [reflexivity|].
  assert (Ha : existsb (py_eqb (JStr a)) (map JStr before) = true)
    by (apply listed_before_iff, H; left; reflexivity).
  cbn [map filter]. rewrite Ha. cbn [negb].
  apply IH. intros actor Hin. apply H. right. exact Hin.
Qed.

(** The new actors when [new_actor] is the last actor of the later listing
    that the earlier listing does not hold. *)
Lemma new_in_order_last_new (earlier later before : list string) new_actor :
  ~ In new_actor before ->
  (forall actor, In actor later -> In actor before) ->
  new_in_order (map JStr (earlier ++ new_actor :: later)) (map JStr before)
  = new_in_order (map JStr earlier) (map JStr before) ++ [JStr new_actor].
Proof.
  intros Hnew Hlater. unfold new_in_order.
  rewrite map_app, filter_app. f_equal. cbn [map filter].
  destruct (existsb (py_eqb (JStr new_actor)) (map JStr before)) eqn:E.
  - exfalso. apply Hnew, listed_before_iff. exact E.
  - cbn [negb]. f_equal. apply (new_in_order_all_listed later before Hlater).
Qed.

(** C1. The listings are lists of actor paths.  When the Duplicate call
    returns no usable reference and the listing taken afterwards holds an
    actor that the listing taken before does not, [duplicate_snowman]
    resolves [new_actor], the last actor of the later listing that is not in
    the earlier one: every actor listed after it is in the earlier listing,
    whatever is listed before it.  When it is not the empty path and the
    calls that follow succeed, it is what the function returns. *)
Theorem duplicate_takes_last_new_actor
    src location rotation scale name st
    r_before result r_after rest returned_value
    (before earlier later : list string) (new_actor : string) :
  replies st = r_before :: good result :: r_after :: rest ->
  snapshot r_before = Ret (JArr (map JStr before)) ->
  py_get result "ReturnValue" JNull = Ret returned_value ->
  py_truthy returned_value = false ->
  snapshot r_after = Ret (JArr (map JStr (earlier ++ new_actor :: later))) ->
  ~ In new_actor before ->
  (forall actor, In actor later -> In actor before) ->
  fst (resolve_new_actor src location scale st)
    = Ret (Resolved (JStr new_actor)) /\
  (new_actor <> "" ->
   all_succeed (corrections name) rest = true ->
   fst (duplicate_snowman src location rotation scale name st)
     = Ret (Some (JStr new_actor))).
Proof.
  intros Hr Hb Hv Hf Ha Hnew Hlater.
  pose proof (new_in_order_last_new earlier later before new_actor Hnew Hlater)
    as Hsplit.
  assert (Hn : new_in_order (map JStr (earlier ++ new_actor :: later))
                            (map JStr before) <> []).
  { rewrite Hsplit. intros Hc. apply app_eq_nil in Hc. destruct Hc; discriminate. }
  assert (Hlast : py_last (new_in_order (map JStr (earlier ++ new_actor :: later))
                                        (map JStr before)) = JStr new_actor).
  { rewrite Hsplit. unfold py_last. apply last_last. }
  destruct (resolve_by_snapshot_diff src location scale st _ _ _ _ _ _ _
              Hr Hb Hv Hf Ha Hn) as (st' & E & Hrest & _).
  rewrite Hlast in E.
  split; [rewrite E; reflexivity|].
  intros Hne Hall.
  assert (Ht : py_truthy (JStr new_actor) = true).
  { simpl. destruct (String.eqb new_actor "") eqn:Eq; [|reflexivity].
    apply String.eqb_eq in Eq. contradiction. }
  rewrite (duplicate_after_resolution _ _ rotation _ name _ _ _ E).
  pose proof (set_properties_run _ location rotation scale name
                "Error duplicating snowman: {e}" st' Ht) as Hrun.
  cbv zeta in Hrun. destruct Hrun as [Hout _].
  rewrite Hout, Hrest, Hall. reflexivity.
Qed.

(** C2. When the first Duplicate call returns no usable reference and, for
    each of the three transform formats, the listing taken after the call
    holds no actor that the listing taken before lacks, [duplicate_snowman]
    returns [None]; it has then made one Duplicate call per format. *)
Theorem duplicate_undetectable_returns_none
    src location rotation scale name st
    r_before result r_after1 r_dup2 r_after2 r_dup3 r_after3 rest
    returned_value before after1 after2 after3 :
  replies st = r_before :: good result :: r_after1
                 :: r_dup2 :: r_after2 :: r_dup3 :: r_after3 :: rest ->
  snapshot r_before = Ret before ->
  py_get result "ReturnValue" JNull = Ret returned_value ->
  py_truthy returned_value = false ->
  snapshot r_after1 = Ret after1 -> new_actors_of after1 before = Ret [] ->
  failed r_dup2 = false ->
  snapshot r_after2 = Ret after2 -> new_actors_of after2 before = Ret [] ->
  failed r_dup3 = false ->
  snapshot r_after3 = Ret after3 -> new_actors_of after3 before = Ret [] ->
  let out := duplicate_snowman src location rotation scale name st in
  fst out = Ret None /\
  sent (snd out) =
    sent st ++ [get_actors_payload;
                duplicate_payload src (transform location scale);
                get_actors_payload;
                duplicate_payload src (transform_alt1 location scale);
                get_actors_payload;
                duplicate_payload src (transform_alt2 location scale);
                get_actors_payload].
Proof.
  intros Hr Hb Hv Hf Ha1 Hn1 Hd2 Ha2 Hn2 Hd3 Ha3 Hn3 out. subst out.
  unfold duplicate_snowman, try_except.
  assert (E : exists st',
             resolve_new_actor src location scale st = (Ret ReturnNone, st') /\
             sent st' = sent st ++ [get_actors_payload;
                duplicate_payload src (transform location scale);
                get_actors_payload;
                duplicate_payload src (transform_alt1 location scale);
                get_actors_payload;
                duplicate_payload src (transform_alt2 location scale);
                get_actors_payload]).
  { unfold resolve_new_actor.
    step_log. step_listing Hr Hb. step_put_ok. step_json.
    step_sleep. step_pure Hv. rewrite Hf. cbv [negb].
    step_listing (eq_refl (r_after1 :: r_dup2 :: r_after2 :: r_dup3 :: r_after3 :: rest)) Ha1.
    step_pure Hn1. cbv [nonempty]. step_log.
    step_put_passes (eq_refl (r_dup2 :: r_after2 :: r_dup3 :: r_after3 :: rest)) Hd2.
    step_sleep.
    step_listing (eq_refl (r_after2 :: r_dup3 :: r_after3 :: rest)) Ha2.
    step_pure Hn2. cbv [nonempty].
    step_put_passes (eq_refl (r_dup3 :: r_after3 :: rest)) Hd3.
    step_sleep.
    step_listing (eq_refl (r_after3 :: rest)) Ha3.
    step_pure Hn3. cbv [nonempty]. step_log. rewrite ret_run.
    eexists. split; [reflexivity|].
    simpl. rewrite <- !app_assoc. reflexivity. }
  destruct E as (st' & E & Hs).
  rewrite (bind_ret _ _ _ _ _ E). simpl. split; [reflexivity | exact Hs].
Qed.

(** C4, as the code has it.  Once a reference is resolved, its location,
    rotation and scale are set, and its label when a name is given, in that
    order; [duplicate_snowman] returns the reference exactly when every one
    of these calls succeeds.  The first call that fails ends the calls and
    the function returns [None]. *)
Theorem duplicate_needs_every_correction
    src location rotation scale name st p st1 :
  resolve_new_actor src location scale st = (Ret (Resolved p), st1) ->
  py_truthy p = true ->
  let out := duplicate_snowman src location rotation scale name st in
  fst out = Ret (if all_succeed (corrections name) (replies st1)
                 then Some p else None) /\
  sent (snd out) =
    sent st1 ++ issued (property_calls p location rotation scale name)
                       (replies st1).
Proof.
  intros E Hp out. subst out.
  rewrite (duplicate_after_resolution _ _ rotation _ name _ _ _ E).
  exact (set_properties_run p location rotation scale name _ st1 Hp).
Qed.

End Duplicate.

(** The scenario of the specification: before [A], after [A; B], resolved
    [B].  And with two new actors listed before an old one: before [A],
    after [B; C; A], resolved [C], which is neither the first new actor nor
    the last actor listed. *)
Lemma duplicate_takes_last_new_actor_witness :
  (fst (resolve_new_actor actor_A place unit_size engine_appends_B)
     = Ret (Resolved actor_B) /\
   fst (duplicate_snowman actor_A place facing unit_size (Some "Snowman_Left")
                          engine_appends_B)
     = Ret (Some actor_B)) /\
  (fst (resolve_new_actor actor_A place unit_size engine_inserts_B_and_C)
     = Ret (Resolved actor_C) /\
   fst (duplicate_snowman actor_A place facing unit_size (Some "Snowman_Left")
                          engine_inserts_B_and_C)
     = Ret (Some actor_C)).
Proof.
  split.
  - destruct (duplicate_takes_last_new_actor
                actor_A place facing unit_size (Some "Snowman_Left")
                engine_appends_B
                (listing [actor_A]) (JObj []) (listing [actor_A; actor_B])
                [done; done; done; done] JNull ["A"] ["A"] [] "B"
                eq_refl eq_refl eq_refl eq_refl eq_refl) as [H1 H2].
    + simpl. intros [H | []]. discriminate.
    + intros actor [].
    + split; [exact H1 | apply H2; [discriminate | reflexivity]].
  - destruct (duplicate_takes_last_new_actor
                actor_A place facing unit_size (Some "Snowman_Left")
                engine_inserts_B_and_C
                (listing [actor_A]) (JObj [])
                (listing [actor_B; actor_C; actor_A])
                [done; done; done; done] JNull ["A"] ["B"] ["A"] "C"
                eq_refl eq_refl eq_refl eq_refl eq_refl) as [H1 H2].
    + simpl. intros [H | []]. discriminate.
    + intros actor H. exact H.
    + split; [exact H1 | apply H2; [discriminate | reflexivity]].
Defined.

Lemma duplicate_undetectable_returns_none_witness :
  fst (duplicate_snowman actor_A place facing unit_size (Some "Snowman_Left")
                         engine_rejects_all)
    = Ret None.
Proof.
  exact (proj1 (duplicate_undetectable_returns_none
                  actor_A place facing unit_size (Some "Snowman_Left")
                  engine_rejects_all
                  (listing [actor_A]) (JObj []) (listing [actor_A])
                  done (listing [actor_A]) done (listing [actor_A]) []
                  JNull (JArr [actor_A]) (JArr [actor_A]) (JArr [actor_A])
                  (JArr [actor_A])
                  eq_refl eq_refl eq_refl eq_refl eq_refl eq_refl
                  eq_refl eq_refl eq_refl eq_refl eq_refl eq_refl)).
Defined.

(** C3.  The retries do not read the Duplicate call's return value.  Here
    the second call returns [B] and the listing after it times out: the
    function goes on to the third format, makes a third Duplicate call and
    returns [None]. *)
Theorem retry_ignores_returned_reference :
  let out := duplicate_snowman actor_A place facing unit_size
                               (Some "Snowman_Left") engine_returns_B_on_retry in
  fst out = Ret None /\
  map function_name (sent (snd out)) =
    ["GetAllLevelActors"; "Duplicate"; "GetAllLevelActors";
     "Duplicate"; "GetAllLevelActors";
     "Duplicate"; "GetAllLevelActors"].
Proof. vm_compute. split; reflexivity. Qed.

(** A reference is resolved, the call that sets its location fails, and the
    function returns [None]. *)
Lemma duplicate_correction_failure_is_fatal :
  fst (resolve_new_actor actor_A place unit_size engine_refuses_location)
    = Ret (Resolved actor_B) /\
  fst (duplicate_snowman actor_A place facing unit_size (Some "Snowman_Left")
                         engine_refuses_location)
    = Ret None.
Proof. vm_compute. split; reflexivity. Qed.

Lemma duplicate_needs_every_correction_witness :
  fst (duplicate_snowman actor_A place facing unit_size (Some "Snowman_Left")
                         engine_refuses_location)
    = Ret None.
Proof.
  exact (proj1 (duplicate_needs_every_correction
                  actor_A place facing unit_size (Some "Snowman_Left")
                  engine_refuses_location actor_B _ eq_refl eq_refl)).
Defined.

(** ** spawn_blueprint_actor *)

Section Spawn.
Context {PN : PyNumber}.

(** C5, as the code has it.  When the spawn call returns a reference, the
    scale is set if it is not [(1, 1, 1)] and then the label if a name is
    given; [spawn_blueprint_actor] returns the reference exactly when every
    one of these calls succeeds.  The first that fails ends the calls and the
    function returns [None]. *)
Theorem spawn_needs_every_followup
    blueprint_path location rotation scale name st result rest actor_path :
  replies st = good result :: rest ->
  py_get result "ReturnValue" JNull = Ret actor_path ->
  py_truthy actor_path = true ->
  let out := spawn_blueprint_actor blueprint_path location rotation scale name st in
  let calls := followup_calls actor_path scale name in
  fst out = Ret (if all_succeed (length calls) rest
                 then Some actor_path else None) /\
  sent (snd out) =
    sent st ++ spawn_payload blueprint_path location rotation
            :: issued calls rest.
Proof.
  intros Hr Hv Hp out calls. subst out calls.
  unfold spawn_blueprint_actor.
  try_step_log. try_step_put_ok Hr. try_step_json. try_step_pure Hv.
  rewrite Hp. cbv [negb].
  destruct st as [rs snt lg src used]. simpl in Hr. subst rs.
  unfold followup_calls, try_except, put_checked, bind, requests_put,
    raise_for_status, return_none_logging, logger, ret, raise.
  destruct (scale_differs scale); destruct (name_given name); simpl;
    split_replies; split; try reflexivity;
    rewrite <- ?app_assoc; reflexivity.
Qed.

End Spawn.

(** The spawn returns [A] and a scale is asked for; the call that sets it is
    refused and the function returns [None]. *)
Lemma spawn_scale_failure_is_fatal :
  fst (spawn_blueprint_actor "/Game/Snowman_BP.Snowman_BP_C" place facing
                             double_size None engine_refuses_scale)
    = Ret None /\
  fst (spawn_blueprint_actor "/Game/Snowman_BP.Snowman_BP_C" place facing
                             double_size (Some "Snowman_Center")
                             engine_drops_label)
    = Ret None.
Proof. vm_compute. split; reflexivity. Qed.

Lemma spawn_needs_every_followup_witness :
  fst (spawn_blueprint_actor "/Game/Snowman_BP.Snowman_BP_C" place facing
                             double_size (Some "Snowman_Center")
                             engine_drops_label)
    = Ret None.
Proof.
  exact (proj1 (spawn_needs_every_followup
                  "/Game/Snowman_BP.Snowman_BP_C" place facing double_size
                  (Some "Snowman_Center") engine_drops_label
                  (JObj [("ReturnValue", actor_A)]) [done; timeout] actor_A
                  eq_refl eq_refl eq_refl)).
Defined.

(** ** modify_actor *)

Section Modify.
Context {PN : PyNumber}.

Lemma overlay_filled param current key default :
  overlay param (JObj current) key (PyInt default)
    = Ret (filled param key current default).
Proof. destruct param; reflexivity. Qed.

Lemma kept_filled param key current default new :
  kept param key current new -> filled param key current default = new.
Proof.
  unfold kept, filled. destruct param; intros H; [congruence|].
  rewrite H. reflexivity.
Qed.

(** A last checked call under a handler: whatever the reply, the payload
    goes out and nothing after it. *)
Lemma last_call_sent {A} payload (k : M A) (h : exn -> M A) st :
  (forall st', sent (snd (k st')) = sent st') ->
  (forall e st', sent (snd (h e st')) = sent st') ->
  sent (snd (try_except (bind (put_checked payload) (fun _ => k)) h st))
    = sent st ++ [payload].
Proof.
  intros Hk Hh. unfold try_except.
  destruct (replies st) as [|r tl] eqn:Hr.
  - destruct (put_checked_unreachable st payload Hr) as (e & _ & E).
    rewrite (bind_raise _ _ _ _ _ E), Hh. reflexivity.
  - destruct (failed r) eqn:Hf.
    + destruct (put_checked_failed st payload r tl Hr Hf) as (e & _ & E).
      rewrite (bind_raise _ _ _ _ _ E), Hh. reflexivity.
    + destruct (put_checked_passes st payload r tl Hr Hf) as (resp & E).
      rewrite (bind_ret _ _ _ _ _ E). cbv beta.
      pose proof (Hk (called st payload tl [])) as Hk'.
      destruct (k (called st payload tl [])) as [[a|e] st']; simpl in Hk'.
      * simpl. rewrite Hk'. reflexivity.
      * rewrite Hh, Hk'. reflexivity.
Qed.

Lemma group_error_sent text key vars e st :
  sent (snd (group_error text key vars e st)) = sent st.
Proof. reflexivity. Qed.

Lemma modify_location_sent actor_path x y z vars st kv tl current :
  replies st = good (JObj kv) :: tl ->
  any_given [x; y; z] = true ->
  py_get (JObj kv) "ReturnValue"
         (JObj [("X", PyInt 0); ("Y", PyInt 0); ("Z", PyInt 0)])
    = Ret (JObj current) ->
  sent (snd (modify_location actor_path x y z vars st)) =
    sent st ++
    [getter_payload actor_path "GetActorLocation";
     set_location_payload (JStr actor_path)
       (JObj [("X", filled x "X" current 0);
              ("Y", filled y "Y" current 0);
              ("Z", filled z "Z" current 0)])].
Proof.
  intros Hr Hany Hget. unfold modify_location. rewrite Hany.
  try_step_put_ok Hr. try_step_json. try_step_pure Hget.
  try_step_pure (overlay_filled x current "X" 0).
  try_step_pure (overlay_filled y current "Y" 0).
  try_step_pure (overlay_filled z current "Z" 0).
  rewrite last_call_sent; [| reflexivity | apply group_error_sent ].
  simpl. rewrite <- app_assoc. reflexivity.
Qed.

Lemma modify_rotation_sent actor_path pitch yaw roll vars st kv tl current :
  replies st = good (JObj kv) :: tl ->
  any_given [pitch; yaw; roll] = true ->
  py_get (JObj kv) "ReturnValue"
         (JObj [("Pitch", PyInt 0); ("Yaw", PyInt 0); ("Roll", PyInt 0)])
    = Ret (JObj current) ->
  sent (snd (modify_rotation actor_path pitch yaw roll vars st)) =
    sent st ++
    [getter_payload actor_path "GetActorRotation";
     set_rotation_payload (JStr actor_path)
       (JObj [("Pitch", filled pitch "Pitch" current 0);
              ("Yaw", filled yaw "Yaw" current 0);
              ("Roll", filled roll "Roll" current 0)])].
Proof.
  intros Hr Hany Hget. unfold modify_rotation. rewrite Hany.
  try_step_put_ok Hr. try_step_json. try_step_pure Hget.
  try_step_pure (overlay_filled pitch current "Pitch" 0).
  try_step_pure (overlay_filled yaw current "Yaw" 0).
  try_step_pure (overlay_filled roll current "Roll" 0).
  rewrite last_call_sent; [| reflexivity | apply group_error_sent ].
  simpl. rewrite <- app_assoc. reflexivity.
Qed.

Lemma modify_scale_sent actor_path scale_x scale_y scale_z vars st kv tl current :
  replies st = good (JObj kv) :: tl ->
  any_given [scale_x; scale_y; scale_z] = true ->
  py_get (JObj kv) "ReturnValue"
         (JObj [("X", PyInt 1); ("Y", PyInt 1); ("Z", PyInt 1)])
    = Ret (JObj current) ->
  sent (snd (modify_scale actor_path scale_x scale_y scale_z vars st)) =
    sent st ++
    [getter_payload actor_path "GetActorScale3D";
     set_scale_payload (JStr actor_path)
       (JObj [("X", filled scale_x "X" current 1);
              ("Y", filled scale_y "Y" current 1);
              ("Z", filled scale_z "Z" current 1)])].
Proof.
  intros Hr Hany Hget. unfold modify_scale. rewrite Hany.
  try_step_put_ok Hr. try_step_json. try_step_pure Hget.
  try_step_pure (overlay_filled scale_x current "X" 1).
  try_step_pure (overlay_filled scale_y current "Y" 1).
  try_step_pure (overlay_filled scale_z current "Z" 1).
  rewrite last_call_sent; [| | apply group_error_sent ].
  - simpl. rewrite <- app_assoc. reflexivity.
  - intros st'. unfold try_except, bind, lift.
    destruct (scale_report _ _ _ _); reflexivity.
Qed.

(** With nothing given, [modify_actor] makes no call and answers that no
    modifications were specified. *)
Lemma modify_actor_nothing_given actor_path st :
  modify_actor actor_path None None None None None None None None None None st
  = (Ret (JsonDump (JObj [("success", JBool false);
                          ("actor_path", JStr actor_path);
                          ("error", JStr "No modifications were specified");
                          ("results", JObj [])])), st).
Proof. reflexivity. Qed.

End Modify.

(** C7.  The request gives [x] and the engine cannot be reached: the
    location block records its error, [modified] stays false, and the answer
    is the one for a request that gives nothing. *)
Theorem modify_actor_failed_request_reads_as_empty :
  fst (move_x_to_10 engine_down) =
  Ret (JsonDump (JObj [("success", JBool false);
                       ("actor_path", JStr "ref");
                       ("error", JStr "No modifications were specified");
                       ("results",
                        JObj [("location_error", JStr "ConnectionError")])])).
Proof. reflexivity. Qed.

(** ** The tools' answers *)

Section Tools.
Context {PN : PyNumber}.

Lemma tool_handler_returns text (answer : exn -> tool_result) e st :
  exists a st',
    bind (log_tool_error text e) (fun _ => ret (answer e)) st = (Ret a, st')
    /\ a = answer e.
Proof. eexists. eexists. split; reflexivity. Qed.

(** C8, as the code has it.  [spawn_actor], [spawn_snowman_family] and
    [modify_actor] always return, whatever the engine replies, and what they
    return is a JSON object with a boolean [success] and, when it is false,
    an [error] string.  [get_all_scene_actors] always returns too, but its
    answer has no [success] flag: it is the listing with its count, or a bare
    error text. *)
Theorem tools_always_answer :
  (forall blueprint_path x y z pitch yaw roll scale_x scale_y scale_z name st,
      exists r,
        fst (spawn_actor blueprint_path x y z pitch yaw roll
                         scale_x scale_y scale_z name st) = Ret r /\
        structured r = true) /\
  (forall base_x base_y base_z spread random_placement st,
      exists r,
        fst (spawn_snowman_family base_x base_y base_z spread
                                  random_placement st) = Ret r /\
        structured r = true) /\
  (forall actor_path x y z pitch yaw roll scale_x scale_y scale_z name st,
      exists r,
        fst (modify_actor actor_path x y z pitch yaw roll
                          scale_x scale_y scale_z name st) = Ret r /\
        structured r = true) /\
  (forall st,
      exists r,
        fst (get_all_scene_actors st) = Ret r /\
        structured r = false /\ listing_answer r).
Proof.
  repeat split.
  - intros. apply try_except_returns.
    + cbv zeta. intros a st' H. invert_binds.
      split_test H; apply ret_inv in H; subst a; reflexivity.
    + intros e st'.
      destruct (tool_handler_returns "Error in spawn_actor: {str(e)}"
                  (fun e => failure (message e)) e st') as (a & st'' & E & Ha).
      exists a, st''. split; [exact E | subst a; reflexivity].
  - intros. apply try_except_returns.
    + cbv zeta. intros a st' H. invert_binds.
      split_test H.
      * invert_binds. apply ret_inv in H. subst a. reflexivity.
      * apply ret_inv in H. subst a. reflexivity.
    + intros e st'.
      destruct (tool_handler_returns "Error in spawn_snowman_family: {str(e)}"
                  (fun e => family_failure (message e)) e st')
        as (a & st'' & E & Ha).
      exists a, st''. split; [exact E | subst a; reflexivity].
  - intros. apply try_except_returns.
    + intros a st' H. invert_binds.
      split_test H; apply ret_inv in H; subst a; reflexivity.
    + intros e st'.
      destruct (tool_handler_returns "Error in modify_actor: {str(e)}"
                  (fun e => failure (message e)) e st') as (a & st'' & E & Ha).
      exists a, st''. split; [exact E | subst a; reflexivity].
  - intros st.
    apply (try_except_returns
             (fun r => structured r = false /\ listing_answer r)).
    + intros a st' H. invert_binds. apply ret_inv in H. subst a.
      split; [reflexivity|]. left. eexists. eexists. reflexivity.
    + intros e st'.
      destruct (tool_handler_returns "Error in get_all_scene_actors: {str(e)}"
                  (fun e => Text ("Error getting scene actors: " ++ message e))
                  e st') as (a & st'' & E & Ha).
      exists a, st''. split; [exact E|]. subst a.
      split; [reflexivity|]. right. eexists. reflexivity.
Qed.

End Tools.

(** The listing times out: the tool answers with an empty listing, without
    a [success] flag or an error.  The engine returns [null] for the listing:
    the tool answers with a bare text. *)
Lemma listing_tool_has_no_success_flag :
  fst (get_all_scene_actors (fresh [timeout])) =
    Ret (JsonDump (JObj [("actors", JArr []); ("count", number 0)])) /\
  structured (JsonDump (JObj [("actors", JArr []); ("count", number 0)])) = false /\
  fst (get_all_scene_actors (fresh [returning (JNull : value)])) =
    Ret (Text "Error getting scene actors: object of type 'NoneType' has no len()").
Proof. repeat split. Qed.

(** ** spawn_snowman_family *)

Section Family.
Context {PN : PyNumber}.

(** *** Computations that start no attempt *)

Lemma quiet_ret {A} (a : A) : quiet (ret a).
Proof. intros st. reflexivity. Qed.

Lemma quiet_raise {A} e : quiet (@raise _ A e).
Proof. intros st. reflexivity. Qed.

Lemma quiet_lift {A} (r : result A) : quiet (lift r).
Proof. intros st. reflexivity. Qed.

Lemma quiet_bind {A B} (c : M A) (k : A -> M B) :
  quiet c -> (forall a, quiet (k a)) -> quiet (bind c k).
Proof.
  intros Hc Hk st. unfold bind. specialize (Hc st).
  destruct (c st) as [[a|e] st']; simpl in Hc |- *.
  - rewrite Hk. exact Hc.
  - exact Hc.
Qed.

Lemma quiet_try {A} (body : M A) h :
  quiet body -> (forall e, quiet (h e)) -> quiet (try_except body h).
Proof.
  intros Hb Hh st. unfold try_except. specialize (Hb st).
  destruct (body st) as [[a|e] st']; simpl in Hb |- *.
  - exact Hb.
  - rewrite Hh. exact Hb.
Qed.

Lemma attempts_app records more :
  attempts (records ++ more) = attempts records ++ attempts more.
Proof. unfold attempts. rewrite map_app, filter_app. reflexivity. Qed.

Lemma quiet_logger l text args :
  is_attempt text = false -> quiet (logger l text args).
Proof.
  intros H st. simpl. rewrite attempts_app. unfold attempts at 2. simpl.
  rewrite H. apply app_nil_r.
Qed.

Lemma quiet_put payload : quiet (requests_put payload).
Proof.
  intros st. unfold requests_put.
  destruct (replies st) as [|[msg|r] tl]; reflexivity.
Qed.

Lemma quiet_raise_for_status r : quiet (raise_for_status r).
Proof. intros st. unfold raise_for_status. destruct (ok r); reflexivity. Qed.

Lemma quiet_response_json r : quiet (response_json r).
Proof. intros st. unfold response_json. destruct (body r); reflexivity. Qed.

Lemma quiet_random_uniform a b : quiet (random_uniform a b).
Proof. intros st. reflexivity. Qed.

(** *** Computations that do not consult the random generator *)

Lemma random_free_ret {A} (a : A) : random_free (ret a).
Proof. intros st source used. reflexivity. Qed.

Lemma random_free_raise {A} e : random_free (@raise _ A e).
Proof. intros st source used. reflexivity. Qed.

Lemma random_free_lift {A} (r : result A) : random_free (lift r).
Proof. intros st source used. reflexivity. Qed.

Lemma random_free_bind {A B} (c : M A) (k : A -> M B) :
  random_free c -> (forall a, random_free (k a)) -> random_free (bind c k).
Proof.
  intros Hc Hk st source used. unfold bind. rewrite Hc.
  destruct (c st) as [[a|e] st']; simpl.
  - apply Hk.
  - reflexivity.
Qed.

Lemma random_free_try {A} (body : M A) h :
  random_free body -> (forall e, random_free (h e)) ->
  random_free (try_except body h).
Proof.
  intros Hb Hh st source used. unfold try_except. rewrite Hb.
  destruct (body st) as [[a|e] st']; simpl.
  - reflexivity.
  - apply Hh.
Qed.

Lemma random_free_logger l text args : random_free (logger l text args).
Proof. intros st source used. reflexivity. Qed.

Lemma random_free_put payload : random_free (requests_put payload).
Proof.
  intros st source used. unfold requests_put. simpl.
  destruct (replies st) as [|[msg|r] tl]; reflexivity.
Qed.

Lemma random_free_raise_for_status r : random_free (raise_for_status r).
Proof.
  intros st source used. unfold raise_for_status. destruct (ok r); reflexivity.
Qed.

Lemma random_free_response_json r : random_free (response_json r).
Proof.
  intros st source used. unfold response_json. destruct (body r); reflexivity.
Qed.

End Family.

Create HintDb quiet.
Create HintDb random_free.

#[local] Hint Resolve quiet_ret quiet_raise quiet_lift quiet_put
  quiet_raise_for_status quiet_response_json quiet_random_uniform : quiet.
#[local] Hint Resolve random_free_ret random_free_raise random_free_lift
  random_free_put random_free_raise_for_status random_free_response_json
  random_free_logger : random_free.

(** Goes through a computation built from the primitives above. *)
Ltac show_random_free :=
  repeat first
    [ apply random_free_bind; [| intro]
    | apply random_free_try; [| intro]
    | solve [auto with random_free]
    | match goal with
      | |- random_free (if ?c then _ else _) => destruct c
      | |- random_free (match ?x with _ => _ end) => destruct x
      end ].
#[local] Hint Resolve quiet_ret quiet_raise quiet_lift quiet_put
  quiet_raise_for_status quiet_response_json quiet_random_uniform : quiet.

(** Goes through a computation built from the quiet primitives. *)
Ltac show_quiet :=
  repeat first
    [ apply quiet_bind; [| intro]
    | apply quiet_try; [| intro]
    | apply quiet_logger; reflexivity
    | solve [auto with quiet]
    | match goal with
      | |- quiet (if ?c then _ else _) => destruct c
      | |- quiet (match ?x with _ => _ end) => destruct x
      end ].

Section FamilyRuns.
Context {PN : PyNumber}.

Lemma quiet_get_all_level_actors : quiet get_all_level_actors.
Proof. unfold get_all_level_actors. show_quiet. Qed.

Lemma quiet_put_checked payload : quiet (put_checked payload).
Proof. unfold put_checked. show_quiet. Qed.

Lemma quiet_return_none_logging text e :
  is_attempt text = false -> quiet (return_none_logging text e).
Proof.
  intros H. unfold return_none_logging.
  destruct (kind e); apply quiet_bind;
    try (intro; apply quiet_ret); apply quiet_logger;
    [exact H | reflexivity].
Qed.

Lemma random_free_get_all_level_actors : random_free get_all_level_actors.
Proof. unfold get_all_level_actors. show_random_free. Qed.

Lemma random_free_put_checked payload : random_free (put_checked payload).
Proof. unfold put_checked. show_random_free. Qed.

Lemma random_free_return_none_logging text e :
  random_free (return_none_logging text e).
Proof. unfold return_none_logging. show_random_free. Qed.

End FamilyRuns.

#[local] Hint Resolve quiet_get_all_level_actors quiet_put_checked : quiet.
#[local] Hint Resolve random_free_get_all_level_actors random_free_put_checked
  random_free_return_none_logging : random_free.

Section FamilyAttempts.
Context {PN : PyNumber}.

Lemma attempts_noted st l text args :
  attempts (logged (noted st [Log l text args]))
  = attempts (logged st) ++ (if is_attempt text then [text] else []).
Proof.
  simpl. rewrite attempts_app. unfold attempts at 2. simpl.
  destruct (is_attempt text); reflexivity.
Qed.

Lemma try_except_assoc_ret {A B C} (c : M A) (k1 : A -> M B) (k2 : B -> M C)
      h st a st' :
  c st = (Ret a, st') ->
  try_except (bind (bind c k1) k2) h st = try_except (bind (k1 a) k2) h st'.
Proof. intros H. unfold try_except, bind. rewrite H. reflexivity. Qed.

(** The helpers never raise: their handlers catch every exception. *)
Lemma return_none_logging_returns text e st :
  exists st', return_none_logging text e st = (Ret None, st').
Proof. unfold return_none_logging. destruct (kind e); eexists; reflexivity. Qed.

Lemma helper_returns (body : M (option json)) text st :
  exists r st', try_except body (return_none_logging text) st = (Ret r, st').
Proof.
  unfold try_except. destruct (body st) as [[a|e] st1].
  - exists a, st1. reflexivity.
  - destruct (return_none_logging_returns text e st1) as [st' E].
    exists None, st'. exact E.
Qed.

Lemma spawn_blueprint_actor_returns blueprint_path location rotation scale name st :
  exists r st',
    spawn_blueprint_actor blueprint_path location rotation scale name st
    = (Ret r, st').
Proof. apply helper_returns. Qed.

Lemma duplicate_snowman_returns src location rotation scale name st :
  exists r st',
    duplicate_snowman src location rotation scale name st = (Ret r, st').
Proof. apply helper_returns. Qed.

(** Each helper logs the start of its attempt once, whatever follows. *)
Lemma spawn_blueprint_actor_attempt blueprint_path location rotation scale name st :
  attempts (logged (snd (spawn_blueprint_actor blueprint_path location
                                               rotation scale name st)))
  = attempts (logged st) ++ [spawn_attempt].
Proof.
  unfold spawn_blueprint_actor. try_step_log.
  match goal with
  | |- attempts (logged (snd (?c ?s))) = _ =>
      assert (Hq : quiet c)
  end.
  { show_quiet. apply quiet_return_none_logging. reflexivity. }
  rewrite Hq, attempts_noted. reflexivity.
Qed.

Lemma duplicate_snowman_attempt src location rotation scale name st :
  attempts (logged (snd (duplicate_snowman src location rotation scale name st)))
  = attempts (logged st) ++ [duplicate_attempt].
Proof.
  unfold duplicate_snowman, resolve_new_actor.
  rewrite (try_except_assoc_ret _ _ _ _ _ _ _ (logger_run _ _ _ _)).
  match goal with
  | |- attempts (logged (snd (?c ?s))) = _ =>
      assert (Hq : quiet c)
  end.
  { unfold set_properties, asyncio_sleep. show_quiet.
    apply quiet_return_none_logging. reflexivity. }
  rewrite Hq, attempts_noted. reflexivity.
Qed.

Lemma random_free_spawn_blueprint_actor blueprint_path location rotation scale name :
  random_free (spawn_blueprint_actor blueprint_path location rotation scale name).
Proof. unfold spawn_blueprint_actor. show_random_free. Qed.

Lemma random_free_duplicate_snowman src location rotation scale name :
  random_free (duplicate_snowman src location rotation scale name).
Proof.
  unfold duplicate_snowman, resolve_new_actor, set_properties, asyncio_sleep.
  show_random_free.
Qed.

Lemma random_free_duplicate_each indices first positions rotations scales names :
  forall spawned,
    random_free (duplicate_each indices first positions rotations scales names
                                spawned).
Proof.
  induction indices as [|i tl IH]; intros spawned; simpl.
  - apply random_free_ret.
  - unfold asyncio_sleep.
    repeat first
      [ apply IH
      | apply random_free_duplicate_snowman
      | apply random_free_bind; [| intro]
      | solve [auto with random_free]
      | match goal with
        | |- random_free (if ?c then _ else _) => destruct c
        end ].
Qed.

Lemma duplicate_each_attempts first positions rotations scales names indices :
  Forall (fun i => exists p r s n,
              item positions i = Ret p /\ item rotations i = Ret r /\
              item scales i = Ret s /\ item names i = Ret n) indices ->
  forall spawned st,
  exists spawned' st',
    duplicate_each indices first positions rotations scales names spawned st
    = (Ret spawned', st') /\
    attempts (logged st')
    = attempts (logged st) ++ repeat duplicate_attempt (length indices).
Proof.
  induction 1 as [|i tl (p & r & s & n & Hp & Hr & Hs & Hn) _ IH];
    intros spawned st.
  - exists spawned, st. split; [reflexivity|]. simpl. symmetry. apply app_nil_r.
  - cbn [duplicate_each].
    step_pure Hp. step_pure Hr. step_pure Hs. step_pure Hn.
    destruct (duplicate_snowman_returns first p r s (Some n) st) as (d & st1 & Ed).
    pose proof (duplicate_snowman_attempt first p r s (Some n) st) as Ha.
    rewrite Ed in Ha. simpl in Ha.
    step Ed. destruct (returned d).
    + rewrite (bind_ret _ _ _ _ _ (ret_run _ _)). cbv beta. step_sleep.
      destruct (IH (spawned ++ [snowman_entry (path_json d) p r s n]) st1)
        as (spawned' & st' & E & Hs').
      exists spawned', st'. split; [exact E|].
      rewrite Hs', Ha, <- app_assoc. reflexivity.
    + match goal with
      | |- context [bind (bind (logger ?l ?t ?a) ?k) _ ?st0] =>
          assert (El : bind (logger l t a) k st0
                       = (Ret spawned, noted st0 [Log l t a]))
            by reflexivity;
          step El
      end.
      step_sleep.
      match goal with
      | |- context [duplicate_each tl _ _ _ _ _ _ ?st0] =>
          destruct (IH spawned st0) as (spawned' & st' & E & Hs')
      end.
      exists spawned', st'. split; [exact E|].
      rewrite Hs', attempts_noted, Ha. simpl. rewrite app_nil_r, <- app_assoc.
      reflexivity.
Qed.

(** C9, as the code has it.  With [random_placement] false the run does not
    consult the random generator: with any other generator it gives the same
    answer, sends the same payloads and logs the same records.  It makes one
    spawn attempt; when the spawn returns a reference, two duplicate
    attempts follow, and when it returns none the run stops there. *)
Theorem family_without_random_placement base_x base_y base_z spread st first st1 :
  spawn_blueprint_actor "/Game/Snowman_BP.Snowman_BP_C"
      (base_x, base_y, base_z)
      (int_lit 0, int_lit 0, int_lit 0)
      (num_lit (6 # 5), num_lit (6 # 5), num_lit (6 # 5))
      (Some "Snowman_Center") st
    = (Ret first, st1) ->
  let run := spawn_snowman_family base_x base_y base_z spread false in
  (forall source used,
      run (with_random st source used)
      = (fst (run st), with_random (snd (run st)) source used)) /\
  attempts (logged (snd (run st)))
  = attempts (logged st) ++
    (if returned first
     then [spawn_attempt; duplicate_attempt; duplicate_attempt]
     else [spawn_attempt]).
Proof.
  intros Hspawn run. subst run. split.
  - assert (Hfree : random_free
                      (spawn_snowman_family base_x base_y base_z spread false)).
    { unfold spawn_snowman_family, log_tool_error, asyncio_sleep. cbv zeta.
      repeat first
        [ apply random_free_duplicate_each
        | apply random_free_spawn_blueprint_actor
        | apply random_free_bind; [| intro]
        | apply random_free_try; [| intro]
        | solve [auto with random_free]
        | match goal with
          | |- random_free (if ?c then _ else _) => destruct c
          end ]. }
    exact (Hfree st).
  - pose proof (spawn_blueprint_actor_attempt
                  "/Game/Snowman_BP.Snowman_BP_C" (base_x, base_y, base_z)
                  (int_lit 0, int_lit 0, int_lit 0)
                  (num_lit (6 # 5), num_lit (6 # 5), num_lit (6 # 5))
                  (Some "Snowman_Center") st) as Ha.
    rewrite Hspawn in Ha. simpl in Ha.
    unfold spawn_snowman_family. cbv zeta.
    rewrite (try_except_bind_ret _ _ _ _ _ _ (ret_run spread st)). cbv beta.
    assert (E0 : item (family_positions base_x base_y base_z spread) 0
                 = Ret (base_x, base_y, base_z)) by reflexivity.
    assert (E1 : item family_rotations 0
                 = Ret (int_lit 0, int_lit 0, int_lit 0)) by reflexivity.
    assert (E2 : item family_scales 0
                 = Ret (num_lit (6 # 5), num_lit (6 # 5), num_lit (6 # 5)))
      by reflexivity.
    assert (E3 : item family_names 0 = Ret "Snowman_Center") by reflexivity.
    try_step_pure E0. try_step_pure E1. try_step_pure E2. try_step_pure E3.
    rewrite (try_except_bind_ret _ _ _ _ _ _ Hspawn). cbv beta.
    destruct (returned first); cbv [negb].
    + unfold asyncio_sleep.
      rewrite (try_except_bind_ret _ _ _ _ _ _ (ret_run tt st1)). cbv beta.
      match goal with
      | |- context [duplicate_each ?ix ?f ?ps ?rs ?ss ?ns ?sp] =>
          destruct (duplicate_each_attempts f ps rs ss ns ix) with
            (spawned := sp) (st := st1) as (spawned' & st' & E & Hs')
      end.
      { repeat constructor; repeat eexists; reflexivity. }
      rewrite (try_except_bind_ret _ _ _ _ _ _ E). cbv beta.
      unfold try_except, ret. simpl.
      rewrite Hs', Ha, <- app_assoc. reflexivity.
    + unfold try_except, ret. simpl. exact Ha.
Qed.

End FamilyAttempts.

(** The engine cannot be reached: the spawn is attempted and fails, and no
    duplicate is attempted. *)
Lemma family_stops_after_failed_spawn :
  attempts (logged (snd (spawn_snowman_family (PN := QNumber) 0 0 0 1 false
                                              engine_down)))
  = [spawn_attempt].
Proof. reflexivity. Qed.

Lemma family_without_random_placement_witness :
  attempts (logged (snd (spawn_snowman_family (PN := QNumber) 0 0 0 1 false
                                              engine_spawns_then_leaves)))
  = [spawn_attempt; duplicate_attempt; duplicate_attempt].
Proof.
  exact (proj2 (family_without_random_placement
                  (PN := QNumber) 0%Q 0%Q 0%Q 1%Q engine_spawns_then_leaves
                  (Some actor_A) _ eq_refl)).
Defined.

(** * Further properties of the code *)

(** ** How many calls a run can make *)

Section Calls.
Context {PN : PyNumber}.
Variable p : json -> bool.

Lemma sends_weaken {A} n m (c : M A) :
  (n <= m)%nat -> sends_at_most p n c -> sends_at_most p m c.
Proof.
  intros Hle H st. destruct (H st) as (extra & E & Hn).
  exists extra. split; [exact E | lia].
Qed.

Lemma sends_nothing {A} (c : M A) :
  (forall st, sent (snd (c st)) = sent st) -> sends_at_most p 0 c.
Proof.
  intros H st. exists []. rewrite app_nil_r. split; [apply H | apply le_n].
Qed.

Lemma sends_ret {A} (a : A) : sends_at_most p 0 (ret a).
Proof. apply sends_nothing. reflexivity. Qed.

Lemma sends_raise {A} e : sends_at_most p 0 (@raise _ A e).
Proof. apply sends_nothing. reflexivity. Qed.

Lemma sends_lift {A} (r : result A) : sends_at_most p 0 (lift r).
Proof. apply sends_nothing. reflexivity. Qed.

Lemma sends_logger l text args : sends_at_most p 0 (logger l text args).
Proof. apply sends_nothing. reflexivity. Qed.

Lemma sends_raise_for_status r : sends_at_most p 0 (raise_for_status r).
Proof.
  apply sends_nothing. intros st. unfold raise_for_status.
  destruct (ok r); reflexivity.
Qed.

Lemma sends_response_json r : sends_at_most p 0 (response_json r).
Proof.
  apply sends_nothing. intros st. unfold response_json.
  destruct (body r); reflexivity.
Qed.

Lemma sends_random_uniform a b : sends_at_most p 0 (random_uniform a b).
Proof. apply sends_nothing. reflexivity. Qed.

Lemma sends_bind {A B} n t (c : M A) (k : A -> M B) :
  sends_at_most p n c -> (n <= t)%nat ->
  (forall a, sends_at_most p (t - n) (k a)) ->
  sends_at_most p t (bind c k).
Proof.
  intros Hc Hle Hk st. unfold bind.
  destruct (Hc st) as (e1 & E1 & H1).
  destruct (c st) as [[a|e] st']; simpl in E1.
  - destruct (Hk a st') as (e2 & E2 & H2).
    exists (e1 ++ e2). rewrite E2, E1, app_assoc. split; [reflexivity|].
    rewrite filter_app, length_app. lia.
  - exists e1. simpl. split; [exact E1 | lia].
Qed.

Lemma sends_try {A} n (body : M A) h :
  sends_at_most p n body -> (forall e, sends_at_most p 0 (h e)) ->
  sends_at_most p n (try_except body h).
Proof.
  intros Hb Hh st. unfold try_except.
  destruct (Hb st) as (e1 & E1 & H1).
  destruct (body st) as [[a|e] st']; simpl in E1.
  - exists e1. split; [exact E1 | exact H1].
  - destruct (Hh e st') as (e2 & E2 & H2).
    exists (e1 ++ e2). rewrite E2, E1, app_assoc. split; [reflexivity|].
    rewrite filter_app, length_app. lia.
Qed.

Lemma sends_put_counted payload : sends_at_most p 1 (requests_put payload).
Proof.
  intros st. exists [payload]. split.
  - unfold requests_put. destruct (replies st) as [|[msg|r] tl]; reflexivity.
  - simpl. destruct (p payload); simpl; lia.
Qed.

Lemma sends_put_free payload :
  p payload = false -> sends_at_most p 0 (requests_put payload).
Proof.
  intros Hp st. exists [payload]. split.
  - unfold requests_put. destruct (replies st) as [|[msg|r] tl]; reflexivity.
  - simpl. rewrite Hp. apply le_n.
Qed.

End Calls.

(** The budget left after a step, as a numeral. *)
Ltac reduce_budget :=
  match goal with
  | |- sends_at_most ?p ?n ?c =>
      let n' := eval cbv in n in change (sends_at_most p n' c)
  end.

(** Bounds the calls of a computation built from the primitives: a step
    that may send a counted payload takes one from the budget. *)
Ltac budget side :=
  lazymatch goal with
  | |- sends_at_most _ _ (bind _ _) =>
      first
        [ apply (sends_bind _ 0); [solve [budget side] | lia | intro; reduce_budget; budget side]
        | apply (sends_bind _ 1); [solve [budget side] | lia | intro; reduce_budget; budget side]
        | apply (sends_bind _ 2); [solve [budget side] | lia | intro; reduce_budget; budget side]
        | apply (sends_bind _ 3); [solve [budget side] | lia | intro; reduce_budget; budget side] ]
  | |- sends_at_most _ _ (try_except _ _) =>
      apply sends_try; [budget side | intro; budget side]
  | |- sends_at_most _ _ (if ?c then _ else _) => destruct c; budget side
  | |- sends_at_most _ _ (match ?x with _ => _ end) => destruct x; budget side
  | |- sends_at_most _ ?n (requests_put _) =>
      first [ apply (sends_weaken _ 0 n); [lia | apply sends_put_free; side ]
            | apply (sends_weaken _ 1 n); [lia | apply sends_put_counted ] ]
  | |- sends_at_most _ ?n _ =>
      apply (sends_weaken _ 0 n);
      [ lia
      | first [ apply sends_ret | apply sends_raise | apply sends_lift
              | apply sends_logger | apply sends_raise_for_status
              | apply sends_response_json | apply sends_random_uniform ] ]
  end.

Section Bounds.
Context {PN : PyNumber}.

Lemma resolve_new_actor_duplicates src location scale :
  sends_at_most (is_call "Duplicate") 3 (resolve_new_actor src location scale).
Proof.
  unfold resolve_new_actor, get_all_level_actors, put_checked, asyncio_sleep.
  budget ltac:(reflexivity).
Qed.

Lemma resolve_new_actor_calls src location scale :
  sends_at_most any_call 7 (resolve_new_actor src location scale).
Proof.
  unfold resolve_new_actor, get_all_level_actors, put_checked, asyncio_sleep.
  budget ltac:(reflexivity).
Qed.

Lemma set_properties_duplicates q location rotation scale name :
  sends_at_most (is_call "Duplicate") 0
                (set_properties q location rotation scale name).
Proof.
  unfold set_properties, put_checked. budget ltac:(reflexivity).
Qed.

Lemma set_properties_calls q location rotation scale name :
  sends_at_most any_call 4 (set_properties q location rotation scale name).
Proof.
  unfold set_properties, put_checked. budget ltac:(reflexivity).
Qed.

Lemma return_none_logging_sends p text e :
  sends_at_most p 0 (return_none_logging text e).
Proof. unfold return_none_logging. budget ltac:(reflexivity). Qed.

Lemma duplicate_snowman_duplicates src location rotation scale name :
  sends_at_most (is_call "Duplicate") 3
                (duplicate_snowman src location rotation scale name).
Proof.
  unfold duplicate_snowman. apply sends_try.
  - apply (sends_bind _ 3 3);
      [apply resolve_new_actor_duplicates | lia | intros [|q]; reduce_budget].
    + apply sends_ret.
    + apply set_properties_duplicates.
  - intro e. apply return_none_logging_sends.
Qed.

Lemma duplicate_snowman_calls src location rotation scale name :
  sends_at_most any_call 11 (duplicate_snowman src location rotation scale name).
Proof.
  unfold duplicate_snowman. apply sends_try.
  - apply (sends_bind _ 7 11);
      [apply resolve_new_actor_calls | lia | intros [|q]; reduce_budget].
    + apply (sends_weaken _ 0); [lia | apply sends_ret].
    + apply set_properties_calls.
  - intro e. apply return_none_logging_sends.
Qed.

Lemma filter_any_call (l : list json) : filter any_call l = l.
Proof. induction l as [|a l IH]; simpl; [|rewrite IH]; reflexivity. Qed.

(** Two bounds on the same run speak of the same added payloads. *)
Lemma sends_both {A} p n q m (c : M A) st :
  sends_at_most p n c -> sends_at_most q m c ->
  exists extra,
    sent (snd (c st)) = sent st ++ extra /\
    (length (filter p extra) <= n)%nat /\ (length (filter q extra) <= m)%nat.
Proof.
  intros Hp Hq. destruct (Hp st) as (extra & E & Hn).
  destruct (Hq st) as (extra' & E' & Hm).
  rewrite E in E'. apply app_inv_head in E'. subst extra'.
  exists extra. auto.
Qed.

(** X1. [duplicate_snowman] makes at most three Duplicate calls and at most
    eleven calls in all, whatever the engine replies. *)
Theorem duplicate_snowman_call_bounds src location rotation scale name st :
  exists extra,
    sent (snd (duplicate_snowman src location rotation scale name st))
    = sent st ++ extra /\
    (length (calls_of "Duplicate" extra) <= 3)%nat /\
    (length extra <= 11)%nat.
Proof.
  destruct (sends_both _ _ _ _ _ st
              (duplicate_snowman_duplicates src location rotation scale name)
              (duplicate_snowman_calls src location rotation scale name))
    as (extra & E & Hd & Ht).
  exists extra. rewrite filter_any_call in Ht. auto.
Qed.

End Bounds.

Section MoreBounds.
Context {PN : PyNumber}.

Lemma spawn_blueprint_actor_calls blueprint_path location rotation scale name :
  sends_at_most any_call 3
    (spawn_blueprint_actor blueprint_path location rotation scale name).
Proof.
  unfold spawn_blueprint_actor, put_checked, return_none_logging.
  budget ltac:(reflexivity).
Qed.

Lemma spawn_blueprint_actor_spawns blueprint_path location rotation scale name :
  sends_at_most (is_call "SpawnActorFromClass") 1
    (spawn_blueprint_actor blueprint_path location rotation scale name).
Proof.
  unfold spawn_blueprint_actor, put_checked, return_none_logging.
  budget ltac:(reflexivity).
Qed.

Lemma spawn_blueprint_actor_duplicates blueprint_path location rotation scale name :
  sends_at_most (is_call "Duplicate") 0
    (spawn_blueprint_actor blueprint_path location rotation scale name).
Proof.
  unfold spawn_blueprint_actor, put_checked, return_none_logging.
  budget ltac:(reflexivity).
Qed.

Lemma spawn_blueprint_actor_labels blueprint_path location rotation scale name :
  sends_at_most (is_call "SetActorLabel") (if name_given name then 1 else 0)
    (spawn_blueprint_actor blueprint_path location rotation scale name).
Proof.
  unfold spawn_blueprint_actor, put_checked, return_none_logging.
  destruct (name_given name); budget ltac:(reflexivity).
Qed.

Lemma spawn_blueprint_actor_scales blueprint_path location rotation scale name :
  sends_at_most (is_call "SetActorScale3D") (if scale_differs scale then 1 else 0)
    (spawn_blueprint_actor blueprint_path location rotation scale name).
Proof.
  unfold spawn_blueprint_actor, put_checked, return_none_logging.
  destruct (scale_differs scale); budget ltac:(reflexivity).
Qed.

(** The payloads a bounded run adds, for a second bound on the same run. *)
Lemma sends_same {A} p n (c : M A) st extra :
  sends_at_most p n c ->
  sent (snd (c st)) = sent st ++ extra ->
  (length (filter p extra) <= n)%nat.
Proof.
  intros H E. destruct (H st) as (extra' & E' & Hn).
  rewrite E in E'. apply app_inv_head in E'. subst extra'. exact Hn.
Qed.

(** X2. [spawn_blueprint_actor] makes at most three calls, whatever the
    engine replies: one spawn call at most, one label call at most and none
    without a name (none given, or the empty string), one scale call at most
    and none for the scale [(1, 1, 1)]. *)
Theorem spawn_blueprint_actor_call_bounds
    blueprint_path location rotation scale name st :
  exists extra,
    sent (snd (spawn_blueprint_actor blueprint_path location rotation scale
                                     name st))
    = sent st ++ extra /\
    (length extra <= 3)%nat /\
    (length (calls_of "SpawnActorFromClass" extra) <= 1)%nat /\
    (length (calls_of "SetActorLabel" extra)
     <= if name_given name then 1 else 0)%nat /\
    (length (calls_of "SetActorScale3D" extra)
     <= if scale_differs scale then 1 else 0)%nat.
Proof.
  destruct (spawn_blueprint_actor_calls blueprint_path location rotation
              scale name st) as (extra & E & Ht).
  exists extra. rewrite filter_any_call in Ht.
  split; [exact E|]. split; [exact Ht|]. repeat split.
  - exact (sends_same _ _ _ st extra
             (spawn_blueprint_actor_spawns blueprint_path location rotation
                                           scale name) E).
  - exact (sends_same _ _ _ st extra
             (spawn_blueprint_actor_labels blueprint_path location rotation
                                           scale name) E).
  - exact (sends_same _ _ _ st extra
             (spawn_blueprint_actor_scales blueprint_path location rotation
                                           scale name) E).
Qed.

Lemma modify_actor_calls
    actor_path x y z pitch yaw roll scale_x scale_y scale_z name :
  sends_at_most any_call 7
    (modify_actor actor_path x y z pitch yaw roll scale_x scale_y scale_z name).
Proof.
  unfold modify_actor, modify_location, modify_rotation, modify_scale,
    modify_name, group_error, log_tool_error, put_checked.
  budget ltac:(reflexivity).
Qed.

Lemma modify_actor_addresses
    actor_path x y z pitch yaw roll scale_x scale_y scale_z name :
  sends_at_most (addressed_elsewhere actor_path) 0
    (modify_actor actor_path x y z pitch yaw roll scale_x scale_y scale_z name).
Proof.
  unfold modify_actor, modify_location, modify_rotation, modify_scale,
    modify_name, group_error, log_tool_error, put_checked.
  budget ltac:(simpl; rewrite String.eqb_refl; reflexivity).
Qed.

(** X3. [modify_actor] makes at most seven calls, whatever is asked and
    whatever the engine replies, and every payload it sends has the given
    actor path as its [objectPath]: it touches no other object. *)
Theorem modify_actor_touches_only_its_actor
    actor_path x y z pitch yaw roll scale_x scale_y scale_z name st :
  exists extra,
    sent (snd (modify_actor actor_path x y z pitch yaw roll
                            scale_x scale_y scale_z name st))
    = sent st ++ extra /\
    (length extra <= 7)%nat /\
    forallb (fun payload => negb (addressed_elsewhere actor_path payload)) extra
    = true.
Proof.
  destruct (sends_both _ _ _ _ _ st
              (modify_actor_calls actor_path x y z pitch yaw roll
                                  scale_x scale_y scale_z name)
              (modify_actor_addresses actor_path x y z pitch yaw roll
                                      scale_x scale_y scale_z name))
    as (extra & E & Ht & Ha).
  exists extra. rewrite filter_any_call in Ht.
  split; [exact E|]. split; [exact Ht|].
  clear E Ht. induction extra as [|a l IH]; [reflexivity|].
  simpl in Ha |- *. destruct (addressed_elsewhere actor_path a); simpl in Ha |- *.
  - lia.
  - apply IH. exact Ha.
Qed.

End MoreBounds.

Section FamilyBounds.
Context {PN : PyNumber}.
Variable p : json -> bool.

Lemma sends_bind_add {A B} n m (c : M A) (k : A -> M B) :
  sends_at_most p n c -> (forall a, sends_at_most p m (k a)) ->
  sends_at_most p (n + m) (bind c k).
Proof.
  intros Hc Hk. apply (sends_bind p n (n + m)); [exact Hc | lia |].
  intros a. replace (n + m - n)%nat with m by lia. apply Hk.
Qed.

Lemma sends_bind_free {A B} m (c : M A) (k : A -> M B) :
  sends_at_most p 0 c -> (forall a, sends_at_most p m (k a)) ->
  sends_at_most p m (bind c k).
Proof. intros Hc Hk. exact (sends_bind_add 0 m c k Hc Hk). Qed.

Variable s n : nat.
Hypothesis spawn_sends :
  forall blueprint_path location rotation scale name,
    sends_at_most p s
      (spawn_blueprint_actor blueprint_path location rotation scale name).
Hypothesis duplicate_sends :
  forall src location rotation scale name,
    sends_at_most p n (duplicate_snowman src location rotation scale name).

Lemma duplicate_each_sends indices first positions rotations scales names :
  forall spawned,
    sends_at_most p (n * length indices)
      (duplicate_each indices first positions rotations scales names spawned).
Proof.
  induction indices as [|i tl IH]; intros spawned.
  - simpl. rewrite Nat.mul_0_r. apply sends_ret.
  - cbn [duplicate_each length]. rewrite Nat.mul_succ_r, Nat.add_comm.
    repeat (apply sends_bind_free; [apply sends_lift | intro]).
    apply sends_bind_add; [apply duplicate_sends | intro d].
    apply sends_bind_free.
    { destruct (returned d).
      - apply sends_ret.
      - apply sends_bind_free; [apply sends_logger | intro; apply sends_ret]. }
    intro. apply sends_bind_free; [apply sends_ret | intro]. apply IH.
Qed.

Lemma spawn_snowman_family_sends base_x base_y base_z spread random_placement :
  sends_at_most p (s + n * 2)
    (spawn_snowman_family base_x base_y base_z spread random_placement).
Proof.
  unfold spawn_snowman_family. cbv zeta. apply sends_try.
  - apply sends_bind_free.
    { destruct random_placement.
      - apply sends_bind_free; [apply sends_random_uniform | intro; apply sends_ret].
      - apply sends_ret. }
    intro. repeat (apply sends_bind_free; [apply sends_lift | intro]).
    apply sends_bind_add; [apply spawn_sends | intro first].
    destruct (negb (returned first)).
    + apply (sends_weaken p 0); [lia | apply sends_ret].
    + apply sends_bind_free; [apply sends_ret | intro].
      replace (n * 2)%nat with (n * 2 + 0)%nat by lia.
      apply sends_bind_add; [| intro; apply sends_ret].
      exact (duplicate_each_sends [1; 2]%nat _ _ _ _ _ _).
  - intro e. unfold log_tool_error.
    repeat (apply sends_bind_free; [| intro]);
      first [apply sends_logger | apply sends_ret].
Qed.

End FamilyBounds.

Section Helpers.
Context {PN : PyNumber}.

Lemma duplicate_snowman_spawns src location rotation scale name :
  sends_at_most (is_call "SpawnActorFromClass") 0
                (duplicate_snowman src location rotation scale name).
Proof.
  unfold duplicate_snowman, resolve_new_actor, set_properties,
    get_all_level_actors, put_checked, return_none_logging, asyncio_sleep.
  budget ltac:(reflexivity).
Qed.

(** X4. [spawn_snowman_family] makes at most one spawn call, at most six
    Duplicate calls and at most twenty-five calls in all, whatever the
    engine replies and whether the placement is random or not. *)
Theorem spawn_snowman_family_call_bounds
    base_x base_y base_z spread random_placement st :
  exists extra,
    sent (snd (spawn_snowman_family base_x base_y base_z spread
                                    random_placement st))
    = sent st ++ extra /\
    (length (calls_of "SpawnActorFromClass" extra) <= 1)%nat /\
    (length (calls_of "Duplicate" extra) <= 6)%nat /\
    (length extra <= 25)%nat.
Proof.
  pose proof (spawn_snowman_family_sends any_call 3 11
                spawn_blueprint_actor_calls duplicate_snowman_calls
                base_x base_y base_z spread random_placement) as Ht.
  pose proof (spawn_snowman_family_sends (is_call "SpawnActorFromClass") 1 0
                spawn_blueprint_actor_spawns duplicate_snowman_spawns
                base_x base_y base_z spread random_placement) as Hs.
  pose proof (spawn_snowman_family_sends (is_call "Duplicate") 0 3
                spawn_blueprint_actor_duplicates duplicate_snowman_duplicates
                base_x base_y base_z spread random_placement) as Hd.
  destruct (Ht st) as (extra & E & Hn). exists extra.
  rewrite filter_any_call in Hn.
  split; [exact E|]. repeat split.
  - exact (sends_same _ _ _ st extra Hs E).
  - exact (sends_same _ _ _ st extra Hd E).
  - exact Hn.
Qed.

Lemma spawn_blueprint_actor_truthy
      blueprint_path location rotation scale name st q st' :
  spawn_blueprint_actor blueprint_path location rotation scale name st
  = (Ret (Some q), st') ->
  py_truthy q = true.
Proof.
  unfold spawn_blueprint_actor, try_except.
  match goal with
  | |- context [match ?b st with _ => _ end] =>
      destruct (b st) as [[r|e] st1] eqn:E
  end.
  - intros H. inversion H; subst. invert_binds.
    match type of E with
    | (if negb (py_truthy ?v) then _ else _) _ = _ =>
        destruct (py_truthy v) eqn:Ht; cbv [negb] in E
    end.
    + invert_binds. apply ret_inv in E. inversion E; subst. exact Ht.
    + invert_binds. apply ret_inv in E. discriminate.
  - destruct (return_none_logging_returns
                "Error spawning blueprint actor: {e}" e st1) as [st2 E2].
    rewrite E2. intros H. discriminate.
Qed.

Lemma duplicate_snowman_truthy src location rotation scale name st q st' :
  duplicate_snowman src location rotation scale name st = (Ret (Some q), st') ->
  py_truthy q = true.
Proof.
  unfold duplicate_snowman, try_except.
  match goal with
  | |- context [match ?b st with _ => _ end] =>
      destruct (b st) as [[r|e] st1] eqn:E
  end.
  - intros H. inversion H; subst. invert_binds.
    match type of E with
    | (match ?x with _ => _ end) _ = _ => destruct x as [|v]
    end.
    + apply ret_inv in E. discriminate.
    + unfold set_properties in E. destruct (py_truthy v) eqn:Ht.
      * invert_binds. apply ret_inv in E. inversion E; subst. exact Ht.
      * apply ret_inv in E. discriminate.
  - destruct (return_none_logging_returns
                "Error duplicating snowman: {e}" e st1) as [st2 E2].
    rewrite E2. intros H. discriminate.
Qed.

(** X5. The two helpers never raise, whatever the engine replies: each
    returns [None] or a reference, and a reference it returns is truthy, so
    the callers' test [if actor_path:] is the test for [None]. *)
Theorem helpers_return_none_or_reference
    blueprint_path src location rotation scale name st :
  (exists r st',
      spawn_blueprint_actor blueprint_path location rotation scale name st
      = (Ret r, st') /\
      returned r = match r with Some _ => true | None => false end) /\
  (exists r st',
      duplicate_snowman src location rotation scale name st = (Ret r, st') /\
      returned r = match r with Some _ => true | None => false end).
Proof.
  split.
  - destruct (spawn_blueprint_actor_returns blueprint_path location rotation
                scale name st) as (r & st' & E).
    exists r, st'. split; [exact E|]. destruct r as [q|]; [|reflexivity].
    exact (spawn_blueprint_actor_truthy _ _ _ _ _ _ _ _ E).
  - destruct (duplicate_snowman_returns src location rotation scale name st)
      as (r & st' & E).
    exists r, st'. split; [exact E|]. destruct r as [q|]; [|reflexivity].
    exact (duplicate_snowman_truthy _ _ _ _ _ _ _ _ E).
Qed.

End Helpers.

(** ** Listings and their difference *)

Section Listings.
Context {PN : PyNumber}.

Lemma snapshot_failed r : failed r = true -> snapshot r = Ret (JArr []).
Proof.
  destruct r as [msg|resp]; simpl; intros H; [reflexivity|].
  destruct (ok resp); [discriminate | reflexivity].
Qed.

(** X6. [get_all_level_actors] makes exactly one call, the listing call.
    It returns the [ReturnValue] of the body, and the empty list when the
    body has none, when the call fails, when the body is not JSON and when
    the engine cannot be reached; it raises only for a JSON body that is not
    an object. *)
Theorem get_all_level_actors_outcome st :
  sent (snd (get_all_level_actors st)) = sent st ++ [get_actors_payload] /\
  fst (get_all_level_actors st)
  = match replies st with
    | [] => Ret (JArr [])
    | PutRaises _ :: _ => Ret (JArr [])
    | Replies resp :: _ =>
        if ok resp then
          match body resp with
          | Some (JObj kv) =>
              Ret (match lookup "ReturnValue" kv with
                   | Some v => v
                   | None => JArr []
                   end)
          | Some _ => Raise (AttributeError "object has no attribute 'get'")
          | None => Ret (JArr [])
          end
        else Ret (JArr [])
    end.
Proof.
  destruct (replies st) as [|r tl] eqn:Hr.
  - destruct st as [rs snt lg src used]. simpl in Hr. subst rs.
    split; reflexivity.
  - destruct (get_all_level_actors_run st r tl Hr) as [records E].
    rewrite E. split; [reflexivity|]. simpl.
    destruct r as [msg|[[] [[]|]]]; reflexivity.
Qed.

Lemma existsb_same {A} (f : A -> bool) l l' :
  (forall a, In a l <-> In a l') -> existsb f l = existsb f l'.
Proof.
  intros H. destruct (existsb f l) eqn:E; symmetry.
  - apply existsb_exists in E. destruct E as (x & Hx & Hf).
    apply existsb_exists. exists x. split; [apply H; exact Hx | exact Hf].
  - destruct (existsb f l') eqn:E'; [|reflexivity].
    apply existsb_exists in E'. destruct E' as (x & Hx & Hf).
    assert (existsb f l = true)
      by (apply existsb_exists; exists x; split; [apply H; exact Hx | exact Hf]).
    congruence.
Qed.

(** X7. The new actors depend on the earlier listing only through what it
    holds: its order and its repetitions do not matter. *)
Theorem new_actors_ignore_order_of_before after before before' :
  (forall actor, In actor before <-> In actor before') ->
  new_in_order after before = new_in_order after before' /\
  new_actors_of (JArr after) (JArr before)
  = new_actors_of (JArr after) (JArr before').
Proof.
  intros H.
  assert (E : new_in_order after before = new_in_order after before').
  { unfold new_in_order. apply filter_ext. intros a.
    rewrite (existsb_same (py_eqb a) before before' H). reflexivity. }
  split; [exact E|]. rewrite !new_actors_of_lists, E. reflexivity.
Qed.


Lemma new_in_order_nil after : new_in_order after [] = after.
Proof.
  unfold new_in_order. induction after as [|a l IH]; [reflexivity|].
  simpl. f_equal. exact IH.
Qed.

(** X9. When the listing before the call fails, it counts as empty: if the
    Duplicate call then returns no reference, every actor of the later
    listing counts as new and the last one listed is taken, whether or not it
    was there before. *)
Theorem failed_first_listing_makes_every_actor_new
    src location scale st r_before result r_after rest returned_value after :
  replies st = r_before :: good result :: r_after :: rest ->
  failed r_before = true ->
  py_get result "ReturnValue" JNull = Ret returned_value ->
  py_truthy returned_value = false ->
  snapshot r_after = Ret (JArr after) ->
  after <> [] ->
  fst (resolve_new_actor src location scale st) = Ret (Resolved (py_last after)).
Proof.
  intros Hr Hf Hv Ht Ha Hn.
  destruct (resolve_by_snapshot_diff src location scale st _ _ _ _ _ [] after
              Hr (snapshot_failed _ Hf) Hv Ht Ha) as (st' & E & _).
  - rewrite new_in_order_nil. exact Hn.
  - rewrite E, new_in_order_nil. reflexivity.
Qed.

End Listings.

Lemma new_actors_ignore_order_of_before_witness :
  new_in_order [actor_B; actor_C] listing_AB
  = new_in_order [actor_B; actor_C] listing_BAA.
Proof.
  apply (new_actors_ignore_order_of_before
           [actor_B; actor_C] listing_AB listing_BAA).
  intros actor. unfold listing_AB, listing_BAA. simpl. tauto.
Defined.

(** Both actors were there before; the later one listed is taken as the
    duplicate. *)
Lemma failed_first_listing_makes_every_actor_new_witness :
  fst (resolve_new_actor actor_A place unit_size engine_misses_first_listing)
  = Ret (Resolved actor_A).
Proof.
  apply (failed_first_listing_makes_every_actor_new
           actor_A place unit_size engine_misses_first_listing
           timeout (JObj []) (listing [actor_B; actor_A]) [] JNull
           [actor_B; actor_A]); try reflexivity.
  discriminate.
Defined.

(** ** Failures that stop a sequence of calls *)

Section Failures.
Context {PN : PyNumber}.

Lemma try_except_bind_raise {A B} (c : M A) (k : A -> M B) h st e st' :
  c st = (Raise e, st') -> try_except (bind c k) h st = h e st'.
Proof. intros H. unfold try_except. rewrite (bind_raise _ _ _ _ _ H). reflexivity. Qed.

(** X10. When the read of a group fails, [modify_actor] makes no set call
    for that group: the actor keeps its value, the error is recorded under
    the group's error key, [modified] is left as it was and the next block
    runs with the replies that follow. *)
Theorem failed_read_writes_nothing actor_path vars st r tl :
  replies st = r :: tl ->
  failed r = true ->
  (forall x y z, any_given [x; y; z] = true ->
     exists msg st',
       modify_location actor_path x y z vars st
       = (Ret (fst vars, snd vars ++ [("location_error", JStr msg)]), st') /\
       sent st' = sent st ++ [getter_payload actor_path "GetActorLocation"] /\
       replies st' = tl) /\
  (forall pitch yaw roll, any_given [pitch; yaw; roll] = true ->
     exists msg st',
       modify_rotation actor_path pitch yaw roll vars st
       = (Ret (fst vars, snd vars ++ [("rotation_error", JStr msg)]), st') /\
       sent st' = sent st ++ [getter_payload actor_path "GetActorRotation"] /\
       replies st' = tl) /\
  (forall scale_x scale_y scale_z, any_given [scale_x; scale_y; scale_z] = true ->
     exists msg st',
       modify_scale actor_path scale_x scale_y scale_z vars st
       = (Ret (fst vars, snd vars ++ [("scale_error", JStr msg)]), st') /\
       sent st' = sent st ++ [getter_payload actor_path "GetActorScale3D"] /\
       replies st' = tl).
Proof.
  intros Hr Hf. repeat split; intros a b c Hany.
  - unfold modify_location. rewrite Hany.
    destruct (put_checked_failed st (getter_payload actor_path "GetActorLocation")
                r tl Hr Hf) as (e & _ & E).
    rewrite (try_except_bind_raise _ _ _ _ _ _ E).
    exists (message e). eexists. split; [reflexivity|].
    split; reflexivity.
  - unfold modify_rotation. rewrite Hany.
    destruct (put_checked_failed st (getter_payload actor_path "GetActorRotation")
                r tl Hr Hf) as (e & _ & E).
    rewrite (try_except_bind_raise _ _ _ _ _ _ E).
    exists (message e). eexists. split; [reflexivity|].
    split; reflexivity.
  - unfold modify_scale. rewrite Hany.
    destruct (put_checked_failed st (getter_payload actor_path "GetActorScale3D")
                r tl Hr Hf) as (e & _ & E).
    rewrite (try_except_bind_raise _ _ _ _ _ _ E).
    exists (message e). eexists. split; [reflexivity|].
    split; reflexivity.
Qed.

(** X11. When the spawn call fails, or succeeds without a usable
    [ReturnValue], [spawn_blueprint_actor] returns [None] after that one
    call: neither scale nor label is set and the replies that follow are left
    for the next call. *)
Theorem spawn_without_reference_stops
    blueprint_path location rotation scale name st r rest :
  replies st = r :: rest ->
  failed r = true \/
  (exists result v, r = good result /\
                    py_get result "ReturnValue" JNull = Ret v /\
                    py_truthy v = false) ->
  exists st',
    spawn_blueprint_actor blueprint_path location rotation scale name st
    = (Ret None, st') /\
    sent st' = sent st ++ [spawn_payload blueprint_path location rotation] /\
    replies st' = rest.
Proof.
  intros Hr [Hf | (result & v & -> & Hv & Ht)]; unfold spawn_blueprint_actor.
  - try_step_log.
    match goal with
    | |- context [try_except (bind (put_checked ?pl) _) _ ?s] =>
        destruct (put_checked_failed s pl r rest Hr Hf) as (e & Hk & E)
    end.
    rewrite (try_except_bind_raise _ _ _ _ _ _ E).
    unfold return_none_logging. rewrite Hk.
    eexists. split; [reflexivity|]. split; reflexivity.
  - try_step_log. try_step_put_ok Hr. try_step_json. try_step_pure Hv.
    rewrite Ht. cbv [negb].
    eexists. split; [reflexivity|]. split; reflexivity.
Qed.

End Failures.

Lemma failed_read_writes_nothing_witness :
  sent (snd (move_x_to_10 engine_refuses_read))
  = [getter_payload "ref" "GetActorLocation"].
Proof.
  destruct (proj1 (failed_read_writes_nothing
                     (PN := QNumber) "ref" (false, []) engine_refuses_read
                     http_error [done] eq_refl eq_refl)
                  (Some 10%Q) None None eq_refl) as (msg & st' & E & Hs & _).
  reflexivity.
Defined.

Lemma spawn_without_reference_stops_witness :
  fst (spawn_blueprint_actor "/Game/Snowman_BP.Snowman_BP_C" place facing
                             double_size (Some "Snowman_Center")
                             engine_spawns_nothing)
  = Ret None.
Proof.
  destruct (spawn_without_reference_stops
              "/Game/Snowman_BP.Snowman_BP_C" place facing double_size
              (Some "Snowman_Center") engine_spawns_nothing done [done; done]
              eq_refl
              (or_intror (ex_intro _ (JObj [])
                            (ex_intro _ JNull
                               (conj eq_refl (conj eq_refl eq_refl))))))
    as (st' & E & _).
  rewrite E. reflexivity.
Defined.

(** ** The server's life span *)

Section Lifespan.
Context {PN : PyNumber}.

Lemma startup_probe_run (connected : M unit) (h : exn -> M unit) st :
  (forall st0, exists st1, connected st0 = (Ret tt, st1) /\
                           sent st1 = sent st0 /\ replies st1 = replies st0) ->
  (forall e st0, exists st1, h e st0 = (Ret tt, st1) /\
                             sent st1 = sent st0 /\ replies st1 = replies st0) ->
  exists st1,
    try_except (bind (put_checked get_actors_payload) (fun _ => connected)) h st
    = (Ret tt, st1) /\
    sent st1 = sent st ++ [get_actors_payload] /\
    replies st1 = tl (replies st).
Proof.
  intros Hc Hh.
  destruct (replies st) as [|r rest] eqn:Hr.
  - destruct (put_checked_unreachable st get_actors_payload Hr) as (e & _ & E).
    unfold try_except. rewrite (bind_raise _ _ _ _ _ E).
    destruct (Hh e (called st get_actors_payload [] [])) as (st1 & E1 & Hs & Hrep).
    exists st1. rewrite E1, Hs, Hrep. repeat split.
  - destruct (failed r) eqn:Hf.
    + destruct (put_checked_failed st get_actors_payload r rest Hr Hf)
        as (e & _ & E).
      unfold try_except. rewrite (bind_raise _ _ _ _ _ E).
      destruct (Hh e (called st get_actors_payload rest [])) as (st1 & E1 & Hs & Hrep).
      exists st1. rewrite E1, Hs, Hrep. repeat split.
    + destruct (put_checked_passes st get_actors_payload r rest Hr Hf)
        as (resp & E).
      unfold try_except. rewrite (bind_ret _ _ _ _ _ E). cbv beta.
      destruct (Hc (called st get_actors_payload rest [])) as (st1 & E1 & Hs & Hrep).
      exists st1. rewrite E1, Hs, Hrep. repeat split.
Qed.

(** X12. The life span never fails on its own account.  Whatever the engine
    answers to the connection test made at start-up (one listing call), the
    server is served; what it returns or raises is what the life span
    returns or raises, and the shut-down record is logged after it in both
    cases. *)
Theorem server_lifespan_brackets_serving {A} (serving : json -> M A) st :
  exists st1,
    sent st1 = sent st ++ [get_actors_payload] /\
    replies st1 = tl (replies st) /\
    server_lifespan serving st
    = (fst (serving (JObj []) st1),
       noted (snd (serving (JObj []) st1))
             [Log INFO "Unreal Engine MCP server shut down" []]).
Proof.
  unfold server_lifespan, try_finally.
  rewrite (bind_ret _ _ _ _ _ (logger_run _ _ _ _)). cbv beta.
  rewrite (bind_ret _ _ _ _ _ (logger_run _ _ _ _)). cbv beta.
  rewrite (bind_ret _ _ _ _ _ (logger_run _ _ _ _)). cbv beta.
  match goal with
  | |- context [bind (try_except (bind _ (fun _ => ?c)) ?h) _ ?s] =>
      destruct (startup_probe_run c h s) as (st1 & E & Hs & Hrep)
  end.
  - intros st0. eexists. split; [reflexivity|]. split; reflexivity.
  - intros e st0. eexists. split; [reflexivity|]. split; reflexivity.
  - rewrite (bind_ret _ _ _ _ _ E). cbv beta.
    exists st1. split; [exact Hs|]. split; [exact Hrep|].
    destruct (serving (JObj []) st1) as [r st2]. reflexivity.
Qed.

End Lifespan.

(** ** What the tools answer *)

Section Answers.
Context {PN : PyNumber}.

(** X13. [spawn_actor] has two answers only.  When the helper returns a
    reference, the answer carries it with the requested location, rotation
    and scale and the name, or "Unnamed" for no name; in every other case,
    whatever failed, the answer is the fixed error "Failed to spawn actor".
    The tool makes no call of its own. *)
Theorem spawn_actor_answers
    blueprint_path x y z pitch yaw roll scale_x scale_y scale_z name st :
  let tool := spawn_actor blueprint_path x y z pitch yaw roll
                          scale_x scale_y scale_z name st in
  let helper := spawn_blueprint_actor blueprint_path (x, y, z) (pitch, yaw, roll)
                                      (scale_x, scale_y, scale_z) name st in
  snd tool = snd helper /\
  fst tool
  = Ret (match fst helper with
         | Ret (Some actor_path) =>
             JsonDump
               (JObj [("success", JBool true);
                      ("actor_path", actor_path);
                      ("location_cm", lower_xyz (x, y, z));
                      ("rotation", lower_rotation (pitch, yaw, roll));
                      ("scale", lower_xyz (scale_x, scale_y, scale_z));
                      ("name", JStr (match name with
                                     | Some n => if String.eqb n "" then "Unnamed" else n
                                     | None => "Unnamed"
                                     end))])
         | _ => failure "Failed to spawn actor"
         end).
Proof.
  intros tool helper. subst tool helper.
  destruct (spawn_blueprint_actor_returns blueprint_path (x, y, z)
              (pitch, yaw, roll) (scale_x, scale_y, scale_z) name st)
    as (r & st' & E).
  unfold spawn_actor. cbv zeta.
  rewrite (try_except_bind_ret _ _ _ _ _ _ E). cbv beta. rewrite E.
  destruct r as [q|]; simpl.
  - rewrite (spawn_blueprint_actor_truthy _ _ _ _ _ _ _ _ E).
    unfold try_except, ret. simpl. split; [reflexivity|].
    destruct name as [n|]; simpl; [destruct (String.eqb n "")|]; reflexivity.
  - split; reflexivity.
Qed.

End Answers.

Section FamilyAnswers.
Context {PN : PyNumber}.

Lemma duplicate_each_adds first positions rotations scales names indices :
  Forall (fun i => exists p r s n,
              item positions i = Ret p /\ item rotations i = Ret r /\
              item scales i = Ret s /\ item names i = Ret n) indices ->
  forall spawned st,
  exists more st',
    duplicate_each indices first positions rotations scales names spawned st
    = (Ret (spawned ++ more), st') /\
    (length more <= length indices)%nat.
Proof.
  induction 1 as [|i tl (p & r & s & n & Hp & Hr & Hs & Hn) _ IH];
    intros spawned st.
  - exists [], st. rewrite app_nil_r. split; [reflexivity | apply le_n].
  - cbn [duplicate_each].
    step_pure Hp. step_pure Hr. step_pure Hs. step_pure Hn.
    destruct (duplicate_snowman_returns first p r s (Some n) st) as (d & st1 & Ed).
    step Ed. destruct (returned d).
    + rewrite (bind_ret _ _ _ _ _ (ret_run _ _)). cbv beta. step_sleep.
      destruct (IH (spawned ++ [snowman_entry (path_json d) p r s n]) st1)
        as (more & st' & E & Hl).
      exists (snowman_entry (path_json d) p r s n :: more), st'.
      rewrite E, <- app_assoc. split; [reflexivity | simpl; lia].
    + match goal with
      | |- context [bind (bind (logger ?l ?t ?a) ?k) _ ?st0] =>
          assert (El : bind (logger l t a) k st0
                       = (Ret spawned, noted st0 [Log l t a]))
            by reflexivity;
          step El
      end.
      step_sleep.
      match goal with
      | |- context [duplicate_each tl _ _ _ _ _ _ ?st0] =>
          destruct (IH spawned st0) as (more & st' & E & Hl)
      end.
      exists more, st'. split; [exact E | simpl; lia].
Qed.

Lemma spawn_snowman_family_fixed_random_free base_x base_y base_z spread :
  random_free (spawn_snowman_family base_x base_y base_z spread false).
Proof.
  unfold spawn_snowman_family, log_tool_error, asyncio_sleep. cbv zeta.
  repeat first
    [ apply random_free_duplicate_each
    | apply random_free_spawn_blueprint_actor
    | apply random_free_bind; [| intro]
    | apply random_free_try; [| intro]
    | solve [auto with random_free]
    | match goal with
      | |- random_free (if ?c then _ else _) => destruct c
      end ].
Qed.

(** X15. A run with random placement is the run without it for the spread
    multiplied by the factor drawn, [0.8 + (1.2 - 0.8) * random()]: one
    random number is drawn, at the start, and none after it, whatever the
    engine replies. *)
Theorem random_placement_scales_the_spread base_x base_y base_z spread st :
  let factor :=
    num_add (num_lit (4 # 5))
            (num_mul (num_sub (num_lit (6 # 5)) (num_lit (4 # 5)))
                     (random_source st (random_used st))) in
  spawn_snowman_family base_x base_y base_z spread true st
  = spawn_snowman_family base_x base_y base_z (num_mul spread factor) false
      (with_random st (random_source st) (S (random_used st))) /\
  random_used (snd (spawn_snowman_family base_x base_y base_z spread true st))
  = S (random_used st).
Proof.
  intros factor.
  assert (E : spawn_snowman_family base_x base_y base_z spread true st
              = spawn_snowman_family base_x base_y base_z (num_mul spread factor)
                  false (with_random st (random_source st) (S (random_used st))))
    by reflexivity.
  split; [exact E|]. rewrite E.
  pose proof (spawn_snowman_family_fixed_random_free
                base_x base_y base_z (num_mul spread factor)
                (with_random st (random_source st) (S (random_used st)))
                (random_source st) (S (random_used st))) as H.
  assert (Hw : with_random (with_random st (random_source st) (S (random_used st)))
                           (random_source st) (S (random_used st))
               = with_random st (random_source st) (S (random_used st)))
    by reflexivity.
  rewrite Hw in H. rewrite H. reflexivity.
Qed.

End FamilyAnswers.

Section Reports.
Context {PN : PyNumber}.

Lemma reported_value key error_key vars v :
  reported key error_key 1 vars (true, snd vars ++ [(key, v)]).
Proof.
  split; [destruct (fst vars); reflexivity|].
  eexists. split; [reflexivity|]. split; [reflexivity|].
  constructor; [left; reflexivity | constructor].
Qed.

Lemma reported_nothing key error_key vars : reported key error_key 0 vars vars.
Proof.
  split; [destruct (fst vars); reflexivity|].
  exists []. rewrite app_nil_r. repeat split. constructor.
Qed.

Lemma group_error_reports text key error_key vars vars0 e st :
  fst vars0 = fst vars \/ fst vars0 = true -> snd vars0 = snd vars ->
  exists a st', group_error text error_key vars0 e st = (Ret a, st') /\
                reported key error_key 1 vars a.
Proof.
  intros Hm Hs. eexists. eexists. split; [reflexivity|]. simpl. rewrite Hs.
  split.
  - simpl. destruct Hm as [-> | ->]; destruct (fst vars); reflexivity.
  - eexists. split; [reflexivity|]. split; [reflexivity|].
    constructor; [right; reflexivity | constructor].
Qed.

Lemma block_returns (P : locals -> Prop) (body : M locals) h st :
  (forall a st', body st = (Ret a, st') -> P a) ->
  (forall e st', exists a st'', h e st' = (Ret a, st'') /\ P a) ->
  exists a st', try_except body h st = (Ret a, st') /\ P a.
Proof.
  intros Hb Hh. unfold try_except.
  destruct (body st) as [[a|e] st'] eqn:E.
  - exists a, st'. split; [reflexivity | exact (Hb a st' eq_refl)].
  - apply Hh.
Qed.

Lemma modify_location_reports actor_path x y z vars st :
  exists vars' st',
    modify_location actor_path x y z vars st = (Ret vars', st') /\
    reported "location_cm" "location_error"
             (if any_given [x; y; z] then 1 else 0) vars vars'.
Proof.
  unfold modify_location. destruct (any_given [x; y; z]).
  - apply block_returns.
    + intros a st' H. invert_binds. apply ret_inv in H. subst a.
      apply reported_value.
    + intros e st'. apply group_error_reports; [left|]; reflexivity.
  - exists vars, st. split; [reflexivity | apply reported_nothing].
Qed.

Lemma modify_rotation_reports actor_path pitch yaw roll vars st :
  exists vars' st',
    modify_rotation actor_path pitch yaw roll vars st = (Ret vars', st') /\
    reported "rotation" "rotation_error"
             (if any_given [pitch; yaw; roll] then 1 else 0) vars vars'.
Proof.
  unfold modify_rotation. destruct (any_given [pitch; yaw; roll]).
  - apply block_returns.
    + intros a st' H. invert_binds. apply ret_inv in H. subst a.
      apply reported_value.
    + intros e st'. apply group_error_reports; [left|]; reflexivity.
  - exists vars, st. split; [reflexivity | apply reported_nothing].
Qed.

Lemma modify_scale_reports actor_path scale_x scale_y scale_z vars st :
  exists vars' st',
    modify_scale actor_path scale_x scale_y scale_z vars st = (Ret vars', st') /\
    reported "scale" "scale_error"
             (if any_given [scale_x; scale_y; scale_z] then 1 else 0) vars vars'.
Proof.
  unfold modify_scale. destruct (any_given [scale_x; scale_y; scale_z]).
  - apply block_returns.
    + intros a st' H. invert_binds.
      match type of H with
      | try_except ?b ?h ?s = _ =>
          destruct (block_returns
                      (reported "scale" "scale_error" 1 vars) b h s)
            as (a' & st'' & E' & HP)
      end.
      * intros a' st'' H'. invert_binds. apply ret_inv in H'. subst a'.
        apply reported_value.
      * intros e st''. apply group_error_reports; [right|]; reflexivity.
      * pose proof (eq_trans (eq_sym E') H) as Heq.
        inversion Heq; subst. exact HP.
    + intros e st'. apply group_error_reports; [left|]; reflexivity.
  - exists vars, st. split; [reflexivity | apply reported_nothing].
Qed.

Lemma modify_name_reports actor_path name vars st :
  exists vars' st',
    modify_name actor_path name vars st = (Ret vars', st') /\
    reported "name" "name_error"
             (match name with Some _ => 1 | None => 0 end) vars vars'.
Proof.
  unfold modify_name. destruct name as [n|].
  - apply block_returns.
    + intros a st' H. invert_binds. apply ret_inv in H. subst a.
      apply reported_value.
    + intros e st'. apply group_error_reports; [left|]; reflexivity.
  - exists vars, st. split; [reflexivity | apply reported_nothing].
Qed.

(** X17. The answer of [get_all_scene_actors] for a listing that is a list
    is the list with its length as [count].  A listing that fails counts as
    the empty list, so a level that cannot be read is answered like an empty
    level. *)
Theorem get_all_scene_actors_counts st r tl actors :
  replies st = r :: tl ->
  snapshot r = Ret (JArr actors) ->
  fst (get_all_scene_actors st)
  = Ret (JsonDump (JObj [("actors", JArr actors);
                         ("count", PyInt (Z.of_nat (length actors)))])) /\
  (failed r = true -> actors = []).
Proof.
  intros Hr Hs. split.
  - unfold get_all_scene_actors.
    destruct (get_all_level_actors_run st r tl Hr) as [records E].
    rewrite Hs in E. rewrite (try_except_bind_ret _ _ _ _ _ _ E). cbv beta.
    reflexivity.
  - intros Hf. rewrite (snapshot_failed r Hf) in Hs. inversion Hs. reflexivity.
Qed.

Lemma issued_all payloads rs :
  all_succeed (length payloads) rs = true -> issued payloads rs = payloads.
Proof.
  revert rs. induction payloads as [|q ps IH]; intros rs H; [reflexivity|].
  simpl in H |- *. destruct rs as [|r tl]; [discriminate|].
  destruct (failed r); simpl in H; [discriminate|].
  rewrite (IH tl H). reflexivity.
Qed.

(** X18. When the first Duplicate call returns a reference, it is taken as
    it stands: no second listing is made and no other format is tried.  If
    the calls that follow succeed, the function returns that reference after
    exactly these calls: the listing, the Duplicate call, and the location,
    rotation, scale and (for a name) label of the new actor. *)
Theorem duplicate_with_returned_reference
    src location rotation scale name st
    r_before result rest before returned_value :
  replies st = r_before :: good result :: rest ->
  snapshot r_before = Ret before ->
  py_get result "ReturnValue" JNull = Ret returned_value ->
  py_truthy returned_value = true ->
  all_succeed (corrections name) rest = true ->
  let out := duplicate_snowman src location rotation scale name st in
  fst out = Ret (Some returned_value) /\
  sent (snd out)
  = sent st ++ [get_actors_payload;
                duplicate_payload src (transform location scale)]
            ++ property_calls returned_value location rotation scale name.
Proof.
  intros Hr Hb Hv Ht Hall out. subst out.
  destruct (resolve_by_returned_reference src location scale st _ _ _ _ _
              Hr Hb Hv Ht) as (st' & E & Hrest & Hsent).
  rewrite (duplicate_after_resolution _ _ rotation _ name _ _ _ E).
  pose proof (set_properties_run returned_value location rotation scale name
                "Error duplicating snowman: {e}" st' Ht) as Hrun.
  cbv zeta in Hrun. destruct Hrun as [Hout Hs].
  rewrite Hout, Hs, Hrest, Hall, Hsent. split; [reflexivity|].
  rewrite issued_all.
  - rewrite <- app_assoc. reflexivity.
  - unfold property_calls, corrections in *.
    destruct (name_given name); exact Hall.
Qed.

End Reports.

Lemma get_all_scene_actors_counts_witness :
  fst (get_all_scene_actors (fresh [timeout]))
  = Ret (JsonDump (JObj [("actors", JArr []); ("count", number 0)])).
Proof.
  exact (proj1 (get_all_scene_actors_counts
                  (PN := QNumber) (fresh [timeout]) timeout [] []
                  eq_refl eq_refl)).
Defined.

Lemma duplicate_with_returned_reference_witness :
  fst (duplicate_snowman actor_A place facing unit_size (Some "Snowman_Left")
                         engine_returns_B)
  = Ret (Some actor_B).
Proof.
  exact (proj1 (duplicate_with_returned_reference
                  actor_A place facing unit_size (Some "Snowman_Left")
                  engine_returns_B (listing [actor_A])
                  (JObj [("ReturnValue", actor_B)]) [done; done; done; done]
                  (JArr [actor_A]) actor_B
                  eq_refl eq_refl eq_refl eq_refl eq_refl)).
Defined.

(** ** The calls of modify_actor *)

Section ModifyCalls.
Context {PN : PyNumber}.

(** A checked call, followed by statements that make no call, under a
    handler that makes none: the payload goes out, one reply is used, and the
    block returns. *)
Lemma checked_call_run {A} payload (k : M A) (h : exn -> M A) st r rest :
  replies st = r :: rest ->
  (forall st0, exists a st1, k st0 = (Ret a, st1) /\
                             sent st1 = sent st0 /\ replies st1 = replies st0) ->
  (forall e st0, exists a st1, h e st0 = (Ret a, st1) /\
                               sent st1 = sent st0 /\ replies st1 = replies st0) ->
  exists a st',
    try_except (bind (put_checked payload) (fun _ => k)) h st = (Ret a, st') /\
    sent st' = sent st ++ [payload] /\ replies st' = rest.
Proof.
  intros Hr Hk Hh. destruct (failed r) eqn:Hf.
  - destruct (put_checked_failed st payload r rest Hr Hf) as (e & _ & E).
    rewrite (try_except_bind_raise _ _ _ _ _ _ E).
    destruct (Hh e (called st payload rest [])) as (a & st1 & E1 & Hs & Hrep).
    exists a, st1. rewrite E1, Hs, Hrep. repeat split.
  - destruct (put_checked_passes st payload r rest Hr Hf) as (resp & E).
    rewrite (try_except_bind_ret _ _ _ _ _ _ E). cbv beta.
    destruct (Hk (called st payload rest [])) as (a & st1 & E1 & Hs & Hrep).
    exists a, st1. unfold try_except. rewrite E1, Hs, Hrep. repeat split.
Qed.

Lemma group_error_quiet text key vars e st0 :
  exists a st1, group_error text key vars e st0 = (Ret a, st1) /\
                sent st1 = sent st0 /\ replies st1 = replies st0.
Proof. eexists. eexists. split; [reflexivity|]. split; reflexivity. Qed.

Lemma ret_quiet {A} (a : A) st0 :
  exists a' st1, ret a st0 = (Ret a', st1) /\
                 sent st1 = sent st0 /\ replies st1 = replies st0.
Proof. eexists. eexists. split; [reflexivity|]. split; reflexivity. Qed.

(** The value [.get("ReturnValue", default)] gives for a body, and what the
    three components become. *)
Lemma reported_value_get kv current default a b c ka kb kc d :
  reports kv current ->
  lookup ka default = Some (PyInt d) ->
  lookup kb default = Some (PyInt d) ->
  lookup kc default = Some (PyInt d) ->
  exists current',
    py_get (JObj kv) "ReturnValue" (JObj default) = Ret (JObj current') /\
    filled a ka current' d = filled a ka current d /\
    filled b kb current' d = filled b kb current d /\
    filled c kc current' d = filled c kc current d.
Proof.
  intros [Hsome | [Hnone ->]] Ha Hb Hc.
  - exists current. simpl. rewrite Hsome. repeat split.
  - exists default. simpl. rewrite Hnone. split; [reflexivity|].
    unfold filled. rewrite Ha, Hb, Hc. simpl.
    destruct a, b, c; repeat split.
Qed.

Lemma modify_location_block actor_path x y z vars st kv current r_set rest :
  replies st = group_replies (any_given [x; y; z]) (good (JObj kv)) r_set ++ rest ->
  reports kv current ->
  exists vars' st',
    modify_location actor_path x y z vars st = (Ret vars', st') /\
    replies st' = rest /\
    sent st' =
      sent st ++
      group_calls (any_given [x; y; z])
        (getter_payload actor_path "GetActorLocation")
        (set_location_payload (JStr actor_path)
           (JObj [("X", filled x "X" current 0);
                  ("Y", filled y "Y" current 0);
                  ("Z", filled z "Z" current 0)])).
Proof.
  intros Hr Hrep. unfold modify_location, group_replies, group_calls in *.
  destruct (any_given [x; y; z]).
  - simpl in Hr.
    destruct (reported_value_get kv current
                [("X", PyInt 0); ("Y", PyInt 0); ("Z", PyInt 0)]
                x y z "X" "Y" "Z" 0 Hrep eq_refl eq_refl eq_refl)
      as (current' & Hget & <- & <- & <-).
    try_step_put_ok Hr. try_step_json. try_step_pure Hget.
    try_step_pure (overlay_filled x current' "X" 0).
    try_step_pure (overlay_filled y current' "Y" 0).
    try_step_pure (overlay_filled z current' "Z" 0).
    match goal with
    | |- context [try_except (bind (put_checked ?pl) (fun _ => ?k)) ?h ?s] =>
        destruct (checked_call_run pl k h s r_set rest eq_refl)
          as (a & st' & E & Hs & Hrest)
    end.
    + apply ret_quiet.
    + apply group_error_quiet.
    + exists a, st'. rewrite E, Hs, Hrest. split; [reflexivity|].
      split; [reflexivity|]. simpl. rewrite <- app_assoc. reflexivity.
  - exists vars, st. simpl in Hr. rewrite app_nil_r. repeat split. exact Hr.
Qed.

Lemma modify_rotation_block actor_path pitch yaw roll vars st kv current r_set rest :
  replies st
  = group_replies (any_given [pitch; yaw; roll]) (good (JObj kv)) r_set ++ rest ->
  reports kv current ->
  exists vars' st',
    modify_rotation actor_path pitch yaw roll vars st = (Ret vars', st') /\
    replies st' = rest /\
    sent st' =
      sent st ++
      group_calls (any_given [pitch; yaw; roll])
        (getter_payload actor_path "GetActorRotation")
        (set_rotation_payload (JStr actor_path)
           (JObj [("Pitch", filled pitch "Pitch" current 0);
                  ("Yaw", filled yaw "Yaw" current 0);
                  ("Roll", filled roll "Roll" current 0)])).
Proof.
  intros Hr Hrep. unfold modify_rotation, group_replies, group_calls in *.
  destruct (any_given [pitch; yaw; roll]).
  - simpl in Hr.
    destruct (reported_value_get kv current
                [("Pitch", PyInt 0); ("Yaw", PyInt 0); ("Roll", PyInt 0)]
                pitch yaw roll "Pitch" "Yaw" "Roll" 0 Hrep
                eq_refl eq_refl eq_refl)
      as (current' & Hget & <- & <- & <-).
    try_step_put_ok Hr. try_step_json. try_step_pure Hget.
    try_step_pure (overlay_filled pitch current' "Pitch" 0).
    try_step_pure (overlay_filled yaw current' "Yaw" 0).
    try_step_pure (overlay_filled roll current' "Roll" 0).
    match goal with
    | |- context [try_except (bind (put_checked ?pl) (fun _ => ?k)) ?h ?s] =>
        destruct (checked_call_run pl k h s r_set rest eq_refl)
          as (a & st' & E & Hs & Hrest)
    end.
    + apply ret_quiet.
    + apply group_error_quiet.
    + exists a, st'. rewrite E, Hs, Hrest. split; [reflexivity|].
      split; [reflexivity|]. simpl. rewrite <- app_assoc. reflexivity.
  - exists vars, st. simpl in Hr. rewrite app_nil_r. repeat split. exact Hr.
Qed.

Lemma modify_scale_block actor_path scale_x scale_y scale_z vars st
      kv current r_set rest :
  replies st
  = group_replies (any_given [scale_x; scale_y; scale_z]) (good (JObj kv)) r_set
    ++ rest ->
  reports kv current ->
  exists vars' st',
    modify_scale actor_path scale_x scale_y scale_z vars st = (Ret vars', st') /\
    replies st' = rest /\
    sent st' =
      sent st ++
      group_calls (any_given [scale_x; scale_y; scale_z])
        (getter_payload actor_path "GetActorScale3D")
        (set_scale_payload (JStr actor_path)
           (JObj [("X", filled scale_x "X" current 1);
                  ("Y", filled scale_y "Y" current 1);
                  ("Z", filled scale_z "Z" current 1)])).
Proof.
  intros Hr Hrep. unfold modify_scale, group_replies, group_calls in *.
  destruct (any_given [scale_x; scale_y; scale_z]).
  - simpl in Hr.
    destruct (reported_value_get kv current
                [("X", PyInt 1); ("Y", PyInt 1); ("Z", PyInt 1)]
                scale_x scale_y scale_z "X" "Y" "Z" 1 Hrep
                eq_refl eq_refl eq_refl)
      as (current' & Hget & <- & <- & <-).
    try_step_put_ok Hr. try_step_json. try_step_pure Hget.
    try_step_pure (overlay_filled scale_x current' "X" 1).
    try_step_pure (overlay_filled scale_y current' "Y" 1).
    try_step_pure (overlay_filled scale_z current' "Z" 1).
    match goal with
    | |- context [try_except (bind (put_checked ?pl) (fun _ => ?k)) ?h ?s] =>
        destruct (checked_call_run pl k h s r_set rest eq_refl)
          as (a & st' & E & Hs & Hrest)
    end.
    + intros st0. unfold try_except, bind, lift.
      destruct (scale_report _ _ _ _); eexists; eexists;
        (split; [reflexivity|]); split; reflexivity.
    + apply group_error_quiet.
    + exists a, st'. rewrite E, Hs, Hrest. split; [reflexivity|].
      split; [reflexivity|]. simpl. rewrite <- app_assoc. reflexivity.
  - exists vars, st. simpl in Hr. rewrite app_nil_r. repeat split. exact Hr.
Qed.

Lemma modify_name_block actor_path name vars st :
  exists vars' st',
    modify_name actor_path name vars st = (Ret vars', st') /\
    sent st' = sent st ++ label_calls actor_path name.
Proof.
  unfold modify_name, label_calls. destruct name as [n|].
  - destruct (replies st) as [|r rest] eqn:Hr.
    + destruct (put_checked_unreachable st
                  (set_name_payload (JStr actor_path) (JStr n)) Hr)
        as (e & _ & E).
      rewrite (try_except_bind_raise _ _ _ _ _ _ E).
      eexists. eexists. split; reflexivity.
    + match goal with
      | |- context [try_except (bind (put_checked ?pl) (fun _ => ?k)) ?h ?s] =>
          destruct (checked_call_run pl k h s r rest Hr)
            as (a & st' & E & Hs & _)
      end.
      * apply ret_quiet.
      * apply group_error_quiet.
      * exists a, st'. split; [exact E | exact Hs].
  - exists vars, st. rewrite app_nil_r. split; reflexivity.
Qed.

(** The calls of a request whose reads are all answered. *)
Lemma modify_actor_sends
    actor_path x y z pitch yaw roll scale_x scale_y scale_z name st
    kv_loc kv_rot kv_scale cur_loc cur_rot cur_scale r_loc r_rot r_scale rest :
  replies st
  = group_replies (any_given [x; y; z]) (good (JObj kv_loc)) r_loc
    ++ group_replies (any_given [pitch; yaw; roll]) (good (JObj kv_rot)) r_rot
    ++ group_replies (any_given [scale_x; scale_y; scale_z])
                     (good (JObj kv_scale)) r_scale
    ++ rest ->
  reports kv_loc cur_loc -> reports kv_rot cur_rot -> reports kv_scale cur_scale ->
  sent (snd (modify_actor actor_path x y z pitch yaw roll
                          scale_x scale_y scale_z name st))
  = sent st
    ++ group_calls (any_given [x; y; z])
         (getter_payload actor_path "GetActorLocation")
         (set_location_payload (JStr actor_path)
            (JObj [("X", filled x "X" cur_loc 0);
                   ("Y", filled y "Y" cur_loc 0);
                   ("Z", filled z "Z" cur_loc 0)]))
    ++ group_calls (any_given [pitch; yaw; roll])
         (getter_payload actor_path "GetActorRotation")
         (set_rotation_payload (JStr actor_path)
            (JObj [("Pitch", filled pitch "Pitch" cur_rot 0);
                   ("Yaw", filled yaw "Yaw" cur_rot 0);
                   ("Roll", filled roll "Roll" cur_rot 0)]))
    ++ group_calls (any_given [scale_x; scale_y; scale_z])
         (getter_payload actor_path "GetActorScale3D")
         (set_scale_payload (JStr actor_path)
            (JObj [("X", filled scale_x "X" cur_scale 1);
                   ("Y", filled scale_y "Y" cur_scale 1);
                   ("Z", filled scale_z "Z" cur_scale 1)]))
    ++ label_calls actor_path name.
Proof.
  intros Hr Hloc Hrot Hscale. unfold modify_actor.
  destruct (modify_location_block actor_path x y z (false, []) st
              kv_loc cur_loc r_loc _ Hr Hloc) as (v1 & st1 & E1 & R1 & S1).
  destruct (modify_rotation_block actor_path pitch yaw roll v1 st1
              kv_rot cur_rot r_rot _ R1 Hrot) as (v2 & st2 & E2 & R2 & S2).
  destruct (modify_scale_block actor_path scale_x scale_y scale_z v2 st2
              kv_scale cur_scale r_scale _ R2 Hscale)
    as (v3 & st3 & E3 & R3 & S3).
  destruct (modify_name_block actor_path name v3 st3) as (v4 & st4 & E4 & S4).
  rewrite (try_except_bind_ret _ _ _ _ _ _ E1). cbv beta.
  rewrite (try_except_bind_ret _ _ _ _ _ _ E2). cbv beta.
  rewrite (try_except_bind_ret _ _ _ _ _ _ E3). cbv beta.
  rewrite (try_except_bind_ret _ _ _ _ _ _ E4). cbv beta.
  assert (Hend : forall (a b : tool_result),
             sent (snd (try_except (if fst v4 then ret a else ret b)
                          (fun e => bind (log_tool_error "Error in modify_actor: {str(e)}" e)
                                         (fun _ => ret (failure (message e)))) st4))
             = sent st4)
    by (intros a b; destruct (fst v4); reflexivity).
  rewrite Hend, S4, S3, S2, S1. rewrite <- !app_assoc. reflexivity.
Qed.

End ModifyCalls.

Section ModifyClaims.
Context {PN : PyNumber}.

Lemma filled_choose param key current default c :
  lookup key current = Some (JNum c) ->
  filled param key current default = JNum (choose param c).
Proof. intros H. unfold filled, choose. rewrite H. destruct param; reflexivity. Qed.

(** C6. [modify_actor], for a request of any shape, when the engine answers
    each read with the group's current value.  For location, rotation and
    scale alike: if the request gives a component of the group, the current
    value is read first and one set call follows, in which every component is
    the one given or, when none is given, the one read; a group of which
    nothing is given makes no call at all.  The label call, if a name is
    given, comes last. *)
Theorem modify_actor_overlays_given_components
    actor_path x y z pitch yaw roll scale_x scale_y scale_z name st
    cur_x cur_y cur_z cur_pitch cur_yaw cur_roll cur_sx cur_sy cur_sz
    r_loc r_rot r_scale rest :
  replies st
  = group_replies (any_given [x; y; z])
                  (returning (xyz (cur_x, cur_y, cur_z))) r_loc
    ++ group_replies (any_given [pitch; yaw; roll])
                     (returning (rotator (cur_pitch, cur_yaw, cur_roll))) r_rot
    ++ group_replies (any_given [scale_x; scale_y; scale_z])
                     (returning (xyz (cur_sx, cur_sy, cur_sz))) r_scale
    ++ rest ->
  sent (snd (modify_actor actor_path x y z pitch yaw roll
                          scale_x scale_y scale_z name st))
  = sent st
    ++ group_calls (any_given [x; y; z])
         (getter_payload actor_path "GetActorLocation")
         (set_location_payload (JStr actor_path)
            (xyz (choose x cur_x, choose y cur_y, choose z cur_z)))
    ++ group_calls (any_given [pitch; yaw; roll])
         (getter_payload actor_path "GetActorRotation")
         (set_rotation_payload (JStr actor_path)
            (rotator (choose pitch cur_pitch, choose yaw cur_yaw,
                      choose roll cur_roll)))
    ++ group_calls (any_given [scale_x; scale_y; scale_z])
         (getter_payload actor_path "GetActorScale3D")
         (set_scale_payload (JStr actor_path)
            (xyz (choose scale_x cur_sx, choose scale_y cur_sy,
                  choose scale_z cur_sz)))
    ++ label_calls actor_path name.
Proof.
  intros Hr.
  rewrite (modify_actor_sends
             actor_path x y z pitch yaw roll scale_x scale_y scale_z name st
             [("ReturnValue", xyz (cur_x, cur_y, cur_z))]
             [("ReturnValue", rotator (cur_pitch, cur_yaw, cur_roll))]
             [("ReturnValue", xyz (cur_sx, cur_sy, cur_sz))]
             [("X", JNum cur_x); ("Y", JNum cur_y); ("Z", JNum cur_z)]
             [("Pitch", JNum cur_pitch); ("Yaw", JNum cur_yaw);
              ("Roll", JNum cur_roll)]
             [("X", JNum cur_sx); ("Y", JNum cur_sy); ("Z", JNum cur_sz)]
             r_loc r_rot r_scale rest Hr
             (or_introl eq_refl) (or_introl eq_refl) (or_introl eq_refl)).
  rewrite (filled_choose x "X" [("X", JNum cur_x); ("Y", JNum cur_y); ("Z", JNum cur_z)] 0 cur_x eq_refl),
    (filled_choose y "Y" [("X", JNum cur_x); ("Y", JNum cur_y); ("Z", JNum cur_z)] 0 cur_y eq_refl),
    (filled_choose z "Z" [("X", JNum cur_x); ("Y", JNum cur_y); ("Z", JNum cur_z)] 0 cur_z eq_refl),
    (filled_choose pitch "Pitch" [("Pitch", JNum cur_pitch); ("Yaw", JNum cur_yaw); ("Roll", JNum cur_roll)] 0 cur_pitch eq_refl),
    (filled_choose yaw "Yaw" [("Pitch", JNum cur_pitch); ("Yaw", JNum cur_yaw); ("Roll", JNum cur_roll)] 0 cur_yaw eq_refl),
    (filled_choose roll "Roll" [("Pitch", JNum cur_pitch); ("Yaw", JNum cur_yaw); ("Roll", JNum cur_roll)] 0 cur_roll eq_refl),
    (filled_choose scale_x "X" [("X", JNum cur_sx); ("Y", JNum cur_sy); ("Z", JNum cur_sz)] 1 cur_sx eq_refl),
    (filled_choose scale_y "Y" [("X", JNum cur_sx); ("Y", JNum cur_sy); ("Z", JNum cur_sz)] 1 cur_sy eq_refl),
    (filled_choose scale_z "Z" [("X", JNum cur_sx); ("Y", JNum cur_sy); ("Z", JNum cur_sz)] 1 cur_sz eq_refl).
  reflexivity.
Qed.

(** C10. [modify_actor], for a request of any shape, when the reads succeed
    but a body has no [ReturnValue] or its [ReturnValue] lacks a component.
    The set call of each requested group is made all the same, and a
    component that is neither given nor reported is written as the default:
    0 for location and rotation, 1 for scale. *)
Theorem modify_actor_fills_defaults
    actor_path x y z pitch yaw roll scale_x scale_y scale_z name st
    kv_loc kv_rot kv_scale cur_loc cur_rot cur_scale r_loc r_rot r_scale rest :
  replies st
  = group_replies (any_given [x; y; z]) (good (JObj kv_loc)) r_loc
    ++ group_replies (any_given [pitch; yaw; roll]) (good (JObj kv_rot)) r_rot
    ++ group_replies (any_given [scale_x; scale_y; scale_z])
                     (good (JObj kv_scale)) r_scale
    ++ rest ->
  reports kv_loc cur_loc -> reports kv_rot cur_rot -> reports kv_scale cur_scale ->
  sent (snd (modify_actor actor_path x y z pitch yaw roll
                          scale_x scale_y scale_z name st))
  = sent st
    ++ group_calls (any_given [x; y; z])
         (getter_payload actor_path "GetActorLocation")
         (set_location_payload (JStr actor_path)
            (JObj [("X", filled x "X" cur_loc 0);
                   ("Y", filled y "Y" cur_loc 0);
                   ("Z", filled z "Z" cur_loc 0)]))
    ++ group_calls (any_given [pitch; yaw; roll])
         (getter_payload actor_path "GetActorRotation")
         (set_rotation_payload (JStr actor_path)
            (JObj [("Pitch", filled pitch "Pitch" cur_rot 0);
                   ("Yaw", filled yaw "Yaw" cur_rot 0);
                   ("Roll", filled roll "Roll" cur_rot 0)]))
    ++ group_calls (any_given [scale_x; scale_y; scale_z])
         (getter_payload actor_path "GetActorScale3D")
         (set_scale_payload (JStr actor_path)
            (JObj [("X", filled scale_x "X" cur_scale 1);
                   ("Y", filled scale_y "Y" cur_scale 1);
                   ("Z", filled scale_z "Z" cur_scale 1)]))
    ++ label_calls actor_path name.
Proof.
  intros Hr Hloc Hrot Hscale.
  exact (modify_actor_sends
           actor_path x y z pitch yaw roll scale_x scale_y scale_z name st
           kv_loc kv_rot kv_scale cur_loc cur_rot cur_scale
           r_loc r_rot r_scale rest Hr Hloc Hrot Hscale).
Qed.

End ModifyClaims.

(** The scenario of the specification: [x = 10] for an actor at [(0, 0, 0)]
    facing [(0, 90, 0)] sets the location [(10, 0, 0)] and makes no rotation
    call.  And a request that gives only [yaw = 45], for an actor facing
    [(0, 90, 0)], reads the rotation and sets [(0, 45, 0)]. *)
Lemma modify_actor_overlays_given_components_witness :
  sent (snd (move_x_to_10 engine_at_origin))
  = [getter_payload "ref" "GetActorLocation";
     set_location_payload (JStr "ref") (xyz ((10, 0, 0)%Q : @vec3 QNumber))] /\
  sent (snd (modify_actor (PN := QNumber) "ref" None None None
                          None (Some 45%Q) None None None None None
                          engine_facing_east))
  = [getter_payload "ref" "GetActorRotation";
     set_rotation_payload (JStr "ref")
       (rotator ((0, 45, 0)%Q : @vec3 QNumber))].
Proof.
  split.
  - exact (modify_actor_overlays_given_components
             (PN := QNumber) "ref" (Some 10%Q) None None None None None
             None None None None engine_at_origin
             0%Q 0%Q 0%Q 0%Q 90%Q 0%Q 1%Q 1%Q 1%Q
             done done done [] eq_refl).
  - exact (modify_actor_overlays_given_components
             (PN := QNumber) "ref" None None None None (Some 45%Q) None
             None None None None engine_facing_east
             0%Q 0%Q 0%Q 0%Q 90%Q 0%Q 1%Q 1%Q 1%Q
             done done done [] eq_refl).
Defined.

(** Every read is answered without a [ReturnValue]: the request [x = 10],
    [yaw = 45], [scale_x = 2] moves the actor to [(10, 0, 0)], turns it to
    [(0, 45, 0)] and scales it to [(2, 1, 1)], whatever its other components
    were. *)
Lemma modify_actor_fills_defaults_witness :
  sent (snd (modify_actor (PN := QNumber) "ref" (Some 10%Q) None None
                          None (Some 45%Q) None (Some 2%Q) None None None
                          engine_reports_no_values))
  = [getter_payload "ref" "GetActorLocation";
     set_location_payload (JStr "ref")
       (JObj [("X", number 10); ("Y", number 0); ("Z", number 0)]);
     getter_payload "ref" "GetActorRotation";
     set_rotation_payload (JStr "ref")
       (JObj [("Pitch", number 0); ("Yaw", number 45); ("Roll", number 0)]);
     getter_payload "ref" "GetActorScale3D";
     set_scale_payload (JStr "ref")
       (JObj [("X", number 2); ("Y", number 1); ("Z", number 1)])].
Proof.
  exact (modify_actor_fills_defaults
           (PN := QNumber) "ref" (Some 10%Q) None None None (Some 45%Q) None
           (Some 2%Q) None None None engine_reports_no_values
           [] [] [] [] [] [] done done done []
           eq_refl
           (or_intror (conj eq_refl eq_refl))
           (or_intror (conj eq_refl eq_refl))
           (or_intror (conj eq_refl eq_refl))).
Defined.

(** ** The answers of the two composite tools *)

Section CompositeAnswers.
Context {PN : PyNumber}.

Lemma try_except_bind_same {A B} (m m' : M A) (k : A -> M B) h st st' :
  m st = m' st' ->
  try_except (bind m k) h st = try_except (bind m' k) h st'.
Proof. intro E. unfold try_except, bind. rewrite E. reflexivity. Qed.

(** One turn of the duplication loop, in terms of what the helper gives. *)
Lemma duplicate_each_turn first positions rotations scales names i tl
      spawned st position rotation scale name :
  item positions i = Ret position -> item rotations i = Ret rotation ->
  item scales i = Ret scale -> item names i = Ret name ->
  duplicate_each (i :: tl) first positions rotations scales names spawned st
  = duplicate_each tl first positions rotations scales names
      (spawned ++
       entries_of
         (reference
            (fst (duplicate_snowman first position rotation scale (Some name) st)))
         position rotation scale name)
      (after_duplication i
         (reference
            (fst (duplicate_snowman first position rotation scale (Some name) st)))
         (snd (duplicate_snowman first position rotation scale (Some name) st))).
Proof.
  intros Hp Hr Hs Hn. cbn [duplicate_each].
  step_pure Hp. step_pure Hr. step_pure Hs. step_pure Hn.
  destruct (duplicate_snowman_returns first position rotation scale (Some name) st)
    as (d & st1 & Ed).
  step Ed. rewrite Ed. destruct d as [q|]; simpl returned; cbv iota.
  - rewrite (duplicate_snowman_truthy _ _ _ _ _ _ _ _ Ed); cbv iota.
    rewrite (bind_ret _ _ _ _ _ (ret_run _ _)). cbv beta. step_sleep.
    reflexivity.
  - match goal with
    | |- context [bind (bind (logger ?l ?t ?a) ?k) _ ?st0] =>
        assert (El : bind (logger l t a) k st0
                     = (Ret spawned, noted st0 [Log l t a]))
          by reflexivity;
        step El
    end.
    step_sleep. simpl. rewrite app_nil_r. reflexivity.
Qed.

(** X14. [spawn_snowman_family] never raises, and its answer is decided by
    what the two helpers, which never raise either, give.  The first snowman is spawned at the base
    position, after the random draw if there is one.  If that gives no
    reference the answer is the failure "Failed to spawn first snowman,
    cannot continue" and nothing is duplicated.  If it gives one, the two
    duplications are made from it, one after the other, and the answer is a
    success whatever they give: it lists the spawned snowman and then each
    duplicate that gave a reference, and [snowmen_count] is the length of
    that list. *)
Theorem spawn_snowman_family_answers
    (base_x base_y base_z spread : num) (random_placement : bool) (st : state) :
  let factor :=
    num_add (num_lit (4 # 5)%Q)
            (num_mul (num_sub (num_lit (6 # 5)%Q) (num_lit (4 # 5)%Q))
                     (random_source st (random_used st))) in
  let offset_factor :=
    if random_placement then num_mul spread factor else spread in
  let st0 :=
    if random_placement
    then with_random st (random_source st) (S (random_used st)) else st in
  let center := (base_x, base_y, base_z) in
  let positions := family_positions base_x base_y base_z offset_factor in
  let facing0 := (int_lit 0, int_lit 0, int_lit 0) in
  let facing1 := (int_lit 0, int_lit 135, int_lit 0) in
  let facing2 := (int_lit 0, int_lit (-45), int_lit 0) in
  let scale0 := (num_lit (6 # 5)%Q, num_lit (6 # 5)%Q, num_lit (6 # 5)%Q) in
  let scale1 := (num_lit (9 # 10)%Q, num_lit (9 # 10)%Q, num_lit (9 # 10)%Q) in
  let scale2 := (num_lit (7 # 5)%Q, num_lit (7 # 5)%Q, num_lit (7 # 5)%Q) in
  let spawned :=
    spawn_blueprint_actor "/Game/Snowman_BP.Snowman_BP_C" center facing0 scale0
                          (Some "Snowman_Center") st0 in
  fst (spawn_snowman_family base_x base_y base_z spread random_placement st)
  = Ret
      (match reference (fst spawned) with
       | None =>
           family_failure "Failed to spawn first snowman, cannot continue"
       | Some first =>
           let left :=
             duplicate_snowman first (nth 1 positions center) facing1 scale1
                               (Some "Snowman_Left") (snd spawned) in
           let right :=
             duplicate_snowman first (nth 2 positions center) facing2 scale2
                               (Some "Snowman_Right")
                               (after_duplication 1 (reference (fst left))
                                                  (snd left)) in
           family_success
             (snowman_entry first center facing0 scale0 "Snowman_Center"
              :: entries_of (reference (fst left)) (nth 1 positions center)
                            facing1 scale1 "Snowman_Left"
              ++ entries_of (reference (fst right)) (nth 2 positions center)
                            facing2 scale2 "Snowman_Right")
       end).
Proof.
  intros factor offset_factor st0 center positions
         facing0 facing1 facing2 scale0 scale1 scale2 spawned.
  unfold spawn_snowman_family. cbv zeta.
  assert (Eoff :
            (if random_placement
             then bind (random_uniform (num_lit (4 # 5)%Q) (num_lit (6 # 5)%Q))
                       (fun u => ret (num_mul spread u))
             else ret spread) st = (Ret offset_factor, st0)).
  { subst offset_factor st0 factor. destruct random_placement; reflexivity. }
  rewrite (try_except_bind_ret _ _ _ _ _ _ Eoff). cbv beta.
  assert (E0 : item (family_positions base_x base_y base_z offset_factor) 0
               = Ret center) by reflexivity.
  assert (E1 : item family_rotations 0 = Ret facing0) by reflexivity.
  assert (E2 : item family_scales 0 = Ret scale0) by reflexivity.
  assert (E3 : item family_names 0 = Ret "Snowman_Center") by reflexivity.
  try_step_pure E0. try_step_pure E1. try_step_pure E2. try_step_pure E3.
  destruct (spawn_blueprint_actor_returns "/Game/Snowman_BP.Snowman_BP_C"
              center facing0 scale0 (Some "Snowman_Center") st0)
    as (first & st1 & Es).
  rewrite (try_except_bind_ret _ _ _ _ _ _ Es). cbv beta.
  subst spawned. rewrite Es. destruct first as [q|]; simpl returned.
  - rewrite (spawn_blueprint_actor_truthy _ _ _ _ _ _ _ _ Es). cbv [negb].
    unfold asyncio_sleep.
    rewrite (try_except_bind_ret _ _ _ _ _ _ (ret_run tt st1)). cbv beta.
    simpl path_json. simpl reference. cbv iota beta. simpl snd.
    subst positions.
    rewrite (try_except_bind_same _ _ _ _ _ _
               (duplicate_each_turn q
                  (family_positions base_x base_y base_z offset_factor)
                  family_rotations family_scales family_names 1 [2%nat] _ st1
                  (nth 1 (family_positions base_x base_y base_z offset_factor)
                       center)
                  facing1 scale1 "Snowman_Left"
                  eq_refl eq_refl eq_refl eq_refl)).
    rewrite (try_except_bind_same _ _ _ _ _ _
               (duplicate_each_turn q
                  (family_positions base_x base_y base_z offset_factor)
                  family_rotations family_scales family_names 2 [] _ _
                  (nth 2 (family_positions base_x base_y base_z offset_factor)
                       center)
                  facing2 scale2 "Snowman_Right"
                  eq_refl eq_refl eq_refl eq_refl)).
    rewrite <- app_assoc. reflexivity.
  - reflexivity.
Qed.

(** *** The report of modify_actor *)

Lemma entry_block key error_key (body : M locals) text vars st :
  is_value_key key = true -> is_value_key error_key = false ->
  (forall a st', body st = (Ret a, st') ->
                 exists v, a = (true, snd vars ++ [(key, v)])) ->
  exists vars' st' e,
    try_except body (group_error text error_key vars) st = (Ret vars', st') /\
    snd vars' = snd vars ++ e /\
    group_entry key error_key true e /\
    fst vars' = (fst vars || reports_change e)%bool.
Proof.
  intros Hk Hek Hb. unfold try_except.
  destruct (body st) as [[a|e] st1] eqn:E.
  - destruct (Hb a st1 eq_refl) as (v & ->).
    exists (true, snd vars ++ [(key, v)]), st1, [(key, v)].
    split; [reflexivity|]. split; [reflexivity|].
    split; [exists v; left; reflexivity|].
    unfold reports_change. simpl. rewrite Hk. simpl.
    symmetry. apply orb_true_r.
  - eexists. eexists. exists [(error_key, JStr (message e))].
    split; [reflexivity|]. split; [reflexivity|].
    split; [eexists; right; reflexivity|].
    unfold reports_change. simpl. rewrite Hek. simpl.
    symmetry. apply orb_false_r.
Qed.

Lemma no_entry key error_key (vars : locals) (st : state) :
  exists vars' st' e,
    (Ret vars, st) = (Ret vars', st') /\
    snd vars' = snd vars ++ e /\
    group_entry key error_key false e /\
    fst vars' = (fst vars || reports_change e)%bool.
Proof.
  exists vars, st, []. rewrite app_nil_r. repeat split.
  simpl. symmetry. apply orb_false_r.
Qed.

Lemma modify_location_entry actor_path x y z vars st :
  exists vars' st' e,
    modify_location actor_path x y z vars st = (Ret vars', st') /\
    snd vars' = snd vars ++ e /\
    group_entry "location_cm" "location_error" (any_given [x; y; z]) e /\
    fst vars' = (fst vars || reports_change e)%bool.
Proof.
  unfold modify_location. destruct (any_given [x; y; z]).
  - apply entry_block; [reflexivity | reflexivity |].
    intros a st' H. invert_binds. apply ret_inv in H. subst a.
    eexists. reflexivity.
  - apply no_entry.
Qed.

Lemma modify_rotation_entry actor_path pitch yaw roll vars st :
  exists vars' st' e,
    modify_rotation actor_path pitch yaw roll vars st = (Ret vars', st') /\
    snd vars' = snd vars ++ e /\
    group_entry "rotation" "rotation_error" (any_given [pitch; yaw; roll]) e /\
    fst vars' = (fst vars || reports_change e)%bool.
Proof.
  unfold modify_rotation. destruct (any_given [pitch; yaw; roll]).
  - apply entry_block; [reflexivity | reflexivity |].
    intros a st' H. invert_binds. apply ret_inv in H. subst a.
    eexists. reflexivity.
  - apply no_entry.
Qed.

Lemma modify_name_entry actor_path name vars st :
  exists vars' st' e,
    modify_name actor_path name vars st = (Ret vars', st') /\
    snd vars' = snd vars ++ e /\
    group_entry "name" "name_error"
                (match name with Some _ => true | None => false end) e /\
    fst vars' = (fst vars || reports_change e)%bool.
Proof.
  unfold modify_name. destruct name as [n|].
  - apply entry_block; [reflexivity | reflexivity |].
    intros a st' H. invert_binds. apply ret_inv in H. subst a.
    eexists. reflexivity.
  - apply no_entry.
Qed.

(** The scale block sets [modified] before it builds its report: when
    building it raises, which it can only for a snowman, the block reports an
    error although the scale was set. *)
Lemma modify_scale_entry actor_path scale_x scale_y scale_z vars st :
  exists vars' st' e,
    modify_scale actor_path scale_x scale_y scale_z vars st = (Ret vars', st') /\
    snd vars' = snd vars ++ e /\
    group_entry "scale" "scale_error"
                (any_given [scale_x; scale_y; scale_z]) e /\
    (fst vars' = (fst vars || reports_change e)%bool
     \/ (fst vars' = true /\ (exists v, e = [("scale_error", v)]) /\
         is_substring "Snowman_BP" actor_path = true)).
Proof.
  unfold modify_scale. destruct (any_given [scale_x; scale_y; scale_z]).
  - unfold try_except at 1.
    match goal with
    | |- context [match ?b st with _ => _ end] =>
        destruct (b st) as [[a|e] st1] eqn:E
    end.
    + invert_binds. unfold try_except, bind, lift in E.
      unfold scale_report in E.
      destruct (is_substring "Snowman_BP" actor_path) eqn:Hsnow.
      * match type of E with
        | context [rbind ?r _] => destruct r as [w|e1]
        end; simpl in E.
        -- match type of E with
           | context [rbind ?r _] => destruct r as [l|e2]
           end; simpl in E.
           ++ unfold ret in E. inversion E; subst.
              eexists. eexists. eexists.
              split; [reflexivity|]. split; [reflexivity|].
              split; [eexists; left; reflexivity|].
              left. simpl. symmetry. apply orb_true_r.
           ++ unfold group_error, bind, logger, ret in E. simpl in E.
              inversion E; subst.
              eexists. eexists. eexists.
              split; [reflexivity|]. split; [reflexivity|].
              split; [eexists; right; reflexivity|].
              right. split; [reflexivity|]. split; [eexists; reflexivity|].
              reflexivity.
        -- unfold group_error, bind, logger, ret in E. simpl in E.
           inversion E; subst.
           eexists. eexists. eexists.
           split; [reflexivity|]. split; [reflexivity|].
           split; [eexists; right; reflexivity|].
           right. split; [reflexivity|]. split; [eexists; reflexivity|].
           reflexivity.
      * simpl in E. unfold ret in E. inversion E; subst.
        eexists. eexists. eexists.
        split; [reflexivity|]. split; [reflexivity|].
        split; [eexists; left; reflexivity|].
        left. simpl. symmetry. apply orb_true_r.
    + eexists. eexists. eexists.
      split; [reflexivity|]. split; [reflexivity|].
      split; [eexists; right; reflexivity|].
      left. simpl. symmetry. apply orb_false_r.
  - destruct (no_entry "scale" "scale_error" vars st)
      as (v & s' & e & E & Hs & Hg & Hm).
    exists v, s', e. repeat split; try assumption. left. exact Hm.
Qed.

Lemma reports_change_app e1 e2 :
  reports_change (e1 ++ e2) = (reports_change e1 || reports_change e2)%bool.
Proof. apply existsb_app. Qed.

(** X16. [modify_actor] never raises, and its answer reports every requested
    group exactly once, in the order location, rotation, scale, name: a
    group of which no parameter was given adds nothing, and a requested one
    adds one entry, either under its own key ([location_cm], [rotation],
    [scale], [name]) or under its error key.  The answer is the success
    shape exactly when some group is reported under its own key, with one
    exception, which needs a snowman path and the scale reported under
    [scale_error]: there the answer is a success whatever the other groups
    report. *)
Theorem modify_actor_reports_every_requested_group
    actor_path x y z pitch yaw roll scale_x scale_y scale_z name st :
  exists modified e_location e_rotation e_scale e_name,
    fst (modify_actor actor_path x y z pitch yaw roll scale_x scale_y scale_z
                      name st)
    = Ret (modify_answer actor_path modified
             (e_location ++ e_rotation ++ e_scale ++ e_name)) /\
    group_entry "location_cm" "location_error" (any_given [x; y; z])
                e_location /\
    group_entry "rotation" "rotation_error" (any_given [pitch; yaw; roll])
                e_rotation /\
    group_entry "scale" "scale_error"
                (any_given [scale_x; scale_y; scale_z]) e_scale /\
    group_entry "name" "name_error"
                (match name with Some _ => true | None => false end) e_name /\
    (modified
     = reports_change (e_location ++ e_rotation ++ e_scale ++ e_name)
     \/ (modified = true /\
         (exists v, e_scale = [("scale_error", v)]) /\
         is_substring "Snowman_BP" actor_path = true)).
Proof.
  destruct (modify_location_entry actor_path x y z (false, []) st)
    as (v1 & st1 & e1 & E1 & R1 & G1 & M1).
  destruct (modify_rotation_entry actor_path pitch yaw roll v1 st1)
    as (v2 & st2 & e2 & E2 & R2 & G2 & M2).
  destruct (modify_scale_entry actor_path scale_x scale_y scale_z v2 st2)
    as (v3 & st3 & e3 & E3 & R3 & G3 & M3).
  destruct (modify_name_entry actor_path name v3 st3)
    as (v4 & st4 & e4 & E4 & R4 & G4 & M4).
  exists (fst v4), e1, e2, e3, e4.
  assert (R : snd v4 = e1 ++ e2 ++ e3 ++ e4).
  { rewrite R4, R3, R2, R1. simpl. rewrite <- !app_assoc. reflexivity. }
  split.
  { unfold modify_actor.
    rewrite (try_except_bind_ret _ _ _ _ _ _ E1). cbv beta.
    rewrite (try_except_bind_ret _ _ _ _ _ _ E2). cbv beta.
    rewrite (try_except_bind_ret _ _ _ _ _ _ E3). cbv beta.
    rewrite (try_except_bind_ret _ _ _ _ _ _ E4). cbv beta.
    rewrite R. unfold modify_answer. destruct (fst v4); reflexivity. }
  repeat (split; [assumption|]).
  rewrite !reports_change_app. rewrite M4.
  destruct M3 as [M3 | (M3 & Hv & Hsnow)].
  - left. rewrite M3, M2, M1. simpl. rewrite !orb_assoc. reflexivity.
  - right. rewrite M3. simpl. repeat split; assumption.
Qed.

End CompositeAnswers.
